(** * Task inactivity orchestrator: a model of the tasks module and its laws

    The development embeds the TypeScript sources of the tasks module
    (scheduler, the two repositories, message templates, service and worker
    tick) as Rocq functions over an explicit world, and proves the
    properties the specification states about them.

    Modelling conventions.
    - A [Date] is its [getTime()] value, an integer number of milliseconds
      ([Z]); comparison of dates is comparison of these integers.
    - Strings are sequences of bytes.  [trim] strips the ASCII white space
      characters (tab, LF, VT, FF, CR, space) and [toLowerCase] maps the ASCII
      capitals; the other Unicode white space and capitals that the JavaScript
      built-ins also handle are outside the model.
    - [undefined]/[null] are [None].
    - The Scylla tables are part of the world.  The [tasks] table is a list
      of rows in the order the store returns them (LIMIT queries depend on
      it); the flex tables are finite maps keyed by their primary key.
    - Everything the code cannot decide by itself (the clock, the provider's
      answers, [JSON.parse], environment variables) comes from an [Env]
      record.  Provider answers and clock readings are indexed by the number
      of external interactions made so far, so that two identical calls may
      answer differently.
    - A JavaScript number is a finite binary fraction [m * 2^e], [NaN] or
      one of the two infinities.
    - A uuid is represented by the text its [toString()] gives.  The
      driver's [types.Uuid.fromString] and the SDK's [Twilio(sid, token)]
      are oracles of the environment: each returns or throws.
    - An asynchronous function is one function from world to world.  What
      is proved of a call holds when no other entry point runs between its
      [await]s; the scheduler is only touched by synchronous methods, so
      what is proved of [schedule] and [cancel] holds at every [await]. *)

From Stdlib Require Import ZArith String Ascii List Bool Lia.
From stdpp Require Import base option list gmap strings.

Set Warnings "-register-all".

Local Open Scope string_scope.
Local Open Scope Z_scope.

(** ** JavaScript string built-ins *)

Definition is_white_space (c : ascii) : bool :=
  match nat_of_ascii c with
  | 9%nat | 10%nat | 11%nat | 12%nat | 13%nat | 32%nat => true
  | _ => false
  end.

Fixpoint trimStart (s : string) : string :=
  match s with
  | EmptyString => EmptyString
  | String c r => if is_white_space c then trimStart r else s
  end.

Fixpoint trimEnd (s : string) : string :=
  match s with
  | EmptyString => EmptyString
  | String c r =>
      match trimEnd r with
      | EmptyString => if is_white_space c then EmptyString else String c EmptyString
      | r' => String c r'
      end
  end.

Definition trim (s : string) : string := trimEnd (trimStart s).

Definition lower_ascii (c : ascii) : ascii :=
  let n := nat_of_ascii c in
  if (Nat.leb 65 n && Nat.leb n 90)%bool then ascii_of_nat (n + 32) else c.

Fixpoint toLowerCase (s : string) : string :=
  match s with
  | EmptyString => EmptyString
  | String c r => String (lower_ascii c) (toLowerCase r)
  end.

Fixpoint startsWith (s p : string) : bool :=
  match p, s with
  | EmptyString, _ => true
  | String _ _, EmptyString => false
  | String a p', String b s' => bool_decide (a = b) && startsWith s' p'
  end.

Fixpoint includes (s p : string) : bool :=
  startsWith s p ||
  match s with
  | EmptyString => false
  | String _ s' => includes s' p
  end.

(** Truthiness of a string value: [undefined], [null] and [""] are falsy. *)
Definition nonempty (s : string) : bool := negb (bool_decide (s = "")).

Definition truthy (o : option string) : bool :=
  match o with
  | Some s => nonempty s
  | None => false
  end.

(** [o || d] on strings. *)
Definition or_else (o : option string) (d : string) : string :=
  match o with
  | Some s => if nonempty s then s else d
  | None => d
  end.

(** [o === s] for a possibly undefined [o]. *)
Definition is_string (o : option string) (s : string) : bool :=
  bool_decide (o = Some s).

(** ** JavaScript numbers *)

(** A double: the finite value [m * 2^e], [NaN], or an infinity. *)
Inductive number : Type :=
| Finite (m e : Z)
| NaN
| Infinity (negative : bool).

Definition of_Z (n : Z) : number := Finite n 0.

(** [Math.floor] of the finite value [m * 2^e]. *)
Definition floor_of (m e : Z) : Z :=
  if 0 <=? e then m * 2 ^ e else m / 2 ^ (- e).

(** [Number(v) || d], [o] being [Number(v)] for a variable that is set:
    [undefined] gives [NaN], and [NaN] and the two zeros are falsy. *)
Definition number_or (o : option number) (d : number) : number :=
  match o with
  | Some (Finite 0 _) => d
  | Some NaN => d
  | Some n => n
  | None => d
  end.

(** [a && a > b] on optional dates: [a] is set and strictly later than [b]. *)
Definition later_than (a : option Z) (b : Z) : bool :=
  match a with
  | Some x => b <? x
  | None => false
  end.

(** ** JSON values, as [JSON.parse] returns them *)

Inductive json : Type :=
| JNull
| JBool (b : bool)
| JNum (n : Z)
| JStr (s : string)
| JArr (items : list json)
| JObj (fields : list (string * json)).

Fixpoint assoc (k : string) (l : list (string * json)) : option json :=
  match l with
  | [] => None
  | (k', v) :: r => if bool_decide (k' = k) then Some v else assoc k r
  end.

(** Property read [o.k] on a parsed value.  Reading a property of [null]
    raises a TypeError ([None]); a primitive or an array has none of the
    property names the module reads. *)
Definition prop (o : json) (k : string) : option (option json) :=
  match o with
  | JNull => None
  | JObj fields => Some (assoc k fields)
  | _ => Some None
  end.

(** [typeof v === 'string'], returning the string. *)
Definition as_string (v : option json) : option string :=
  match v with
  | Some (JStr s) => Some s
  | _ => None
  end.

(** ** shared/types: Task *)

Inductive TaskStatus : Type := open | assigned | closed.

Global Instance TaskStatus_eq_dec : EqDecision TaskStatus.
Proof. solve_decision. Defined.

Record Task : Type := mkTask {
  id : string;
  customer_name : string;
  customer_contact : string;
  operator_id : option string;
  operator_name : option string;
  status : TaskStatus;
  created_at : Z;
  updated_at : Z;
  assigned_at : option Z;
  greeting_sent_at : option Z;
  ping_sent_at : option Z;
  inactive_sent_at : option Z;
  last_customer_activity_at : option Z;
  closed_at : option Z;
  close_reason : option string
}.

(** ** flex.tasks.repository: rows of flex_tasks and FlexTaskState *)

Module FlexRow.
(** A row of the flex_tasks table: every column but the key is nullable. *)
Record t : Type := mk {
  task_sid : string;
  conversation_sid : option string;
  channel_type : option string;
  customer_name : option string;
  customer_address : option string;
  customer_from : option string;
  worker_sid : option string;
  worker_name : option string;
  task_assignment_status : option string;
  task_attributes : option string;
  greeting_sent_at : option Z;
  ping_sent_at : option Z;
  inactive_sent_at : option Z;
  last_customer_activity_at : option Z;
  created_at : option Z;
  updated_at : option Z
}.

(** The row an UPDATE creates when the key is not there yet. *)
Definition blank (sid : string) : t :=
  mk sid None None None None None None None None None None None None None None None.
End FlexRow.

Module FlexTaskState.
Record t : Type := mk {
  task_sid : string;
  conversation_sid : option string;
  channel_type : option string;
  customer_name : option string;
  customer_address : option string;
  customer_from : option string;
  worker_sid : option string;
  worker_name : option string;
  task_assignment_status : option string;
  task_attributes : option string;
  greeting_sent_at : option Z;
  ping_sent_at : option Z;
  inactive_sent_at : option Z;
  last_customer_activity_at : option Z;
  created_at : Z;
  updated_at : Z
}.
End FlexTaskState.

(** ** What the provider returns *)

Record Workspace : Type := mkWorkspace {
  ws_sid : string;
  ws_friendlyName : option string
}.

Record ProviderTask : Type := mkProviderTask {
  pt_sid : string;
  pt_attributes : string;
  pt_assignmentStatus : string
}.

Record Reservation : Type := mkReservation {
  rv_workerName : option string;
  rv_workerSid : option string
}.

Record Worker : Type := mkWorker {
  wk_attributes : option string;
  wk_friendlyName : option string
}.

Record Participant : Type := mkParticipant {
  pa_identity : option string;
  pa_attributes : option string;
  (** [messagingBinding?.address] *)
  pa_bindingAddress : option string
}.

(** ** Calls that return or throw *)

Inductive outcome (A : Type) : Type :=
| Returned (a : A)
| Thrown (message : string).
Arguments Returned {A} a.
Arguments Thrown {A} message.

(** ** The environment: process.env, the clock, JSON.parse, the driver, the
    provider *)

Record Env : Type := mkEnv {
  TASKS_AUTO_SOURCE : option string;
  (** [Number(process.env.TASKS_AUTO_BATCH_SIZE)] when the variable is set *)
  TASKS_AUTO_BATCH_SIZE : option number;
  TASKS_FLEX_POLL_LIMIT : option number;
  TASKS_AUTOMATION_AUTHOR : option string;
  TASKS_FLEX_CLOSE_CONVERSATION : option string;
  TASKS_FLEX_COMPLETE_TASK : option string;
  TWILIO_ACCOUNT_SID : option string;
  TWILIO_AUTH_TOKEN : option string;
  TWILIO_PHONE_NUMBER : option string;
  TWILIO_TASKROUTER_WORKSPACE_SID : option string;
  (** [Date.now()] at the n-th interaction *)
  Date_now : nat -> Z;
  (** [types.Uuid.random().toString()] at the n-th interaction *)
  Uuid_random : nat -> string;
  (** [types.Uuid.fromString(s)]: the uuid, or the error it throws *)
  Uuid_fromString : string -> outcome string;
  (** [Twilio(accountSid, authToken)]: a client, or the error it throws *)
  Twilio : string -> string -> outcome unit;
  (** [JSON.parse]: [None] when it throws *)
  JSON_parse : string -> option json;
  (** [client.messages.create({body, from, to})]: does it resolve *)
  messages_create : nat -> string -> string -> string -> bool;
  (** [taskrouter.v1.workspaces.list]: [None] when it rejects *)
  workspaces_list : nat -> option (list Workspace);
  (** [workspaces(ws).tasks.list({assignmentStatus, limit})] *)
  tasks_list : nat -> string -> number -> option (list ProviderTask);
  (** [tasks(sid).reservations.list({reservationStatus: 'accepted', limit: 1})] *)
  reservations_list : nat -> string -> string -> option (list Reservation);
  (** [workspaces(ws).workers(sid).fetch()] *)
  workers_fetch : nat -> string -> string -> option Worker;
  (** [conversations(sid).participants.list({limit: 50})] *)
  participants_list : nat -> string -> option (list Participant);
  (** [conversations(sid).messages.create({author, body})]: does it resolve *)
  conversation_messages_create : nat -> string -> string -> string -> bool;
  (** [conversations(sid).update({state: 'closed'})]: does it resolve *)
  conversations_update : nat -> string -> bool;
  (** [tasks(sid).update({assignmentStatus: 'completed', ...})]: does it resolve *)
  tasks_update : nat -> string -> string -> bool
}.

(** ** The world *)

(** The two closures handed to the scheduler, by what they call. *)
Inductive Callback : Type :=
| InternalPing (taskId : string)
| InternalInactive (taskId : string)
| FlexPing (taskSid : string)
| FlexInactive (taskSid : string).

(** A pending [setTimeout(callback, delay)]. *)
Record Timeout : Type := mkTimeout {
  delay : Z;
  callback : Callback
}.

(** [TaskTimers]: the handles [setTimeout] returned. *)
Record TaskTimers : Type := mkTaskTimers {
  pingTimeout : nat;
  inactiveTimeout : nat
}.

Inductive Channel : Type := SMS | Conversation.

(** One attempt to send a message, and whether the provider accepted it. *)
Record Outbound : Type := mkOutbound {
  ob_channel : Channel;
  ob_to : string;
  ob_author : option string;
  ob_body : string;
  ob_ok : bool
}.

Inductive DbWrite : Type :=
| WriteTasks (key : string)
| WriteFlexTasks (key : string)
| WriteFlexTasksByConversation (key : string).

Record Db : Type := mkDb {
  tasks : list Task;
  flex_tasks : gmap string FlexRow.t;
  flex_tasks_by_conversation : gmap string string;
  (** the statements executed so far, oldest first *)
  db_log : list DbWrite
}.

Record Scheduler : Type := mkScheduler {
  (** [TaskInactivityScheduler.timers] *)
  timers : gmap string TaskTimers;
  (** the runtime's pending timeouts *)
  pending : gmap nat Timeout;
  next_handle : nat
}.

(** The private fields of [TasksService]. *)
Record Service : Type := mkService {
  twilioClient : bool;
  workspaceSid : option string;
  twilioConfigWarned : bool;
  workspaceResolveWarned : bool;
  workerNameCache : gmap string string;
  warnedWorkerParticipantMissing : gset string
}.

Record World : Type := mkWorld {
  db : Db;
  sched : Scheduler;
  svc : Service;
  (** config/twilio's module-level [twilioClient] is initialised *)
  sms_client : bool;
  (** the worker's [running] flag *)
  running : bool;
  (** every message send attempted so far, oldest first *)
  sent : list Outbound;
  (** number of external interactions so far *)
  io : nat
}.

Definition set_db (f : Db -> Db) (w : World) : World :=
  mkWorld (f (db w)) (sched w) (svc w) (sms_client w) (running w) (sent w) (io w).
Definition set_sched (f : Scheduler -> Scheduler) (w : World) : World :=
  mkWorld (db w) (f (sched w)) (svc w) (sms_client w) (running w) (sent w) (io w).
Definition set_svc (f : Service -> Service) (w : World) : World :=
  mkWorld (db w) (sched w) (f (svc w)) (sms_client w) (running w) (sent w) (io w).
Definition set_sms_client (b : bool) (w : World) : World :=
  mkWorld (db w) (sched w) (svc w) b (running w) (sent w) (io w).
Definition set_running (b : bool) (w : World) : World :=
  mkWorld (db w) (sched w) (svc w) (sms_client w) b (sent w) (io w).
Definition log_sent (o : Outbound) (w : World) : World :=
  mkWorld (db w) (sched w) (svc w) (sms_client w) (running w) (sent w ++ [o]) (io w).
Definition next_io (w : World) : World :=
  mkWorld (db w) (sched w) (svc w) (sms_client w) (running w) (sent w) (S (io w)).

(** ** A state and exception monad for the asynchronous code *)

Definition M (A : Type) : Type := World -> outcome A * World.

Definition ret {A : Type} (a : A) : M A := fun w => (Returned a, w).

Definition bind {A B : Type} (m : M A) (k : A -> M B) : M B :=
  fun w =>
    match m w with
    | (Returned a, w') => k a w'
    | (Thrown e, w') => (Thrown e, w')
    end.

Definition throw {A : Type} (e : string) : M A := fun w => (Thrown e, w).

Definition try_catch {A : Type} (m : M A) (handler : string -> M A) : M A :=
  fun w =>
    match m w with
    | (Returned a, w') => (Returned a, w')
    | (Thrown e, w') => handler e w'
    end.

Definition gets {A : Type} (f : World -> A) : M A := fun w => (Returned (f w), w).

Definition modify (f : World -> World) : M unit := fun w => (Returned tt, f w).

(** One external interaction: hands out the current index and advances it. *)
Definition interact : M nat := fun w => (Returned (io w), next_io w).

(** A call of the environment that returns or throws and touches nothing. *)
Definition call {A : Type} (r : outcome A) : M A := fun w => (r, w).

Declare Scope m_scope.
Delimit Scope m_scope with M.
Notation "x <- c ;; k" := (bind c (fun x => k))
  (at level 100, c at next level, right associativity) : m_scope.
Notation "c ;; k" := (bind c (fun _ => k))
  (at level 100, right associativity) : m_scope.
Local Open Scope m_scope.

(** [for (const x of l) body]; [continue] is the body returning. *)
Fixpoint for_of {A : Type} (l : list A) (body : A -> M unit) : M unit :=
  match l with
  | [] => ret tt
  | x :: r => body x ;; for_of r body
  end.

Definition world_of {A : Type} (r : outcome A * World) : World := snd r.
Definition value_of {A : Type} (r : outcome A * World) : outcome A := fst r.

(** [new Date()] / [Date.now()]: one reading of the wall clock. *)
Definition new_Date (E : Env) : M Z :=
  n <- interact ;; ret (Date_now E n).

(** ** tasks.scheduler: TaskInactivityScheduler *)

Module TaskInactivityScheduler.

Definition setTimeout (cb : Callback) (ms : Z) : M nat :=
  fun w =>
    let h := next_handle (sched w) in
    (Returned h,
     set_sched (fun s => mkScheduler (timers s) (<[h := mkTimeout ms cb]> (pending s)) (S h)) w).

Definition clearTimeout (h : nat) : M unit :=
  modify (set_sched (fun s => mkScheduler (timers s) (delete h (pending s)) (next_handle s))).

Definition timers_set (taskId : string) (t : TaskTimers) : M unit :=
  modify (set_sched (fun s => mkScheduler (<[taskId := t]> (timers s)) (pending s) (next_handle s))).

Definition timers_delete (taskId : string) : M unit :=
  modify (set_sched (fun s => mkScheduler (delete taskId (timers s)) (pending s) (next_handle s))).

Definition has (taskId : string) : M bool :=
  gets (fun w => bool_decide (is_Some (timers (sched w) !! taskId))).

Definition cancel (taskId : string) : M unit :=
  existing <- gets (fun w => timers (sched w) !! taskId) ;;
  match existing with
  | None => ret tt
  | Some existing =>
      clearTimeout (pingTimeout existing) ;;
      clearTimeout (inactiveTimeout existing) ;;
      timers_delete taskId
  end.

Definition schedule (E : Env) (taskId : string) (greetingSentAt : Z)
    (onPing onInactive : Callback) : M unit :=
  cancel taskId ;;
  now <- new_Date E ;;
  let base := greetingSentAt in
  let msUntilPing := Z.max 0 (base + 5000 - now) in
  let msUntilInactive := Z.max 0 (base + 30000 - now) in
  pingTimeout <- setTimeout onPing msUntilPing ;;
  inactiveTimeout <- setTimeout onInactive msUntilInactive ;;
  timers_set taskId (mkTaskTimers pingTimeout inactiveTimeout).

End TaskInactivityScheduler.

(** ** tasks.repository: TasksRepository *)

Module TasksRepository.

Definition normalizeLimit (limit : number) (max : Z) : Z :=
  match limit with
  | Finite m e =>
      let asInt := floor_of m e in
      if asInt <=? 0 then 100 else Z.min asInt max
  | _ => 100
  end.

(** The row whose key is the uuid [k]; a row's [id] is the text of its key. *)
Definition has_id (k : string) (t : Task) : bool := bool_decide (id t = k).

(** [UPDATE tasks SET ... WHERE id = k], the SET clause being [f] and [k]
    the uuid bound to the statement. *)
Definition update_where_id (k : string) (f : Task -> Task) (rows : list Task) : list Task :=
  map (fun t => if has_id k t then f t else t) rows.

Definition execute_update (k : string) (f : Task -> Task) : M unit :=
  modify (set_db (fun d =>
    mkDb (update_where_id k f (tasks d)) (flex_tasks d) (flex_tasks_by_conversation d)
         (db_log d ++ [WriteTasks k]))).

(** [INSERT INTO tasks (id, customer_name, customer_contact, status,
    created_at, updated_at)]: an upsert of these six columns. *)
Definition insert_row (k name contact : string) (now : Z) (rows : list Task) : list Task :=
  if existsb (has_id k) rows
  then update_where_id k (fun t =>
         mkTask (id t) name contact (operator_id t) (operator_name t) open now now
                (assigned_at t) (greeting_sent_at t) (ping_sent_at t) (inactive_sent_at t)
                (last_customer_activity_at t) (closed_at t) (close_reason t)) rows
  else rows ++ [mkTask k name contact None None open now now None None None None None None None].

Definition execute_insert (k name contact : string) (now : Z) : M unit :=
  modify (set_db (fun d =>
    mkDb (insert_row k name contact now (tasks d)) (flex_tasks d) (flex_tasks_by_conversation d)
         (db_log d ++ [WriteTasks k]))).

Definition findAll (limit : number) : M (list Task) :=
  let safeLimit := normalizeLimit limit 1000 in
  gets (fun w => take (Z.to_nat safeLimit) (tasks (db w))).

Definition findByStatus (st : TaskStatus) (limit : number) : M (list Task) :=
  let safeLimit := normalizeLimit limit 1000 in
  gets (fun w => take (Z.to_nat safeLimit) (filter (fun t => status t = st) (tasks (db w)))).

Definition findAssignedByCustomerContact (customerContact : string) (limit : number)
    : M (list Task) :=
  let safeLimit := normalizeLimit limit 1000 in
  gets (fun w =>
    take (Z.to_nat safeLimit)
      (filter (fun t => customer_contact t = customerContact /\ status t = assigned)
              (tasks (db w)))).

(** The SET clauses of the five UPDATE statements. *)

Definition assign_columns (operatorId operatorName : string) (assignedAt now : Z)
    (t : Task) : Task :=
  mkTask (id t) (customer_name t) (customer_contact t)
         (Some operatorId) (Some operatorName) assigned
         (created_at t) now (Some assignedAt)
         (greeting_sent_at t) (ping_sent_at t) (inactive_sent_at t)
         (last_customer_activity_at t) (closed_at t) (close_reason t).

Definition greeting_columns (greetingSentAt now : Z) (t : Task) : Task :=
  mkTask (id t) (customer_name t) (customer_contact t)
         (operator_id t) (operator_name t) (status t)
         (created_at t) now (assigned_at t)
         (Some greetingSentAt) None None
         (last_customer_activity_at t) (closed_at t) (close_reason t).

Definition activity_columns (at_ now : Z) (t : Task) : Task :=
  mkTask (id t) (customer_name t) (customer_contact t)
         (operator_id t) (operator_name t) (status t)
         (created_at t) now (assigned_at t)
         (greeting_sent_at t) (ping_sent_at t) (inactive_sent_at t)
         (Some at_) (closed_at t) (close_reason t).

Definition ping_columns (at_ now : Z) (t : Task) : Task :=
  mkTask (id t) (customer_name t) (customer_contact t)
         (operator_id t) (operator_name t) (status t)
         (created_at t) now (assigned_at t)
         (greeting_sent_at t) (Some at_) (inactive_sent_at t)
         (last_customer_activity_at t) (closed_at t) (close_reason t).

Definition close_columns (at_ now : Z) (t : Task) : Task :=
  mkTask (id t) (customer_name t) (customer_contact t)
         (operator_id t) (operator_name t) closed
         (created_at t) now (assigned_at t)
         (greeting_sent_at t) (ping_sent_at t) (Some at_)
         (last_customer_activity_at t) (Some at_) (Some "inactivity").

Section WithEnv.
Context (E : Env).

(** [SELECT * FROM tasks WHERE id = ?], bound to [Uuid.fromString(id)]. *)
Definition findById (id : string) : M (option Task) :=
  k <- call (Uuid_fromString E id) ;;
  gets (fun w => List.find (has_id k) (tasks (db w))).

Definition create (customerName customerContact : string) : M Task :=
  n <- interact ;;
  let k := Uuid_random E n in
  now <- new_Date E ;;
  execute_insert k customerName customerContact now ;;
  ret (mkTask k customerName customerContact None None open now now
              None None None None None None None).

Definition assignToOperator (id operatorId operatorName : string) : M (option Task) :=
  existing <- findById id ;;
  match existing with
  | None => ret None
  | Some existing =>
      now <- new_Date E ;;
      k <- call (Uuid_fromString E id) ;;
      execute_update k
        (assign_columns operatorId operatorName (default now (assigned_at existing)) now) ;;
      findById id
  end.

Definition setGreetingSent (id : string) (greetingSentAt : Z) : M (option Task) :=
  existing <- findById id ;;
  match existing with
  | None => ret None
  | Some _ =>
      now <- new_Date E ;;
      k <- call (Uuid_fromString E id) ;;
      execute_update k (greeting_columns greetingSentAt now) ;;
      findById id
  end.

Definition markCustomerActivity (id : string) (at_ : Z) : M (option Task) :=
  existing <- findById id ;;
  match existing with
  | None => ret None
  | Some _ =>
      now <- new_Date E ;;
      k <- call (Uuid_fromString E id) ;;
      execute_update k (activity_columns at_ now) ;;
      findById id
  end.

Definition markPingSent (id : string) (at_ : Z) : M (option Task) :=
  existing <- findById id ;;
  match existing with
  | None => ret None
  | Some _ =>
      now <- new_Date E ;;
      k <- call (Uuid_fromString E id) ;;
      execute_update k (ping_columns at_ now) ;;
      findById id
  end.

Definition closeDueToInactivity (id : string) (at_ : Z) : M (option Task) :=
  existing <- findById id ;;
  match existing with
  | None => ret None
  | Some _ =>
      now <- new_Date E ;;
      k <- call (Uuid_fromString E id) ;;
      execute_update k (close_columns at_ now) ;;
      findById id
  end.

End WithEnv.
End TasksRepository.

(** ** flex.tasks.repository: FlexTasksRepository *)

Module FlexTasksRepository.

(** The argument of [upsertBaseState]. *)
Record BaseState : Type := mkBaseState {
  taskSid : string;
  conversationSid : option string;
  channelType : option string;
  customerName : option string;
  customerAddress : option string;
  customerFrom : option string;
  workerSid : option string;
  workerName : option string;
  assignmentStatus : option string;
  taskAttributes : option string
}.

(** An INSERT or UPDATE on flex_tasks: both create the row when it is not
    there, and set only the columns they name. *)
Definition execute_upsert (sid : string) (f : FlexRow.t -> FlexRow.t) : M unit :=
  modify (set_db (fun d =>
    mkDb (tasks d)
         (<[sid := f (default (FlexRow.blank sid) (flex_tasks d !! sid))]> (flex_tasks d))
         (flex_tasks_by_conversation d)
         (db_log d ++ [WriteFlexTasks sid]))).

Definition execute_insert_lookup (conv sid : string) : M unit :=
  modify (set_db (fun d =>
    mkDb (tasks d) (flex_tasks d)
         (<[conv := sid]> (flex_tasks_by_conversation d))
         (db_log d ++ [WriteFlexTasksByConversation conv]))).

(** The columns the INSERT of [upsertBaseState] binds. *)
Definition base_columns (input : BaseState) (createdAt now : Z) (r : FlexRow.t) : FlexRow.t :=
  FlexRow.mk (taskSid input) (conversationSid input) (channelType input)
    (customerName input) (customerAddress input) (customerFrom input)
    (workerSid input) (workerName input) (assignmentStatus input) (taskAttributes input)
    (FlexRow.greeting_sent_at r) (FlexRow.ping_sent_at r)
    (FlexRow.inactive_sent_at r) (FlexRow.last_customer_activity_at r)
    (Some createdAt) (Some now).

(** The SET clauses of the four UPDATE statements. *)

Definition greeting_columns (at_ now : Z) (r : FlexRow.t) : FlexRow.t :=
  FlexRow.mk (FlexRow.task_sid r) (FlexRow.conversation_sid r) (FlexRow.channel_type r)
    (FlexRow.customer_name r) (FlexRow.customer_address r) (FlexRow.customer_from r)
    (FlexRow.worker_sid r) (FlexRow.worker_name r)
    (FlexRow.task_assignment_status r) (FlexRow.task_attributes r)
    (Some at_) None None (FlexRow.last_customer_activity_at r)
    (FlexRow.created_at r) (Some now).

Definition ping_columns (at_ now : Z) (r : FlexRow.t) : FlexRow.t :=
  FlexRow.mk (FlexRow.task_sid r) (FlexRow.conversation_sid r) (FlexRow.channel_type r)
    (FlexRow.customer_name r) (FlexRow.customer_address r) (FlexRow.customer_from r)
    (FlexRow.worker_sid r) (FlexRow.worker_name r)
    (FlexRow.task_assignment_status r) (FlexRow.task_attributes r)
    (FlexRow.greeting_sent_at r) (Some at_) (FlexRow.inactive_sent_at r)
    (FlexRow.last_customer_activity_at r)
    (FlexRow.created_at r) (Some now).

Definition inactive_columns (at_ now : Z) (r : FlexRow.t) : FlexRow.t :=
  FlexRow.mk (FlexRow.task_sid r) (FlexRow.conversation_sid r) (FlexRow.channel_type r)
    (FlexRow.customer_name r) (FlexRow.customer_address r) (FlexRow.customer_from r)
    (FlexRow.worker_sid r) (FlexRow.worker_name r)
    (FlexRow.task_assignment_status r) (FlexRow.task_attributes r)
    (FlexRow.greeting_sent_at r) (FlexRow.ping_sent_at r) (Some at_)
    (FlexRow.last_customer_activity_at r)
    (FlexRow.created_at r) (Some now).

Definition activity_columns (at_ now : Z) (r : FlexRow.t) : FlexRow.t :=
  FlexRow.mk (FlexRow.task_sid r) (FlexRow.conversation_sid r) (FlexRow.channel_type r)
    (FlexRow.customer_name r) (FlexRow.customer_address r) (FlexRow.customer_from r)
    (FlexRow.worker_sid r) (FlexRow.worker_name r)
    (FlexRow.task_assignment_status r) (FlexRow.task_attributes r)
    (FlexRow.greeting_sent_at r) (FlexRow.ping_sent_at r) (FlexRow.inactive_sent_at r)
    (Some at_)
    (FlexRow.created_at r) (Some now).

Section WithEnv.
Context (E : Env).

(** [a ?? new Date()]: the clock is read only when [a] is null. *)
Definition or_new_Date (a : option Z) : M Z :=
  match a with
  | Some x => ret x
  | None => new_Date E
  end.

Definition mapRow (row : FlexRow.t) : M FlexTaskState.t :=
  createdAt <- or_new_Date (FlexRow.created_at row) ;;
  updatedAt <- or_new_Date (FlexRow.updated_at row) ;;
  ret (FlexTaskState.mk
         (FlexRow.task_sid row) (FlexRow.conversation_sid row) (FlexRow.channel_type row)
         (FlexRow.customer_name row) (FlexRow.customer_address row) (FlexRow.customer_from row)
         (FlexRow.worker_sid row) (FlexRow.worker_name row)
         (FlexRow.task_assignment_status row) (FlexRow.task_attributes row)
         (FlexRow.greeting_sent_at row) (FlexRow.ping_sent_at row)
         (FlexRow.inactive_sent_at row) (FlexRow.last_customer_activity_at row)
         createdAt updatedAt).

Definition findByTaskSid (sid : string) : M (option FlexTaskState.t) :=
  row <- gets (fun w => flex_tasks (db w) !! sid) ;;
  match row with
  | Some row => st <- mapRow row ;; ret (Some st)
  | None => ret None
  end.

Definition findByConversationSid (conv : string) : M (option FlexTaskState.t) :=
  lookupRow <- gets (fun w => flex_tasks_by_conversation (db w) !! conv) ;;
  match lookupRow with
  | None => ret None
  | Some sid => if nonempty sid then findByTaskSid sid else ret None
  end.

Definition upsertBaseState (input : BaseState) : M unit :=
  now <- new_Date E ;;
  existing <- findByTaskSid (taskSid input) ;;
  let createdAt :=
    match existing with
    | Some st => FlexTaskState.created_at st
    | None => now
    end in
  execute_upsert (taskSid input) (base_columns input createdAt now) ;;
  if truthy (conversationSid input)
  then execute_insert_lookup (default "" (conversationSid input)) (taskSid input)
  else ret tt.

Definition setGreetingSent (sid : string) (at_ : Z) : M unit :=
  now <- new_Date E ;;
  execute_upsert sid (greeting_columns at_ now).

Definition markPingSent (sid : string) (at_ : Z) : M unit :=
  now <- new_Date E ;;
  execute_upsert sid (ping_columns at_ now).

Definition markInactiveSent (sid : string) (at_ : Z) : M unit :=
  now <- new_Date E ;;
  execute_upsert sid (inactive_columns at_ now).

Definition markCustomerActivity (sid : string) (at_ : Z) : M unit :=
  now <- new_Date E ;;
  execute_upsert sid (activity_columns at_ now).

End WithEnv.
End FlexTasksRepository.

(** ** tasks.messages *)

Definition operatorHandoffMessage (customerName operatorName : string) : string :=
  "Olá, " +:+ customerName +:+ ". Meu nome é " +:+ operatorName +:+
  " e irei dar continuidade ao seu atendimento.😉❤".

Definition stillInChatMessage (customerName : string) : string :=
  "Olá, " +:+ customerName +:+ ". Você ainda está no chat?".

Definition inactivityCloseMessage (customerName : string) : string :=
  "Olá, " +:+ customerName +:+
  ". Identificamos que você está inativo e seu chat será encerrado por inatividade.".

(** ** config/twilio *)

Module TwilioConfig.
Section WithEnv.
Context (E : Env).

Definition accountSid : string := or_else (TWILIO_ACCOUNT_SID E) "".
Definition authToken : string := or_else (TWILIO_AUTH_TOKEN E) "".
Definition phoneNumber : string := or_else (TWILIO_PHONE_NUMBER E) "".

Definition validateConfig : bool :=
  nonempty accountSid && nonempty authToken && nonempty phoneNumber.

(** Returns whether there is a client. *)
Definition getTwilioClient : M bool :=
  if negb validateConfig then ret false
  else
    initialised <- gets sms_client ;;
    (if negb initialised
     then call (Twilio E accountSid authToken) ;; modify (set_sms_client true)
     else ret tt) ;;
    ret true.

Definition sendSMS (to body : string) : M bool :=
  client <- getTwilioClient ;;
  if negb client then ret false
  else
    n <- interact ;;
    let ok := messages_create E n body phoneNumber to in
    modify (log_sent (mkOutbound SMS to None body ok)) ;;
    ret ok.

End WithEnv.
End TwilioConfig.

(** ** tasks.service: TasksService *)

Module TasksService.

Import TaskInactivityScheduler.

(** [hints] of [resolveWorkerParticipantIdentity]. *)
Record Hints : Type := mkHints {
  h_workerName : option string;
  h_customerAddress : option string;
  h_customerFrom : option string
}.

(** [normalize = (value?: string) => value?.trim().toLowerCase() ?? ''] *)
Definition normalize (value : option string) : string :=
  match value with
  | Some v => toLowerCase (trim v)
  | None => ""
  end.

(** [typeof participant.identity === 'string' ? participant.identity.trim() : ''] *)
Definition trimmed_identity (p : Participant) : string :=
  match pa_identity p with
  | Some s => trim s
  | None => ""
  end.

(** The first candidate that is a string with a non-blank trim, trimmed. *)
Fixpoint first_nonblank (candidates : list (option json)) : option string :=
  match candidates with
  | [] => None
  | c :: r =>
      match as_string c with
      | Some s => if nonempty (trim s) then Some (trim s) else first_nonblank r
      | None => first_nonblank r
      end
  end.

(** Reads four properties; [None] is the TypeError of reading from [null]. *)
Definition pick_from (attrs : json) (k1 k2 k3 k4 : string) : option (option string) :=
  c1 ← prop attrs k1;
  c2 ← prop attrs k2;
  c3 ← prop attrs k3;
  c4 ← prop attrs k4;
  Some (first_nonblank [c1; c2; c3; c4]).

Definition pickWorkerNameFromAttributes (attrs : json) : option (option string) :=
  pick_from attrs "full_name" "fullName" "fullname" "name".

Definition pickWorkerSidFromAttributes (attrs : json) : option (option string) :=
  pick_from attrs "workerSid" "worker_sid" "worker_id" "workerId".

(** A loop [for (p of participants) { if (!identity) continue;
    if (test p identity) return identity; }]: [Some None] when it falls
    through, [None] when [test] throws. *)
Fixpoint first_identity (test : Participant -> string -> option bool)
    (participants : list Participant) : option (option string) :=
  match participants with
  | [] => Some None
  | p :: r =>
      let ident := trimmed_identity p in
      if negb (nonempty ident) then first_identity test r
      else
        match test p ident with
        | None => None
        | Some true => Some (Some ident)
        | Some false => first_identity test r
        end
  end.

(** [customerMarkers]: the normalised, non-empty customer hints. *)
Definition customerMarkers (hints : Hints) : list string :=
  List.filter nonempty
    (map normalize [h_customerAddress hints; h_customerFrom hints]).

Definition set_has (markers : list string) (s : string) : bool :=
  existsb (fun m => bool_decide (m = s)) markers.

Definition isCustomerParticipant (markers : list string) (p : Participant) : bool :=
  let ident := match pa_identity p with Some s => normalize (Some s) | None => "" end in
  if nonempty ident && set_has markers ident then true
  else
    let bindingAddress := normalize (pa_bindingAddress p) in
    if nonempty bindingAddress && set_has markers bindingAddress then true
    else false.

Fixpoint candidateIdentities (markers : list string) (participants : list Participant)
    : list string :=
  match participants with
  | [] => []
  | p :: r =>
      let ident := trimmed_identity p in
      if negb (nonempty ident) then candidateIdentities markers r
      else if isCustomerParticipant markers p then candidateIdentities markers r
      else ident :: candidateIdentities markers r
  end.

(** [a || b] on a possibly undefined string. *)
Definition or_string (a : option string) (b : string) : string := or_else a b.

Section WithEnv.
Context (E : Env).

Definition getAutomationAuthor : string :=
  or_else (TASKS_AUTOMATION_AUTHOR E) "System".

Definition parseTaskAttributes (raw : string) : json :=
  default (JObj []) (JSON_parse E raw).

(** The body of the [try] of [resolveWorkerParticipantIdentity] once the
    participants are listed; the outer [None] is an exception inside it. *)
Definition resolve_among (participants : list Participant)
    (workerSid : option string) (hints : Hints) : option (option string) :=
  let normalizedWorkerSid := normalize workerSid in
  let normalizedWorkerName := normalize (h_workerName hints) in
  let hasWorkerSid := nonempty normalizedWorkerSid in
  let workerSidValue := default "" workerSid in
  let markers := customerMarkers hints in
  r1 ← first_identity
         (fun _ ident =>
            Some (hasWorkerSid && bool_decide (normalize (Some ident) = normalizedWorkerSid)))
         participants;
  match r1 with
  | Some ident => Some (Some ident)
  | None =>
  r2 ← (if nonempty normalizedWorkerName
        then first_identity
               (fun _ ident =>
                  Some (bool_decide (normalize (Some ident) = normalizedWorkerName)))
               participants
        else Some None);
  match r2 with
  | Some ident => Some (Some ident)
  | None =>
  r3 ← (if hasWorkerSid
        then first_identity
               (fun p _ =>
                  let attrs := parseTaskAttributes (or_string (pa_attributes p) "{}") in
                  sidFromAttrs ← pickWorkerSidFromAttributes attrs;
                  Some (match sidFromAttrs with
                        | Some sid =>
                            bool_decide (normalize (Some sid) = normalizedWorkerSid)
                        | None => false
                        end))
               participants
        else Some None);
  match r3 with
  | Some ident => Some (Some ident)
  | None =>
  r4 ← (if hasWorkerSid
        then first_identity
               (fun p _ =>
                  Some (match pa_attributes p with
                        | Some rawAttrs => includes rawAttrs workerSidValue
                        | None => false
                        end))
               participants
        else Some None);
  match r4 with
  | Some ident => Some (Some ident)
  | None =>
      match candidateIdentities markers participants with
      | [ident] => Some (Some ident)
      | _ => Some None
      end
  end end end end.

Definition getTwilioClient : M bool :=
  client <- gets (fun w => twilioClient (svc w)) ;;
  if client then ret true
  else
    let accountSid := or_else (TWILIO_ACCOUNT_SID E) "" in
    let authToken := or_else (TWILIO_AUTH_TOKEN E) "" in
    if negb (nonempty accountSid) || negb (nonempty authToken) then
      modify (set_svc (fun s =>
        mkService (twilioClient s) (workspaceSid s) true (workspaceResolveWarned s)
                  (workerNameCache s) (warnedWorkerParticipantMissing s))) ;;
      ret false
    else
      call (Twilio E accountSid authToken) ;;
      modify (set_svc (fun s =>
        mkService true (workspaceSid s) (twilioConfigWarned s) (workspaceResolveWarned s)
                  (workerNameCache s) (warnedWorkerParticipantMissing s))) ;;
      ret true.

Definition set_workspaceSid (v : option string) : M unit :=
  modify (set_svc (fun s =>
    mkService (twilioClient s) v (twilioConfigWarned s) (workspaceResolveWarned s)
              (workerNameCache s) (warnedWorkerParticipantMissing s))).

Definition resolveWorkspaceSid : M (option string) :=
  current <- gets (fun w => workspaceSid (svc w)) ;;
  if truthy current then ret current
  else if truthy (TWILIO_TASKROUTER_WORKSPACE_SID E) then
    set_workspaceSid (TWILIO_TASKROUTER_WORKSPACE_SID E) ;;
    ret (TWILIO_TASKROUTER_WORKSPACE_SID E)
  else
    n <- interact ;;
    match workspaces_list E n with
    | None => throw "workspaces.list"
    | Some workspaces =>
        match workspaces with
        | [w0] =>
            set_workspaceSid (Some (ws_sid w0)) ;;
            ret (Some (ws_sid w0))
        | _ =>
            let flexCandidates :=
              List.filter
                (fun w => includes (toLowerCase (or_else (ws_friendlyName w) "")) "flex")
                workspaces in
            match flexCandidates with
            | [w0] =>
                set_workspaceSid (Some (ws_sid w0)) ;;
                ret (Some (ws_sid w0))
            | _ =>
                modify (set_svc (fun s =>
                  mkService (twilioClient s) (workspaceSid s) (twilioConfigWarned s) true
                            (workerNameCache s) (warnedWorkerParticipantMissing s))) ;;
                ret None
            end
        end
    end.

Definition resolveWorkerParticipantIdentity (conversationSid : string)
    (workerSid : option string) (hints : Hints) : M (option string) :=
  n <- interact ;;
  match participants_list E n conversationSid with
  | None => ret None
  | Some participants =>
      match resolve_among participants workerSid hints with
      | Some r => ret r
      | None => ret None
      end
  end.

Definition workerNameCache_set (workerSid name : string) : M unit :=
  modify (set_svc (fun s =>
    mkService (twilioClient s) (workspaceSid s) (twilioConfigWarned s)
              (workspaceResolveWarned s)
              (<[workerSid := name]> (workerNameCache s))
              (warnedWorkerParticipantMissing s))).

Definition resolveWorkerDisplayName (workspace : string) (workerSid : option string)
    (fallbackName : string) : M string :=
  let fallback := if nonempty (trim fallbackName) then trim fallbackName else "Atendente" in
  match workerSid with
  | None => ret fallback
  | Some workerSid =>
      if negb (nonempty workerSid) || negb (nonempty (trim workerSid)) then ret fallback
      else
        cached <- gets (fun w => workerNameCache (svc w) !! workerSid) ;;
        if truthy cached then ret (default "" cached)
        else
          n <- interact ;;
          let fetched :=
            worker ← workers_fetch E n workspace workerSid;
            let attrs := parseTaskAttributes (or_string (wk_attributes worker) "{}") in
            fromAttrs ← pickWorkerNameFromAttributes attrs;
            Some (match fromAttrs with
                  | Some name => name
                  | None =>
                      match wk_friendlyName worker with
                      | Some f => if nonempty (trim f) then trim f else fallback
                      | None => fallback
                      end
                  end) in
          match fetched with
          | Some resolved => workerNameCache_set workerSid resolved ;; ret resolved
          | None => workerNameCache_set workerSid fallback ;; ret fallback
          end
  end.

(** [None] is the TypeError of reading [attrs.customers] from [null]. *)
Definition pickCustomerName (attrs : json) : option string :=
  customers ← prop attrs "customers";
  let nameFromCustomers :=
    match customers with
    | Some (JObj fields) => assoc "name" fields
    | _ => None
    end in
  friendlyName ← prop attrs "friendlyName";
  from ← prop attrs "from";
  Some (match first_nonblank [nameFromCustomers; friendlyName; from] with
        | Some name => name
        | None => "cliente"
        end).

Definition sendConversationMessage (conversationSid body : string) (author : option string)
    : M bool :=
  client <- getTwilioClient ;;
  if negb client then ret false
  else
    n <- interact ;;
    let author' :=
      match author with
      | Some a => if nonempty (trim a) then trim a else getAutomationAuthor
      | None => getAutomationAuthor
      end in
    let ok := conversation_messages_create E n conversationSid author' body in
    modify (log_sent (mkOutbound Conversation conversationSid (Some author') body ok)) ;;
    ret ok.

Definition closeConversation (conversationSid : string) : M unit :=
  client <- getTwilioClient ;;
  if negb client then ret tt
  else n <- interact ;; let _ := conversations_update E n conversationSid in ret tt.

Definition completeTaskRouterTask (taskSid : string) : M unit :=
  client <- getTwilioClient ;;
  if negb client then ret tt
  else
    workspace <- resolveWorkspaceSid ;;
    if negb (truthy workspace) then ret tt
    else
      n <- interact ;;
      let _ := tasks_update E n (default "" workspace) taskSid in ret tt.

(** *** Internal tasks *)

(** [filters] of [list]; an absent [limit] takes the repository's default.
    The method [list] is named [listTasks] here, [list] being the type. *)
Record ListFilters : Type := mkListFilters {
  f_limit : option number;
  f_operatorId : option string;
  f_status : option TaskStatus
}.

Definition listTasks (filters : ListFilters) : M (list Task) :=
  tasks <-
    match f_status filters with
    | Some st => TasksRepository.findByStatus st (default (of_Z 100) (f_limit filters))
    | None => TasksRepository.findAll (default (of_Z 100) (f_limit filters))
    end ;;
  ret (List.filter
         (fun task =>
            if truthy (f_operatorId filters) &&
               negb (bool_decide (operator_id task = f_operatorId filters))
            then false
            else
              match f_status filters with
              | Some st => bool_decide (status task = st)
              | None => true
              end)
         tasks).

Definition scheduleInternalInactivityTimers (task : Task) : M unit :=
  match greeting_sent_at task with
  | None => ret tt
  | Some greetingSentAt =>
      armed <- has (id task) ;;
      if armed then ret tt
      else schedule E (id task) greetingSentAt
             (InternalPing (id task)) (InternalInactive (id task))
  end.

Definition sendInternalPingIfInactive (taskId : string) : M unit :=
  task <- TasksRepository.findById E taskId ;;
  match task with
  | None => ret tt
  | Some task =>
      if negb (bool_decide (status task = assigned)) then ret tt
      else
        match greeting_sent_at task with
        | None => ret tt
        | Some greetingSentAt =>
            if bool_decide (is_Some (ping_sent_at task)) then ret tt
            else if later_than (last_customer_activity_at task) greetingSentAt then ret tt
            else
              ok <- TwilioConfig.sendSMS E (customer_contact task)
                      (stillInChatMessage (customer_name task)) ;;
              if negb ok then ret tt
              else
                now <- new_Date E ;;
                TasksRepository.markPingSent E taskId now ;;
                ret tt
        end
  end.

Definition sendInternalInactiveAndClose (taskId : string) : M unit :=
  task <- TasksRepository.findById E taskId ;;
  match task with
  | None => ret tt
  | Some task =>
      if negb (bool_decide (status task = assigned)) then ret tt
      else
        match greeting_sent_at task with
        | None => ret tt
        | Some greetingSentAt =>
            if bool_decide (is_Some (inactive_sent_at task)) then ret tt
            else if later_than (last_customer_activity_at task) greetingSentAt then ret tt
            else
              ok <- TwilioConfig.sendSMS E (customer_contact task)
                      (inactivityCloseMessage (customer_name task)) ;;
              if negb ok then ret tt
              else
                now <- new_Date E ;;
                TasksRepository.closeDueToInactivity E taskId now ;;
                cancel taskId
        end
  end.

(** The body of the loop of [autoProcessInternalAssignedTasks]. *)
Definition processInternalTask (task : Task) : M unit :=
  if negb (bool_decide (status task = assigned)) then ret tt
  else if negb (truthy (operator_id task)) || negb (truthy (operator_name task)) then ret tt
  else
    match greeting_sent_at task with
    | Some greetingSentAt =>
        if later_than (last_customer_activity_at task) greetingSentAt
        then cancel (id task)
        else if bool_decide (is_Some (inactive_sent_at task))
        then cancel (id task)
        else scheduleInternalInactivityTimers task
    | None =>
        ok <- TwilioConfig.sendSMS E (customer_contact task)
                (operatorHandoffMessage (customer_name task)
                   (default "" (operator_name task))) ;;
        if negb ok then ret tt
        else
          greetingSentAt <- new_Date E ;;
          updated <- TasksRepository.setGreetingSent E (id task) greetingSentAt ;;
          match updated with
          | None => ret tt
          | Some updated => scheduleInternalInactivityTimers updated
          end
    end.

Definition autoProcessInternalAssignedTasks : M unit :=
  let batchSize := number_or (TASKS_AUTO_BATCH_SIZE E) (of_Z 100) in
  assignedTasks <- TasksRepository.findByStatus assigned batchSize ;;
  for_of assignedTasks processInternalTask.

Definition create (customerName customerContact : string) : M Task :=
  TasksRepository.create E customerName customerContact.

Definition getById (taskId : string) : M (option Task) :=
  TasksRepository.findById E taskId.

Definition assign (taskId operatorId operatorName : string) : M Task :=
  updated <- TasksRepository.assignToOperator E taskId operatorId operatorName ;;
  match updated with
  | None => throw "Task not found"
  | Some updated => ret updated
  end.

Definition startOperatorHandoff (taskId operatorId operatorName : string)
    (sendGreeting : option bool) : M Task :=
  assigned_ <- assign taskId operatorId operatorName ;;
  let shouldSendGreeting := default true sendGreeting in
  (if shouldSendGreeting then
     ok <- TwilioConfig.sendSMS E (customer_contact assigned_)
             (operatorHandoffMessage (customer_name assigned_) operatorName) ;;
     if negb ok then throw "Failed to send operator handoff message" else ret tt
   else ret tt) ;;
  greetingSentAt <- new_Date E ;;
  updated <- TasksRepository.setGreetingSent E taskId greetingSentAt ;;
  match updated with
  | None => throw "Task not found"
  | Some updated => scheduleInternalInactivityTimers updated ;; ret updated
  end.

Definition registerOperatorGreeting (taskId : string) : M Task :=
  task <- TasksRepository.findById E taskId ;;
  match task with
  | None => throw "Task not found"
  | Some task =>
      if negb (bool_decide (status task = assigned))
      then throw "Task is not assigned to an operator"
      else
        now <- new_Date E ;;
        updated <- TasksRepository.setGreetingSent E taskId now ;;
        match updated with
        | None => throw "Task not found"
        | Some updated => scheduleInternalInactivityTimers updated ;; ret updated
        end
  end.

Definition markCustomerActivity (taskId : string) : M Task :=
  now <- new_Date E ;;
  updated <- TasksRepository.markCustomerActivity E taskId now ;;
  match updated with
  | None => throw "Task not found"
  | Some updated => cancel taskId ;; ret updated
  end.

(** [candidates.sort((a, b) => b.updated_at - a.updated_at)]: a stable sort,
    latest first. *)
Fixpoint insert_latest_first (t : Task) (sorted : list Task) : list Task :=
  match sorted with
  | [] => [t]
  | u :: r =>
      if updated_at u <=? updated_at t then t :: sorted
      else u :: insert_latest_first t r
  end.

Definition sort_latest_first (l : list Task) : list Task :=
  fold_right insert_latest_first [] l.

Definition markCustomerActivityByContact (customerContact : string) : M unit :=
  candidates <- TasksRepository.findAssignedByCustomerContact customerContact (of_Z 25) ;;
  match sort_latest_first candidates with
  | [] => ret tt
  | latest :: _ =>
      now <- new_Date E ;;
      TasksRepository.markCustomerActivity E (id latest) now ;;
      cancel (id latest)
  end.

(** *** Flex tasks *)

Definition scheduleFlexInactivityTimers (taskSid : string) (greetingSentAt : Z) : M unit :=
  armed <- has taskSid ;;
  if armed then ret tt
  else schedule E taskSid greetingSentAt (FlexPing taskSid) (FlexInactive taskSid).

Definition warned_add (taskSid : string) : M unit :=
  modify (set_svc (fun s =>
    mkService (twilioClient s) (workspaceSid s) (twilioConfigWarned s)
              (workspaceResolveWarned s) (workerNameCache s)
              ({[taskSid]} ∪ warnedWorkerParticipantMissing s))).

Definition warned_delete (taskSid : string) : M unit :=
  modify (set_svc (fun s =>
    mkService (twilioClient s) (workspaceSid s) (twilioConfigWarned s)
              (workspaceResolveWarned s) (workerNameCache s)
              (warnedWorkerParticipantMissing s ∖ {[taskSid]}))).

(** The body of the loop of [autoProcessFlexAssignedTasks]. *)
Definition processFlexTask (workspace : string) (task : ProviderTask) : M unit :=
  let attrs := parseTaskAttributes (pt_attributes task) in
  match prop attrs "conversationSid" with
  | None => throw "TypeError"
  | Some conversationSid_ =>
  match as_string conversationSid_ with
  | None => ret tt
  | Some conversationSid =>
  if negb (startsWith conversationSid "CH") then ret tt
  else
    n <- interact ;;
    match reservations_list E n workspace (pt_sid task) with
    | None => throw "reservations.list"
    | Some acceptedReservations =>
    match acceptedReservations with
    | [] => ret tt
    | reservation :: _ =>
      let fallbackWorkerName :=
        match rv_workerName reservation with
        | Some name => if nonempty (trim name) then trim name else "Atendente"
        | None => "Atendente"
        end in
      let workerSid :=
        if truthy (rv_workerSid reservation) then rv_workerSid reservation else None in
      let channelType := as_string (default None (prop attrs "channelType")) in
      let customerAddress := as_string (default None (prop attrs "customerAddress")) in
      let customerFrom := as_string (default None (prop attrs "from")) in
      let customerName := default "cliente" (pickCustomerName attrs) in
      existingState <- FlexTasksRepository.findByTaskSid E (pt_sid task) ;;
      let storedWorkerName :=
        match existingState with
        | Some st => trim <$> FlexTaskState.worker_name st
        | None => None
        end in
      workerName <-
        (if negb (truthy storedWorkerName) then
           match workerSid with
           | Some _ => resolveWorkerDisplayName workspace workerSid fallbackWorkerName
           | None => ret fallbackWorkerName
           end
         else
           let workerName := default "" storedWorkerName in
           if truthy workerSid &&
              (bool_decide (workerName = "Atendente") ||
               bool_decide (workerName = fallbackWorkerName))
           then resolveWorkerDisplayName workspace workerSid fallbackWorkerName
           else ret workerName) ;;
      FlexTasksRepository.upsertBaseState E
        (FlexTasksRepository.mkBaseState (pt_sid task) (Some conversationSid)
           channelType (Some customerName) customerAddress customerFrom
           workerSid (Some workerName) (Some (pt_assignmentStatus task))
           (Some (pt_attributes task))) ;;
      match existingState ≫= FlexTaskState.greeting_sent_at with
      | Some greetingSentAt =>
          let lastActivity := existingState ≫= FlexTaskState.last_customer_activity_at in
          if later_than lastActivity greetingSentAt
          then cancel (pt_sid task)
          else if bool_decide (is_Some (existingState ≫= FlexTaskState.inactive_sent_at))
          then cancel (pt_sid task)
          else scheduleFlexInactivityTimers (pt_sid task) greetingSentAt
      | None =>
          workerIdentity <- resolveWorkerParticipantIdentity conversationSid workerSid
                              (mkHints (Some workerName) customerAddress customerFrom) ;;
          if negb (truthy workerIdentity) then
            warned <- gets (fun w =>
                        bool_decide (pt_sid task ∈ warnedWorkerParticipantMissing (svc w))) ;;
            if negb warned then warned_add (pt_sid task) else ret tt
          else
            warned_delete (pt_sid task) ;;
            ok <- sendConversationMessage conversationSid
                    (operatorHandoffMessage customerName workerName) workerIdentity ;;
            if negb ok then ret tt
            else
              greetingSentAt <- new_Date E ;;
              FlexTasksRepository.setGreetingSent E (pt_sid task) greetingSentAt ;;
              scheduleFlexInactivityTimers (pt_sid task) greetingSentAt
      end
    end end
  end end.

Definition autoProcessFlexAssignedTasks : M bool :=
  client <- getTwilioClient ;;
  if negb client then ret false
  else
    workspace <- resolveWorkspaceSid ;;
    if negb (truthy workspace) then ret false
    else
      let workspace := default "" workspace in
      let limit := number_or (TASKS_FLEX_POLL_LIMIT E) (of_Z 50) in
      n <- interact ;;
      match tasks_list E n workspace limit with
      | None => throw "tasks.list"
      | Some tasks =>
          for_of tasks (processFlexTask workspace) ;;
          ret true
      end.

Definition markFlexCustomerActivityByConversationSid (conversationSid : string)
    (author : option string) : M unit :=
  let trimmedAuthor := trim <$> author in
  if negb (truthy trimmedAuthor) then ret tt
  else
    let trimmedAuthor := default "" trimmedAuthor in
    state <- FlexTasksRepository.findByConversationSid E conversationSid ;;
    match state with
    | None => ret tt
    | Some state =>
        let customerAddress := trim <$> FlexTaskState.customer_address state in
        let customerFrom := trim <$> FlexTaskState.customer_from state in
        let hasKnownCustomer := truthy customerAddress || truthy customerFrom in
        let ignored :=
          if hasKnownCustomer then
            negb (is_string customerAddress trimmedAuthor) &&
            negb (is_string customerFrom trimmedAuthor)
          else
            bool_decide (trimmedAuthor = getAutomationAuthor) ||
            (truthy (FlexTaskState.worker_name state) &&
             is_string (FlexTaskState.worker_name state) trimmedAuthor) ||
            (truthy (FlexTaskState.worker_sid state) &&
             is_string (FlexTaskState.worker_sid state) trimmedAuthor) in
        if ignored then ret tt
        else
          now <- new_Date E ;;
          FlexTasksRepository.markCustomerActivity E (FlexTaskState.task_sid state) now ;;
          cancel (FlexTaskState.task_sid state)
    end.

Definition sendFlexPingIfInactive (taskSid : string) : M unit :=
  task <- FlexTasksRepository.findByTaskSid E taskSid ;;
  match task with
  | None => ret tt
  | Some task =>
      match FlexTaskState.greeting_sent_at task with
      | None => ret tt
      | Some greetingSentAt =>
          if bool_decide (is_Some (FlexTaskState.ping_sent_at task)) then ret tt
          else if negb (truthy (FlexTaskState.conversation_sid task)) then ret tt
          else if later_than (FlexTaskState.last_customer_activity_at task) greetingSentAt
          then ret tt
          else
            let conversationSid := default "" (FlexTaskState.conversation_sid task) in
            client <- getTwilioClient ;;
            if negb client then ret tt
            else
              workerIdentity <- resolveWorkerParticipantIdentity conversationSid
                                  (FlexTaskState.worker_sid task)
                                  (mkHints (FlexTaskState.worker_name task)
                                     (FlexTaskState.customer_address task)
                                     (FlexTaskState.customer_from task)) ;;
              if negb (truthy workerIdentity) then ret tt
              else
                ok <- sendConversationMessage conversationSid
                        (stillInChatMessage
                           (or_string (FlexTaskState.customer_name task) "cliente"))
                        workerIdentity ;;
                if negb ok then ret tt
                else
                  now <- new_Date E ;;
                  FlexTasksRepository.markPingSent E taskSid now
      end
  end.

Definition sendFlexInactiveAndClose (taskSid : string) : M unit :=
  task <- FlexTasksRepository.findByTaskSid E taskSid ;;
  match task with
  | None => ret tt
  | Some task =>
      match FlexTaskState.greeting_sent_at task with
      | None => ret tt
      | Some greetingSentAt =>
          if bool_decide (is_Some (FlexTaskState.inactive_sent_at task)) then ret tt
          else if negb (truthy (FlexTaskState.conversation_sid task)) then ret tt
          else if later_than (FlexTaskState.last_customer_activity_at task) greetingSentAt
          then ret tt
          else
            let conversationSid := default "" (FlexTaskState.conversation_sid task) in
            client <- getTwilioClient ;;
            if negb client then ret tt
            else
              workerIdentity <- resolveWorkerParticipantIdentity conversationSid
                                  (FlexTaskState.worker_sid task)
                                  (mkHints (FlexTaskState.worker_name task)
                                     (FlexTaskState.customer_address task)
                                     (FlexTaskState.customer_from task)) ;;
              if negb (truthy workerIdentity) then ret tt
              else
                ok <- sendConversationMessage conversationSid
                        (inactivityCloseMessage
                           (or_string (FlexTaskState.customer_name task) "cliente"))
                        workerIdentity ;;
                if negb ok then ret tt
                else
                  now <- new_Date E ;;
                  FlexTasksRepository.markInactiveSent E taskSid now ;;
                  (if negb (is_string (TASKS_FLEX_CLOSE_CONVERSATION E) "false")
                   then closeConversation conversationSid else ret tt) ;;
                  (if negb (is_string (TASKS_FLEX_COMPLETE_TASK E) "false")
                   then completeTaskRouterTask taskSid else ret tt) ;;
                  cancel taskSid
      end
  end.

(** *** The reconciliation step *)

Definition source : string := toLowerCase (or_else (TASKS_AUTO_SOURCE E) "auto").

Definition autoProcessAssignedTasks : M unit :=
  stop <-
    (if negb (bool_decide (source = "internal")) then
       processedFlex <- autoProcessFlexAssignedTasks ;;
       ret (processedFlex || bool_decide (source = "flex"))
     else ret false) ;;
  if stop then ret tt
  else if negb (bool_decide (source = "flex")) then autoProcessInternalAssignedTasks
  else ret tt.

(** What the closures handed to the scheduler run when their timeout fires. *)
Definition run_callback (cb : Callback) : M unit :=
  match cb with
  | InternalPing taskId => sendInternalPingIfInactive taskId
  | InternalInactive taskId => sendInternalInactiveAndClose taskId
  | FlexPing taskSid => sendFlexPingIfInactive taskSid
  | FlexInactive taskSid => sendFlexInactiveAndClose taskSid
  end.

End WithEnv.
End TasksService.

(** ** tasks.worker *)

Module TasksWorker.
Section WithEnv.
Context (E : Env).

Definition tick : M unit :=
  busy <- gets running ;;
  if busy then ret tt
  else
    modify (set_running true) ;;
    try_catch (TasksService.autoProcessAssignedTasks E) (fun _ => ret tt) ;;
    modify (set_running false).

End WithEnv.
End TasksWorker.

(** * Auxiliary definitions for the proofs *)

(** What [cancel taskId] does to the scheduler. *)
Definition cancelled (taskId : string) (s : Scheduler) : Scheduler :=
  match timers s !! taskId with
  | None => s
  | Some old =>
      mkScheduler (delete taskId (timers s))
        (delete (inactiveTimeout old) (delete (pingTimeout old) (pending s)))
        (next_handle s)
  end.

(** What arming the two deadlines of [schedule] does to the scheduler. *)
Definition armed (taskId : string) (pingDelay inactiveDelay : Z)
    (onPing onInactive : Callback) (s : Scheduler) : Scheduler :=
  let hp := next_handle s in
  mkScheduler (<[taskId := mkTaskTimers hp (S hp)]> (timers s))
    (<[S hp := mkTimeout inactiveDelay onInactive]>
       (<[hp := mkTimeout pingDelay onPing]> (pending s)))
    (S (S hp)).

(** The world after one guarded UPDATE of the [tasks] row [k] with SET clause
    [f]: the clock was read once and the statement logged. *)
Definition written (k : string) (f : Task -> Task) (w : World) : World :=
  next_io (set_db (fun d =>
    mkDb (TasksRepository.update_where_id k f (tasks d)) (flex_tasks d)
         (flex_tasks_by_conversation d) (db_log d ++ [WriteTasks k])) w).

(** The world after one upsert of the [flex_tasks] row [sid]. *)
Definition upserted (sid : string) (f : FlexRow.t -> FlexRow.t) (w : World) : World :=
  next_io (set_db (fun d =>
    mkDb (tasks d)
         (<[sid := f (default (FlexRow.blank sid) (flex_tasks d !! sid))]> (flex_tasks d))
         (flex_tasks_by_conversation d) (db_log d ++ [WriteFlexTasks sid])) w).

(** The row of [tasks] with id [k], if any. *)
Definition row (k : string) (w : World) : option Task :=
  List.find (TasksRepository.has_id k) (tasks (db w)).

(** What [getTwilioClient] of config/twilio finds in [w]: no client (the
    configuration is incomplete), a client (the one made before, or a new
    one), or the error the SDK's constructor throws. *)
Definition sms_client_state (E : Env) (w : World) : outcome bool :=
  if negb (TwilioConfig.validateConfig E) then Returned false
  else if sms_client w then Returned true
  else match Twilio E (TwilioConfig.accountSid E) (TwilioConfig.authToken E) with
       | Returned _ => Returned true
       | Thrown e => Thrown e
       end.

(** The world after [sendSMS] made an attempt: the module-level client is
    initialised, the attempt is recorded, one interaction took place. *)
Definition sms_attempted (E : Env) (to body : string) (w : World) : World :=
  log_sent
    (mkOutbound SMS to None body
       (messages_create E (io w) body (TwilioConfig.phoneNumber E) to))
    (next_io (set_sms_client true w)).

(** ** Sample data for the concrete instances *)

(** The driver's [Uuid.fromString], as far as the samples go: a string of
    36 characters is read whatever the case of its letters, any other string
    is rejected. *)
Definition invalid_uuid_message : string :=
  "Invalid string representation of Uuid, it should be in the 00000000-0000-0000-0000-000000000000 format".

Definition demo_Uuid_fromString (s : string) : outcome string :=
  if (String.length s =? 36)%nat then Returned (toLowerCase s)
  else Thrown invalid_uuid_message.

(** The SDK's constructor, as far as the samples go: it rejects an account
    sid that does not start with "AC". *)
Definition demo_Twilio (accountSid authToken : string) : outcome unit :=
  if startsWith accountSid "AC" then Returned tt
  else Thrown "accountSid must start with AC".

Definition demo_env : Env :=
  mkEnv None None None None None None
        (Some "AC1") (Some "token") (Some "+15550000") (Some "WS1")
        (fun n => 1000 * Z.of_nat n)
        (fun _ => "11111111-1111-1111-1111-111111111111")
        (fun s => Returned s)
        demo_Twilio
        (fun _ => None)
        (fun _ _ _ _ => true)
        (fun _ => Some [])
        (fun _ _ _ => Some [])
        (fun _ _ _ => Some [])
        (fun _ _ _ => None)
        (fun _ _ => Some [])
        (fun _ _ _ _ => true)
        (fun _ _ => true)
        (fun _ _ _ => true).

(** [demo_env] with the driver's reading of ids. *)
Definition demo_env_strict : Env :=
  mkEnv None None None None None None
        (Some "AC1") (Some "token") (Some "+15550000") (Some "WS1")
        (fun n => 1000 * Z.of_nat n)
        (fun _ => "11111111-1111-1111-1111-111111111111")
        demo_Uuid_fromString
        demo_Twilio
        (fun _ => None)
        (fun _ _ _ _ => true)
        (fun _ => Some [])
        (fun _ _ _ => Some [])
        (fun _ _ _ => Some [])
        (fun _ _ _ => None)
        (fun _ _ => Some [])
        (fun _ _ _ _ => true)
        (fun _ _ => true)
        (fun _ _ _ => true).

Definition empty_world : World :=
  mkWorld (mkDb [] ∅ ∅ []) (mkScheduler ∅ ∅ 0)
          (mkService false None false false ∅ ∅) false false [] 0.

Definition with_tasks (rows : list Task) (io0 : nat) : World :=
  mkWorld (mkDb rows ∅ ∅ []) (mkScheduler ∅ ∅ 0)
          (mkService false None false false ∅ ∅) false false [] io0.

(** Ana's task, assigned to Bia at 500 and not greeted yet. *)
Definition ana_assigned : Task :=
  mkTask "t1" "Ana" "+5501" (Some "O1") (Some "Bia") assigned 100 500
         (Some 500) None None None None None None.

(** Ana's task, greeted at 1000. *)
Definition ana_greeted : Task :=
  mkTask "t1" "Ana" "+5501" (Some "O1") (Some "Bia") assigned 100 1000
         (Some 500) (Some 1000) None None None None None.

(** Ana's task, closed for inactivity at 31000. *)
Definition ana_closed : Task :=
  mkTask "t1" "Ana" "+5501" (Some "O1") (Some "Bia") closed 100 31000
         (Some 500) (Some 1000) (Some 6000) (Some 31000) None (Some 31000)
         (Some "inactivity").

(** The states in which the ping callback must stay silent. *)
Definition ping_blocked (t : Task) : Prop :=
  status t <> assigned \/
  greeting_sent_at t = None \/
  is_Some (ping_sent_at t) \/
  (exists g a, greeting_sent_at t = Some g /\ last_customer_activity_at t = Some a /\ g < a).

(** ** Frames *)

(** [m] relates every world to the world it leaves. *)
Definition preserves {A : Type} (R : World -> World -> Prop) (m : M A) : Prop :=
  forall w, R w (world_of (m w)).

(** The [tasks] table is untouched and the interaction count did not go back. *)
Definition same_tasks (w w' : World) : Prop :=
  tasks (db w') = tasks (db w) /\ (io w <= io w')%nat.

(** ** Entry points *)

(** A pending timeout fires: the runtime takes it out of the pending set and
    runs its callback. *)
Definition fire_timeout (E : Env) (h : nat) : M unit :=
  (t <- gets (fun w => pending (sched w) !! h) ;;
   match t with
   | None => ret tt
   | Some t =>
       TaskInactivityScheduler.clearTimeout h ;;
       TasksService.run_callback E (callback t)
   end)%M.

(** The entry points of the module: the HTTP commands, the two webhook
    sinks, the worker tick, a run of one of the scheduled callbacks, and the
    expiry of a pending timeout. *)
Inductive Command : Type :=
| Create (customerName customerContact : string)
| Assign (taskId operatorId operatorName : string)
| StartOperatorHandoff (taskId operatorId operatorName : string) (sendGreeting : option bool)
| RegisterOperatorGreeting (taskId : string)
| MarkCustomerActivity (taskId : string)
| InboundFrom (customerContact : string)
| InboundConversation (conversationSid : string) (author : option string)
| Tick
| Fire (cb : Callback)
| Expire (h : nat).

Definition run (E : Env) (c : Command) (w : World) : World :=
  match c with
  | Create n c => world_of (TasksService.create E n c w)
  | Assign k o n => world_of (TasksService.assign E k o n w)
  | StartOperatorHandoff k o n s => world_of (TasksService.startOperatorHandoff E k o n s w)
  | RegisterOperatorGreeting k => world_of (TasksService.registerOperatorGreeting E k w)
  | MarkCustomerActivity k => world_of (TasksService.markCustomerActivity E k w)
  | InboundFrom c => world_of (TasksService.markCustomerActivityByContact E c w)
  | InboundConversation c a =>
      world_of (TasksService.markFlexCustomerActivityByConversationSid E c a w)
  | Tick => world_of (TasksWorker.tick E w)
  | Fire cb => world_of (TasksService.run_callback E cb w)
  | Expire h => world_of (fire_timeout E h w)
  end.

(** The clock does not go back. *)
Definition monotone_clock (E : Env) : Prop :=
  forall i j : nat, (i <= j)%nat -> Date_now E i <= Date_now E j.

(** Running a list of entry points, first to last. *)
Definition run_all (E : Env) (cs : list Command) (w : World) : World :=
  fold_left (fun w c => run E c w) cs w.



(** ** The author classification of the flex activity sink, in the spec's words *)

(** The customer is known when the trimmed [customer_address] or the trimmed
    [customer_from] of the row is a non-empty string. *)
Definition customer_known (r : FlexRow.t) : Prop :=
  (exists s, FlexRow.customer_address r = Some s /\ trim s <> "") \/
  (exists s, FlexRow.customer_from r = Some s /\ trim s <> "").

(** The author matches one of the two (trimmed) customer addresses. *)
Definition matches_customer (r : FlexRow.t) (author : string) : Prop :=
  trim <$> FlexRow.customer_address r = Some author \/
  trim <$> FlexRow.customer_from r = Some author.

(** The author is neither the automation author nor the stored worker. *)
Definition not_operator (E : Env) (r : FlexRow.t) (author : string) : Prop :=
  author <> TasksService.getAutomationAuthor E /\
  FlexRow.worker_name r <> Some author /\
  FlexRow.worker_sid r <> Some author.

Definition counts_as_customer (E : Env) (r : FlexRow.t) (author : string) : Prop :=
  (customer_known r /\ matches_customer r author) \/
  (~ customer_known r /\ not_operator E r author).

(** The flex task of scenario 5: worker Bia, customer known by [from]. *)
Definition bia_flex_row : FlexRow.t :=
  FlexRow.mk "WT1" (Some "CH1") (Some "whatsapp") (Some "Ana") None (Some "+5501")
             (Some "WK1") (Some "Bia") (Some "assigned") (Some "{}")
             (Some 1000) None None None (Some 900) (Some 1000).

Definition bia_flex_world : World :=
  mkWorld (mkDb [] {["WT1" := bia_flex_row]} {["CH1" := "WT1"]} [])
          (mkScheduler {["WT1" := mkTaskTimers 0 1]}
             {[0%nat := mkTimeout 5000 (FlexPing "WT1");
               1%nat := mkTimeout 30000 (FlexInactive "WT1")]} 2)
          (mkService false None false false ∅ ∅) false false [] 3.

(** The same task when no customer address is known. *)
Definition bia_anonymous_row : FlexRow.t :=
  FlexRow.mk "WT1" (Some "CH1") (Some "whatsapp") (Some "Ana") None None
             (Some "WK1") (Some "Bia") (Some "assigned") (Some "{}")
             (Some 1000) None None None (Some 900) (Some 1000).

Definition bia_anonymous_world : World :=
  mkWorld (mkDb [] {["WT1" := bia_anonymous_row]} {["CH1" := "WT1"]} [])
          (mkScheduler {["WT1" := mkTaskTimers 0 1]}
             {[0%nat := mkTimeout 5000 (FlexPing "WT1");
               1%nat := mkTimeout 30000 (FlexInactive "WT1")]} 2)
          (mkService false None false false ∅ ∅) false false [] 3.

(** Nothing was written, scheduled or sent. *)
Definition quiet (w w' : World) : Prop :=
  db w' = db w /\ sched w' = sched w /\ sent w' = sent w.

(** The decision the code takes, for a state read from row [r]. *)
Definition ignored_author (E : Env) (r : FlexRow.t) (a : string) : bool :=
  let customerAddress := trim <$> FlexRow.customer_address r in
  let customerFrom := trim <$> FlexRow.customer_from r in
  if truthy customerAddress || truthy customerFrom then
    negb (is_string customerAddress a) && negb (is_string customerFrom a)
  else
    bool_decide (a = TasksService.getAutomationAuthor E) ||
    (truthy (FlexRow.worker_name r) && is_string (FlexRow.worker_name r) a) ||
    (truthy (FlexRow.worker_sid r) && is_string (FlexRow.worker_sid r) a).


(** ** Well-formed schedulers *)

(** The handles of an entry. *)
Definition handles (t : TaskTimers) : list nat := [pingTimeout t; inactiveTimeout t].

(** Handles are handed out in increasing order, so that every handle of an
    entry and every pending timeout is below [next_handle], and two entries
    never share a handle. *)
Definition scheduler_wf (s : Scheduler) : Prop :=
  (forall k t h, timers s !! k = Some t -> In h (handles t) -> (h < next_handle s)%nat) /\
  (forall h, is_Some (pending s !! h) -> (h < next_handle s)%nat) /\
  (forall k1 k2 t1 t2 h,
     timers s !! k1 = Some t1 -> timers s !! k2 = Some t2 ->
     In h (handles t1) -> In h (handles t2) -> k1 = k2).

(** The invariant of the scheduler: the two handles of an entry differ and
    were handed out before, no handle belongs to two entries, and every
    pending timeout belongs to an entry (a timeout that fired is no longer
    pending, while its entry stays until it is cancelled). *)
Definition scheduler_ok (s : Scheduler) : Prop :=
  (forall k t, timers s !! k = Some t ->
     pingTimeout t <> inactiveTimeout t /\
     (pingTimeout t < next_handle s)%nat /\ (inactiveTimeout t < next_handle s)%nat) /\
  (forall k1 k2 t1 t2 h,
     timers s !! k1 = Some t1 -> timers s !! k2 = Some t2 ->
     In h (handles t1) -> In h (handles t2) -> k1 = k2) /\
  (forall h, is_Some (pending s !! h) ->
     exists k t, timers s !! k = Some t /\ In h (handles t)).

(** Two tasks with armed timers: Ana's ("t1") and another one ("t2"). *)
Definition two_timers_world : World :=
  mkWorld (mkDb [] ∅ ∅ [])
          (mkScheduler {["t1" := mkTaskTimers 0 1; "t2" := mkTaskTimers 2 3]}
             {[0%nat := mkTimeout 5000 (InternalPing "t1");
               1%nat := mkTimeout 30000 (InternalInactive "t1");
               2%nat := mkTimeout 4000 (InternalPing "t2");
               3%nat := mkTimeout 29000 (InternalInactive "t2")]} 4)
          (mkService false None false false ∅ ∅) false false [] 10.

(** ** What an entry point leaves alone *)

Global Instance Channel_eq_dec : EqDecision Channel.
Proof. solve_decision. Defined.

(** The attempts made on one channel, oldest first. *)
Definition sent_on (c : Channel) (w : World) : list Outbound :=
  filter (fun o => ob_channel o = c) (sent w).

(** Nothing of the flex side changed: the two flex tables, the private
    fields of the service (provider client, workspace, caches, warnings) and
    the conversation messages. *)
Definition flex_side_untouched (w w' : World) : Prop :=
  flex_tasks (db w') = flex_tasks (db w) /\
  flex_tasks_by_conversation (db w') = flex_tasks_by_conversation (db w) /\
  svc w' = svc w /\
  sent_on Conversation w' = sent_on Conversation w.

(** Nothing of the internal side changed: the [tasks] table, the SMS client
    and the SMS messages. *)
Definition internal_side_untouched (w w' : World) : Prop :=
  tasks (db w') = tasks (db w) /\
  sms_client w' = sms_client w /\
  sent_on SMS w' = sent_on SMS w.

(** [demo_env] with another TASKS_AUTO_SOURCE. *)
Definition demo_env_source (src : string) : Env :=
  mkEnv (Some src) None None None None None
        (Some "AC1") (Some "token") (Some "+15550000") (Some "WS1")
        (fun n => 1000 * Z.of_nat n)
        (fun _ => "11111111-1111-1111-1111-111111111111")
        (fun s => Returned s)
        demo_Twilio
        (fun _ => None)
        (fun _ _ _ _ => true)
        (fun _ => Some [])
        (fun _ _ _ => Some [])
        (fun _ _ _ => Some [])
        (fun _ _ _ => None)
        (fun _ _ => Some [])
        (fun _ _ _ _ => true)
        (fun _ _ => true)
        (fun _ _ _ => true).

(** Running a computation keeps the invariant of the scheduler. *)
Definition keeps_scheduler_ok (w w' : World) : Prop :=
  scheduler_ok (sched w) -> scheduler_ok (sched w').

(** Ana's task assigned and not greeted, while "t2" has its timers armed. *)
Definition handoff_world : World :=
  mkWorld (mkDb [ana_assigned] ∅ ∅ [])
          (mkScheduler {["t2" := mkTaskTimers 2 3]}
             {[2%nat := mkTimeout 4000 (InternalPing "t2");
               3%nat := mkTimeout 29000 (InternalInactive "t2")]} 4)
          (mkService false None false false ∅ ∅) false false [] 10.

(** ** Isolation of the repository updates *)

(** [op] neither creates nor removes nor reorders rows, leaves the rows of
    the other uuids alone, does nothing at all when no row has the uuid [u],
    and otherwise executes one statement on the row of [u], which keeps its
    id, customer and creation date, and returns the row read back. *)
Definition touches_only_row (u : string) (op : M (option Task)) (w : World) : Prop :=
  let w' := world_of (op w) in
  map id (tasks (db w')) = map id (tasks (db w)) /\
  (forall u', u' <> u -> row u' w' = row u' w) /\
  match row u w with
  | None => op w = (Returned None, w)
  | Some t =>
      exists t',
        op w = (Returned (Some t'), w') /\
        row u w' = Some t' /\
        id t' = id t /\
        customer_name t' = customer_name t /\
        customer_contact t' = customer_contact t /\
        created_at t' = created_at t /\
        db_log (db w') = (db_log (db w) ++ [WriteTasks u])%list
  end.

(** [op], called with the id [k]: when the driver does not read [k] as a
    uuid its error is thrown and nothing happens; otherwise [op] touches the
    row of the uuid read, and no other. *)
Definition guarded_by_id (E : Env) (k : string) (op : M (option Task)) (w : World) : Prop :=
  match Uuid_fromString E k with
  | Thrown e => op w = (Thrown e, w)
  | Returned u => touches_only_row u op w
  end.

(** ** The flex repository *)

(** The four epoch marks of a flex row. *)
Definition flex_marks (r : FlexRow.t) : option Z * option Z * option Z * option Z :=
  (FlexRow.greeting_sent_at r, FlexRow.ping_sent_at r,
   FlexRow.inactive_sent_at r, FlexRow.last_customer_activity_at r).

(** The ten columns [upsertBaseState] binds, as the input gives them. *)
Definition holds_base_state (input : FlexTasksRepository.BaseState) (r : FlexRow.t) : Prop :=
  FlexRow.task_sid r = FlexTasksRepository.taskSid input /\
  FlexRow.conversation_sid r = FlexTasksRepository.conversationSid input /\
  FlexRow.channel_type r = FlexTasksRepository.channelType input /\
  FlexRow.customer_name r = FlexTasksRepository.customerName input /\
  FlexRow.customer_address r = FlexTasksRepository.customerAddress input /\
  FlexRow.customer_from r = FlexTasksRepository.customerFrom input /\
  FlexRow.worker_sid r = FlexTasksRepository.workerSid input /\
  FlexRow.worker_name r = FlexTasksRepository.workerName input /\
  FlexRow.task_assignment_status r = FlexTasksRepository.assignmentStatus input /\
  FlexRow.task_attributes r = FlexTasksRepository.taskAttributes input.


(** The base state of the flex task of scenario 4. *)
Definition demo_base_state : FlexTasksRepository.BaseState :=
  FlexTasksRepository.mkBaseState "WT1" (Some "CH1") (Some "whatsapp") (Some "Ana")
    None (Some "+5501") (Some "WK1") (Some "Bia") (Some "assigned") (Some "{}").

(** ** The internal service *)

(** The messages the provider accepted. *)
Definition delivered (w : World) : list Outbound :=
  List.filter (fun o => ob_ok o) (sent w).

(** [demo_env] without the Twilio credentials. *)
Definition demo_env_no_sms : Env :=
  mkEnv None None None None None None
        None None None (Some "WS1")
        (fun n => 1000 * Z.of_nat n)
        (fun _ => "11111111-1111-1111-1111-111111111111")
        (fun s => Returned s)
        demo_Twilio
        (fun _ => None)
        (fun _ _ _ _ => true)
        (fun _ => Some [])
        (fun _ _ _ => Some [])
        (fun _ _ _ => Some [])
        (fun _ _ _ => None)
        (fun _ _ => Some [])
        (fun _ _ _ _ => true)
        (fun _ _ => true)
        (fun _ _ _ => true).

(** [demo_env] with an account sid that the SDK refuses. *)
Definition demo_env_bad_sid : Env :=
  mkEnv None None None None None None
        (Some "SK1") (Some "token") (Some "+15550000") (Some "WS1")
        (fun n => 1000 * Z.of_nat n)
        (fun _ => "11111111-1111-1111-1111-111111111111")
        (fun s => Returned s)
        demo_Twilio
        (fun _ => None)
        (fun _ _ _ _ => true)
        (fun _ => Some [])
        (fun _ _ _ => Some [])
        (fun _ _ _ => Some [])
        (fun _ _ _ => None)
        (fun _ _ => Some [])
        (fun _ _ _ _ => true)
        (fun _ _ => true)
        (fun _ _ _ => true).

(** Two assigned tasks of the same customer; the second was updated last. *)
Definition ana_second : Task :=
  mkTask "t2" "Ana" "+5501" (Some "O2") (Some "Caio") assigned 200 2000
         (Some 900) (Some 2000) None None None None None.


(** A callback fires [n] times in a row. *)
Definition fired (n : nat) (cb : M unit) (w : World) : World :=
  Nat.iter n (fun w => world_of (cb w)) w.

(** One firing of a callback: the world is as before, or a refused attempt
    was logged, or one message went out and the callback is blocked from then
    on. *)
Definition one_shot {R : Type} (look : World -> option R) (blocked : R -> Prop)
    (cb : M unit) (w : World) : Prop :=
  let w' := world_of (cb w) in
  delivered w' = delivered w \/
  (length (delivered w') = S (length (delivered w)) /\
   exists t, look w' = Some t /\ blocked t).

(** ** The second run of the internal pipeline *)

(** With a complete configuration the SDK builds a client, and the provider
    accepts every SMS. *)
Definition sms_reliable (E : Env) : Prop :=
  (TwilioConfig.validateConfig E = true ->
   Twilio E (TwilioConfig.accountSid E) (TwilioConfig.authToken E) = Returned tt) /\
  forall i body from to, messages_create E i body from to = true.

(** The driver reads the id of every row back as the uuid of that row. *)
Definition ids_read_back (E : Env) (w : World) : Prop :=
  forall t, In t (tasks (db w)) -> Uuid_fromString E (id t) = Returned (id t).

(** No row has an activity mark later than the clock. *)
Definition activity_not_ahead (E : Env) (w : World) : Prop :=
  forall t a, In t (tasks (db w)) -> last_customer_activity_at t = Some a ->
    a <= Date_now E (io w).

(** The row [u] gives the internal pipeline nothing to do: it is not an
    assigned task with an operator, or it is greeted and the scheduler entry
    is as the pipeline wants it, or it is not greeted and no message can be
    attempted. *)
Definition quiet_row (E : Env) (u : Task) (s : Scheduler) : Prop :=
  status u <> assigned \/
  negb (truthy (operator_id u)) || negb (truthy (operator_name u)) = true \/
  (exists g, greeting_sent_at u = Some g /\
     if later_than (last_customer_activity_at u) g ||
        bool_decide (is_Some (inactive_sent_at u))
     then timers s !! id u = None
     else is_Some (timers s !! id u)) \/
  (greeting_sent_at u = None /\ TwilioConfig.validateConfig E = false).

(** Two rows with the same id and status. *)
Definition same_id_status (t t' : Task) : Prop :=
  id t' = id t /\ status t' = status t.

(** What one round of the loop does to the table. *)
Definition greets (k : string) (w w' : World) : Prop :=
  tasks (db w') = tasks (db w) \/
  exists g now,
    tasks (db w') =
    TasksRepository.update_where_id k (TasksRepository.greeting_columns g now) (tasks (db w)).

(** ** Participants of a conversation *)

(** Bia, the worker, joined under her worker sid; the customer under the
    WhatsApp address. *)
Definition bia_participant : Participant :=
  mkParticipant (Some " WK1 ") None None.

Definition ana_participant : Participant :=
  mkParticipant (Some "whatsapp:+5501") None (Some "whatsapp:+5501").

(** ** What a round of the flex pipeline writes *)

(** The tables are untouched. *)
Definition db_kept (w w' : World) : Prop := db w' = db w.

(** The statements executed so far are still there, with more after them. *)
Definition log_extends (w w' : World) : Prop :=
  exists l, db_log (db w') = (db_log (db w) ++ l)%list.

(** The [running] flag of the worker is as it was. *)
Definition running_kept (w w' : World) : Prop := running w' = running w.

(** ** The priority order of the worker-participant resolution *)














(** ** The timer callbacks of flex tasks *)

(** The states in which the flex ping callback stays silent. *)
Definition flex_ping_blocked (r : FlexRow.t) : Prop :=
  FlexRow.greeting_sent_at r = None \/
  is_Some (FlexRow.ping_sent_at r) \/
  truthy (FlexRow.conversation_sid r) = false \/
  (exists g a, FlexRow.greeting_sent_at r = Some g /\
               FlexRow.last_customer_activity_at r = Some a /\ g < a).

(** The states in which the flex inactivity callback stays silent. *)
Definition flex_close_blocked (r : FlexRow.t) : Prop :=
  FlexRow.greeting_sent_at r = None \/
  is_Some (FlexRow.inactive_sent_at r) \/
  truthy (FlexRow.conversation_sid r) = false \/
  (exists g a, FlexRow.greeting_sent_at r = Some g /\
               FlexRow.last_customer_activity_at r = Some a /\ g < a).

(** Nothing was written, scheduled, sent or remembered; clock readings may
    have taken place. *)
Definition only_clock_read (w w' : World) : Prop :=
  db w' = db w /\ sched w' = sched w /\ sent w' = sent w /\ svc w' = svc w.

(** No message was delivered and the flex rows are as they were. *)
Definition no_delivery (w w' : World) : Prop :=
  delivered w' = delivered w /\ flex_tasks (db w') = flex_tasks (db w).

(** ** Sample data for the flex callbacks and the tick *)

(** Bia's flex task after the customer wrote at 2000. *)
Definition bia_active_row : FlexRow.t :=
  FlexRow.mk "WT1" (Some "CH1") (Some "whatsapp") (Some "Ana") None (Some "+5501")
             (Some "WK1") (Some "Bia") (Some "assigned") (Some "{}")
             (Some 1000) None None (Some 2000) (Some 900) (Some 2000).

Definition bia_active_world : World :=
  mkWorld (mkDb [] {["WT1" := bia_active_row]} {["CH1" := "WT1"]} [])
          (mkScheduler ∅ ∅ 2)
          (mkService false None false false ∅ ∅) false false [] 5.

(** [demo_env] with a TaskRouter that rejects the task listing. *)
Definition demo_env_flex_down : Env :=
  mkEnv None None None None None None
        (Some "AC1") (Some "token") (Some "+15550000") (Some "WS1")
        (fun n => 1000 * Z.of_nat n)
        (fun _ => "11111111-1111-1111-1111-111111111111")
        (fun s => Returned s)
        demo_Twilio
        (fun _ => None)
        (fun _ _ _ _ => true)
        (fun _ => Some [])
        (fun _ _ _ => None)
        (fun _ _ _ => Some [])
        (fun _ _ _ => None)
        (fun _ _ => Some [])
        (fun _ _ _ _ => true)
        (fun _ _ => true)
        (fun _ _ _ => true).

(** A task passes the filters of [list]. *)
Definition passes (filters : TasksService.ListFilters) (t : Task) : Prop :=
  (forall st, TasksService.f_status filters = Some st -> status t = st) /\
  (forall op, TasksService.f_operatorId filters = Some op -> op <> "" ->
              operator_id t = Some op).

(** No message was attempted and the flex rows are as they were. *)
Definition unsent (w w' : World) : Prop :=
  sent w' = sent w /\ flex_tasks (db w') = flex_tasks (db w).

(** A provider task of the conversation "CH1", and TaskRouter answering
    with Bia's accepted reservation. *)
Definition bia_provider_task : ProviderTask :=
  mkProviderTask "WT1" "{}" "assigned".

Definition demo_env_flex : Env :=
  mkEnv None None None None None None
        (Some "AC1") (Some "token") (Some "+15550000") (Some "WS1")
        (fun n => 1000 * Z.of_nat n)
        (fun _ => "11111111-1111-1111-1111-111111111111")
        (fun s => Returned s)
        demo_Twilio
        (fun _ => Some (JObj [("conversationSid", JStr "CH1")]))
        (fun _ _ _ _ => true)
        (fun _ => Some [])
        (fun _ _ _ => Some [bia_provider_task])
        (fun _ _ _ => Some [mkReservation (Some "Bia") (Some "WK1")])
        (fun _ _ _ => None)
        (fun _ _ => Some [])
        (fun _ _ _ _ => true)
        (fun _ _ => true)
        (fun _ _ _ => true).

(** * The scheduler *)

Section SchedulerFacts.
Import TaskInactivityScheduler.

Lemma set_sched_id (w : World) : set_sched (fun s => s) w = w.
Proof. by destruct w. Qed.

Lemma cancel_eq (taskId : string) (w : World) :
  cancel taskId w = (Returned tt, set_sched (cancelled taskId) w).
Proof.
  unfold cancel, bind, gets, cancelled, set_sched.
  destruct w as [d s v c r o n]; simpl.
  destruct (timers s !! taskId) as [old|] eqn:Hold; simpl.
  - done.
  - by destruct s.
Qed.

Lemma cancelled_clears (k : string) (s : Scheduler) :
  timers (cancelled k s) !! k = None /\
  forall old, timers s !! k = Some old ->
    pending (cancelled k s) !! pingTimeout old = None /\
    pending (cancelled k s) !! inactiveTimeout old = None.
Proof.
  unfold cancelled. destruct (timers s !! k) as [old|] eqn:Hold; simpl; [|done].
  split; [apply lookup_delete_eq|]. intros ? [= <-]. split; [|apply lookup_delete_eq].
  destruct (decide (inactiveTimeout old = pingTimeout old)) as [->|Hne].
  - apply lookup_delete_eq.
  - rewrite lookup_delete_ne by done. apply lookup_delete_eq.
Qed.

Lemma schedule_eq (E : Env) (taskId : string) (g : Z) (onPing onInactive : Callback)
    (w : World) :
  schedule E taskId g onPing onInactive w =
  (Returned tt,
   next_io (set_sched
     (fun s => armed taskId (Z.max 0 (g + 5000 - Date_now E (io w)))
                 (Z.max 0 (g + 30000 - Date_now E (io w))) onPing onInactive
                 (cancelled taskId s)) w)).
Proof.
  unfold schedule, bind. rewrite cancel_eq.
  by destruct w as [d s v c r o n].
Qed.

(** C3. [schedule] first cancels the entry of [taskId], if there is one (its
    two timeouts leave the pending set and the entry leaves the map), and
    then arms, on the cancelled scheduler, the ping timeout with delay
    [max 0 (g + 5000 - now)] and the inactive timeout with delay
    [max 0 (g + 30000 - now)], [now] being the clock read by the call.  When
    the greeting is 5 s or more in the past the ping delay is 0. *)
Theorem schedule_arms_anchored_deadlines (E : Env) (taskId : string) (g : Z)
    (onPing onInactive : Callback) (w : World) :
  let now := Date_now E (io w) in
  let wc := world_of (cancel taskId w) in
  let w' := world_of (schedule E taskId g onPing onInactive w) in
  let hp := next_handle (sched wc) in
  value_of (schedule E taskId g onPing onInactive w) = Returned tt /\
  timers (sched wc) !! taskId = None /\
  match timers (sched w) !! taskId with
  | Some old =>
      pending (sched wc) !! pingTimeout old = None /\
      pending (sched wc) !! inactiveTimeout old = None
  | None => wc = w
  end /\
  sched w' =
    mkScheduler
      (<[taskId := mkTaskTimers hp (S hp)]> (timers (sched wc)))
      (<[S hp := mkTimeout (Z.max 0 (g + 30000 - now)) onInactive]>
         (<[hp := mkTimeout (Z.max 0 (g + 5000 - now)) onPing]> (pending (sched wc))))
      (S (S hp)) /\
  timers (sched w') !! taskId = Some (mkTaskTimers hp (S hp)) /\
  pending (sched w') !! hp =
    Some (mkTimeout (if g + 5000 <=? now then 0 else g + 5000 - now) onPing) /\
  pending (sched w') !! S hp =
    Some (mkTimeout (if g + 30000 <=? now then 0 else g + 30000 - now) onInactive).
Proof.
  intros now wc w' hp. subst wc w' hp.
  rewrite schedule_eq, cancel_eq. unfold world_of, value_of; simpl.
  split; [done|].
  assert (Hmax : forall k, Z.max 0 (g + k - now) = if g + k <=? now then 0 else g + k - now).
  { intros k. destruct (Z.leb_spec (g + k) now); lia. }
  split.
  { unfold cancelled. destruct (timers (sched w) !! taskId) eqn:Hold; simpl; [|done].
    apply lookup_delete_eq. }
  split.
  { unfold cancelled. destruct (timers (sched w) !! taskId) as [old|] eqn:Hold; simpl.
    - split.
      + destruct (decide (inactiveTimeout old = pingTimeout old)) as [->|Hne].
        * apply lookup_delete_eq.
        * rewrite lookup_delete_ne by done. apply lookup_delete_eq.
      + apply lookup_delete_eq.
    - unfold set_sched. rewrite Hold. by destruct w. }
  split; [done|].
  unfold armed; simpl.
  split; [apply lookup_insert_eq|].
  split.
  - rewrite lookup_insert_ne by lia. rewrite lookup_insert_eq. by rewrite <- Hmax.
  - rewrite lookup_insert_eq. by rewrite <- Hmax.
Qed.

End SchedulerFacts.

(** * The tasks repository *)

Section RepositoryFacts.
Import TasksRepository.

Ltac run :=
  unfold bind, ret, gets, modify, interact, throw, new_Date, execute_update; simpl.

Lemma new_Date_eq (E : Env) (w : World) :
  new_Date E w = (Returned (Date_now E (io w)), next_io w).
Proof. done. Qed.

Lemma has_id_true (k : string) (t : Task) : has_id k t = true <-> id t = k.
Proof. unfold has_id. apply bool_decide_eq_true. Qed.

Lemma find_has_id (k : string) (rows : list Task) (t : Task) :
  List.find (has_id k) rows = Some t -> id t = k /\ In t rows.
Proof.
  intros H. apply find_some in H as [Hin Hid]. by apply has_id_true in Hid.
Qed.

Lemma find_none_iff (k : string) (rows : list Task) :
  List.find (has_id k) rows = None <-> Forall (fun t => id t <> k) rows.
Proof.
  induction rows as [|t rows IH]; simpl.
  - split; [constructor|done].
  - destruct (has_id k t) eqn:Hk.
    + split; [done|]. intros H. inversion H as [|? ? Hne _]; subst.
      apply has_id_true in Hk. done.
    + rewrite IH. split.
      * intros H. constructor; [|done]. intros Heq. apply has_id_true in Heq. congruence.
      * intros H. by inversion H.
Qed.

Section Update.
Context (k : string) (f : Task -> Task) (Hid : forall t, id (f t) = id t).

Lemma find_update_hit (rows : list Task) (t : Task) :
  List.find (has_id k) rows = Some t ->
  List.find (has_id k) (update_where_id k f rows) = Some (f t).
Proof.
  induction rows as [|u rows IH]; simpl; [done|].
  destruct (has_id k u) eqn:Hu.
  - intros [= ->]. simpl. unfold has_id in *. rewrite Hid. by rewrite Hu.
  - intros H. simpl. rewrite Hu. by apply IH.
Qed.

Lemma find_update_other (k' : string) (rows : list Task) :
  k' <> k ->
  List.find (has_id k') (update_where_id k f rows) = List.find (has_id k') rows.
Proof.
  intros Hne. induction rows as [|u rows IH]; simpl; [done|].
  destruct (has_id k u) eqn:Hu.
  - apply has_id_true in Hu. unfold has_id at 1 3. rewrite Hid, Hu.
    rewrite !bool_decide_eq_false_2 by congruence. apply IH.
  - destruct (has_id k' u); [done|apply IH].
Qed.

Lemma find_update_none (rows : list Task) :
  List.find (has_id k) rows = None -> update_where_id k f rows = rows.
Proof.
  induction rows as [|u rows IH]; simpl; [done|].
  destruct (has_id k u); [done|]. intros H. by rewrite IH.
Qed.

Lemma update_ids (rows : list Task) :
  map id (update_where_id k f rows) = map id rows.
Proof.
  unfold update_where_id. rewrite map_map. apply map_ext.
  intros t. by destruct (has_id k t).
Qed.

Lemma update_status_filter (st : TaskStatus) (rows : list Task) :
  (forall t, status (f t) = status t) ->
  filter (fun t => status t = st) (update_where_id k f rows) =
  update_where_id k f (filter (fun t => status t = st) rows).
Proof.
  intros Hst. induction rows as [|u rows IH]; simpl; [done|].
  rewrite !filter_cons.
  assert (Hu : status (if has_id k u then f u else u) = status u).
  { destruct (has_id k u); [apply Hst|done]. }
  rewrite Hu. destruct (decide (status u = st)); simpl; by rewrite IH.
Qed.

Lemma row_written_hit (w : World) (t : Task) :
  row k w = Some t -> row k (written k f w) = Some (f t).
Proof. unfold row, written. destruct w; simpl. apply find_update_hit. Qed.

Lemma row_written_other (k' : string) (w : World) :
  k' <> k -> row k' (written k f w) = row k' w.
Proof. unfold row, written. destruct w; simpl. by apply find_update_other. Qed.

End Update.

(** The five guarded updates, as equations: [u] is the uuid the driver
    reads from the id [k]. *)
Section Guarded.
Context (E : Env).

Lemma findById_eq (k u : string) (w : World) :
  Uuid_fromString E k = Returned u -> findById E k w = (Returned (row u w), w).
Proof. intros Hk. unfold findById, bind, call. by rewrite Hk. Qed.

Lemma findById_invalid (k e : string) (w : World) :
  Uuid_fromString E k = Thrown e -> findById E k w = (Thrown e, w).
Proof. intros Hk. unfold findById, bind, call. by rewrite Hk. Qed.

Lemma assignToOperator_eq (k u operatorId operatorName : string) (w : World) :
  Uuid_fromString E k = Returned u ->
  assignToOperator E k operatorId operatorName w =
  match row u w with
  | None => (Returned None, w)
  | Some t =>
      let now := Date_now E (io w) in
      let f := assign_columns operatorId operatorName (default now (assigned_at t)) now in
      (Returned (Some (f t)), written u f w)
  end.
Proof.
  intros Hk. unfold assignToOperator, bind at 1. rewrite (findById_eq k u w Hk).
  destruct (row u w) as [t|] eqn:Ht; [|done].
  cbv beta iota. unfold bind at 1. rewrite new_Date_eq. cbv beta iota.
  unfold bind at 1, call at 1. rewrite Hk. cbv beta iota.
  unfold bind, execute_update, modify. cbv beta iota.
  fold (written u (assign_columns operatorId operatorName
                     (default (Date_now E (io w)) (assigned_at t)) (Date_now E (io w))) w).
  rewrite (findById_eq k u _ Hk). f_equal. f_equal.
  apply find_update_hit; [done|exact Ht].
Qed.

Lemma assignToOperator_invalid (k operatorId operatorName e : string) (w : World) :
  Uuid_fromString E k = Thrown e -> assignToOperator E k operatorId operatorName w = (Thrown e, w).
Proof. intros Hk. unfold assignToOperator, bind. by rewrite (findById_invalid k e w Hk). Qed.

Lemma setGreetingSent_eq (k u : string) (g : Z) (w : World) :
  Uuid_fromString E k = Returned u ->
  setGreetingSent E k g w =
  match row u w with
  | None => (Returned None, w)
  | Some t =>
      let f := greeting_columns g (Date_now E (io w)) in
      (Returned (Some (f t)), written u f w)
  end.
Proof.
  intros Hk. unfold setGreetingSent, bind at 1. rewrite (findById_eq k u w Hk).
  destruct (row u w) as [t|] eqn:Ht; [|done].
  cbv beta iota. unfold bind at 1. rewrite new_Date_eq. cbv beta iota.
  unfold bind at 1, call at 1. rewrite Hk. cbv beta iota.
  unfold bind, execute_update, modify. cbv beta iota.
  fold (written u (greeting_columns g (Date_now E (io w))) w).
  rewrite (findById_eq k u _ Hk). f_equal. f_equal.
  apply find_update_hit; [done|exact Ht].
Qed.

Lemma setGreetingSent_invalid (k e : string) (g : Z) (w : World) :
  Uuid_fromString E k = Thrown e -> setGreetingSent E k g w = (Thrown e, w).
Proof. intros Hk. unfold setGreetingSent, bind. by rewrite (findById_invalid k e w Hk). Qed.

Lemma markCustomerActivity_eq (k u : string) (a : Z) (w : World) :
  Uuid_fromString E k = Returned u ->
  markCustomerActivity E k a w =
  match row u w with
  | None => (Returned None, w)
  | Some t =>
      let f := activity_columns a (Date_now E (io w)) in
      (Returned (Some (f t)), written u f w)
  end.
Proof.
  intros Hk. unfold markCustomerActivity, bind at 1. rewrite (findById_eq k u w Hk).
  destruct (row u w) as [t|] eqn:Ht; [|done].
  cbv beta iota. unfold bind at 1. rewrite new_Date_eq. cbv beta iota.
  unfold bind at 1, call at 1. rewrite Hk. cbv beta iota.
  unfold bind, execute_update, modify. cbv beta iota.
  fold (written u (activity_columns a (Date_now E (io w))) w).
  rewrite (findById_eq k u _ Hk). f_equal. f_equal.
  apply find_update_hit; [done|exact Ht].
Qed.

Lemma markCustomerActivity_invalid (k e : string) (a : Z) (w : World) :
  Uuid_fromString E k = Thrown e -> markCustomerActivity E k a w = (Thrown e, w).
Proof. intros Hk. unfold markCustomerActivity, bind. by rewrite (findById_invalid k e w Hk). Qed.

Lemma markPingSent_eq (k u : string) (a : Z) (w : World) :
  Uuid_fromString E k = Returned u ->
  markPingSent E k a w =
  match row u w with
  | None => (Returned None, w)
  | Some t =>
      let f := ping_columns a (Date_now E (io w)) in
      (Returned (Some (f t)), written u f w)
  end.
Proof.
  intros Hk. unfold markPingSent, bind at 1. rewrite (findById_eq k u w Hk).
  destruct (row u w) as [t|] eqn:Ht; [|done].
  cbv beta iota. unfold bind at 1. rewrite new_Date_eq. cbv beta iota.
  unfold bind at 1, call at 1. rewrite Hk. cbv beta iota.
  unfold bind, execute_update, modify. cbv beta iota.
  fold (written u (ping_columns a (Date_now E (io w))) w).
  rewrite (findById_eq k u _ Hk). f_equal. f_equal.
  apply find_update_hit; [done|exact Ht].
Qed.

Lemma markPingSent_invalid (k e : string) (a : Z) (w : World) :
  Uuid_fromString E k = Thrown e -> markPingSent E k a w = (Thrown e, w).
Proof. intros Hk. unfold markPingSent, bind. by rewrite (findById_invalid k e w Hk). Qed.

Lemma closeDueToInactivity_eq (k u : string) (a : Z) (w : World) :
  Uuid_fromString E k = Returned u ->
  closeDueToInactivity E k a w =
  match row u w with
  | None => (Returned None, w)
  | Some t =>
      let f := close_columns a (Date_now E (io w)) in
      (Returned (Some (f t)), written u f w)
  end.
Proof.
  intros Hk. unfold closeDueToInactivity, bind at 1. rewrite (findById_eq k u w Hk).
  destruct (row u w) as [t|] eqn:Ht; [|done].
  cbv beta iota. unfold bind at 1. rewrite new_Date_eq. cbv beta iota.
  unfold bind at 1, call at 1. rewrite Hk. cbv beta iota.
  unfold bind, execute_update, modify. cbv beta iota.
  fold (written u (close_columns a (Date_now E (io w))) w).
  rewrite (findById_eq k u _ Hk). f_equal. f_equal.
  apply find_update_hit; [done|exact Ht].
Qed.

Lemma closeDueToInactivity_invalid (k e : string) (a : Z) (w : World) :
  Uuid_fromString E k = Thrown e -> closeDueToInactivity E k a w = (Thrown e, w).
Proof. intros Hk. unfold closeDueToInactivity, bind. by rewrite (findById_invalid k e w Hk). Qed.

End Guarded.
End RepositoryFacts.

(** * The service: internal tasks *)

Section ServiceFacts.
Import TaskInactivityScheduler TasksService.
Context (E : Env).

Lemma row_db (k : string) (w w' : World) : db w = db w' -> row k w = row k w'.
Proof. unfold row. by intros ->. Qed.

Lemma sendSMS_eq (to body : string) (w : World) :
  TwilioConfig.sendSMS E to body w =
  match sms_client_state E w with
  | Returned true =>
      (Returned (messages_create E (io w) body (TwilioConfig.phoneNumber E) to),
       sms_attempted E to body w)
  | Returned false => (Returned false, w)
  | Thrown e => (Thrown e, w)
  end.
Proof.
  unfold TwilioConfig.sendSMS, TwilioConfig.getTwilioClient, sms_client_state, bind.
  destruct (TwilioConfig.validateConfig E); simpl; [|done].
  unfold gets, sms_attempted, call. destruct w as [d s v c r o n]. simpl.
  destruct c; simpl; [done|].
  by destruct (Twilio E _ _) as [[]|e].
Qed.

Lemma getTwilioClient_value (w : World) :
  value_of (TwilioConfig.getTwilioClient E w) = sms_client_state E w.
Proof.
  unfold TwilioConfig.getTwilioClient, sms_client_state, bind, gets, call, value_of.
  destruct (TwilioConfig.validateConfig E); simpl; [|done].
  destruct (sms_client w); simpl; [done|].
  by destruct (Twilio E _ _) as [[]|e].
Qed.

Lemma sendSMS_frame (to body : string) (w : World) :
  let w' := world_of (TwilioConfig.sendSMS E to body w) in
  db w' = db w /\ sched w' = sched w /\ svc w' = svc w /\ (io w <= io w')%nat.
Proof.
  rewrite sendSMS_eq. destruct (sms_client_state E w) as [[|]|e]; simpl; auto with lia.
Qed.

Lemma schedule_frame (taskId : string) (g : Z) (p i : Callback) (w : World) :
  let w' := world_of (schedule E taskId g p i w) in
  db w' = db w /\ sent w' = sent w /\ svc w' = svc w.
Proof. by rewrite schedule_eq. Qed.

Lemma cancel_frame (taskId : string) (w : World) :
  let w' := world_of (cancel taskId w) in
  db w' = db w /\ sent w' = sent w /\ svc w' = svc w /\ io w' = io w.
Proof. by rewrite cancel_eq. Qed.

Lemma scheduleInternalInactivityTimers_eq (task : Task) (w : World) :
  scheduleInternalInactivityTimers E task w =
  match greeting_sent_at task with
  | None => (Returned tt, w)
  | Some g =>
      if bool_decide (is_Some (timers (sched w) !! id task)) then (Returned tt, w)
      else schedule E (id task) g (InternalPing (id task)) (InternalInactive (id task)) w
  end.
Proof.
  unfold scheduleInternalInactivityTimers. destruct (greeting_sent_at task); [|done].
  unfold bind, has, gets; simpl. by destruct (bool_decide _).
Qed.

Lemma scheduleInternalInactivityTimers_frame (task : Task) (w : World) :
  let r := scheduleInternalInactivityTimers E task w in
  value_of r = Returned tt /\
  db (world_of r) = db w /\ sent (world_of r) = sent w /\ svc (world_of r) = svc w.
Proof.
  rewrite scheduleInternalInactivityTimers_eq.
  destruct (greeting_sent_at task); [|done].
  destruct (bool_decide _); [done|]. by rewrite schedule_eq.
Qed.

Lemma assign_eq (k u operatorId operatorName : string) (w : World) :
  Uuid_fromString E k = Returned u ->
  assign E k operatorId operatorName w =
  match row u w with
  | None => (Thrown "Task not found", w)
  | Some t =>
      let now := Date_now E (io w) in
      let f := TasksRepository.assign_columns operatorId operatorName
                 (default now (assigned_at t)) now in
      (Returned (f t), written u f w)
  end.
Proof.
  intros Hk. unfold assign, bind. rewrite (assignToOperator_eq E k u _ _ w Hk).
  by destruct (row u w).
Qed.

Lemma assign_invalid (k operatorId operatorName e : string) (w : World) :
  Uuid_fromString E k = Thrown e ->
  assign E k operatorId operatorName w = (Thrown e, w).
Proof.
  intros Hk. unfold assign, bind.
  by rewrite (assignToOperator_invalid E k operatorId operatorName e w Hk).
Qed.

End ServiceFacts.

(** * Frame rules for the monad *)

Section Preserves.
Context (R : World -> World -> Prop) `{!Reflexive R} `{!Transitive R}.

Lemma bind_world {A B : Type} (m : M A) (k : A -> M B) (w : World) :
  world_of (bind m k w) =
  match m w with
  | (Returned a, w') => world_of (k a w')
  | (Thrown _, w') => w'
  end.
Proof. unfold bind. by destruct (m w) as [[a|e] w']. Qed.

Lemma preserves_ret {A : Type} (a : A) : preserves R (ret a).
Proof. intros w. apply reflexivity. Qed.

Lemma preserves_throw {A : Type} (e : string) : preserves R (@throw A e).
Proof. intros w. apply reflexivity. Qed.

Lemma preserves_gets {A : Type} (f : World -> A) : preserves R (gets f).
Proof. intros w. apply reflexivity. Qed.

Lemma preserves_call {A : Type} (r : outcome A) : preserves R (call r).
Proof. intros w. apply reflexivity. Qed.

Lemma preserves_bind {A B : Type} (m : M A) (k : A -> M B) :
  preserves R m -> (forall a, preserves R (k a)) -> preserves R (bind m k).
Proof.
  intros Hm Hk w. rewrite bind_world. specialize (Hm w).
  destruct (m w) as [[a|e] w']; [|done].
  etransitivity; [exact Hm|apply Hk].
Qed.

Lemma preserves_for_of {A : Type} (l : list A) (body : A -> M unit) :
  (forall x, preserves R (body x)) -> preserves R (for_of l body).
Proof.
  intros Hb. induction l as [|x l IH]; simpl.
  - apply preserves_ret.
  - apply preserves_bind; [apply Hb|by intros _].
Qed.

Lemma preserves_try_catch {A : Type} (m : M A) (h : string -> M A) :
  preserves R m -> (forall e, preserves R (h e)) -> preserves R (try_catch m h).
Proof.
  intros Hm Hh w. unfold try_catch. specialize (Hm w).
  destruct (m w) as [[a|e] w']; [done|].
  etransitivity; [exact Hm|apply Hh].
Qed.

End Preserves.

Global Instance same_tasks_refl : Reflexive same_tasks.
Proof. by intros w. Qed.

Global Instance same_tasks_trans : Transitive same_tasks.
Proof. intros a b c [H1 H2] [H3 H4]. split; [congruence|lia]. Qed.

Create HintDb frames.

(** Decomposes a frame goal along the structure of the computation. *)
Ltac frame_step :=
  lazymatch goal with
  | |- preserves _ (bind _ _) =>
      apply preserves_bind; [typeclasses eauto| |intros ?]
  | |- preserves _ (ret _) => apply preserves_ret; typeclasses eauto
  | |- preserves _ (throw _) => apply preserves_throw; typeclasses eauto
  | |- preserves _ (gets _) => apply preserves_gets; typeclasses eauto
  | |- preserves _ (call _) => apply preserves_call; typeclasses eauto
  | |- preserves _ (for_of _ _) =>
      apply preserves_for_of; [typeclasses eauto|typeclasses eauto|intros ?]
  | |- preserves _ (try_catch _ _) =>
      apply preserves_try_catch; [typeclasses eauto| |intros ?]
  | |- preserves _ (if ?b then _ else _) => destruct b
  | |- preserves _ (match ?x with _ => _ end) => destruct x
  | |- preserves _ (let _ := _ in _) => cbv zeta
  end.

(** A primitive that only rebuilds the world record. *)
Ltac frame_prim :=
  let w := fresh "w" in
  intros w; destruct w; repeat split; simpl; first [reflexivity|lia].

Section SameTasks.
Import TaskInactivityScheduler TasksService.
Context (E : Env).

Local Hint Extern 1 (preserves same_tasks _) => frame_step : frames.

Lemma interact_same_tasks : preserves same_tasks interact.
Proof. frame_prim. Qed.

Lemma new_Date_same_tasks : preserves same_tasks (new_Date E).
Proof. unfold new_Date. frame_step; [apply interact_same_tasks|frame_step]. Qed.

Lemma cancel_same_tasks (k : string) : preserves same_tasks (cancel k).
Proof. intros w. rewrite cancel_eq. by destruct w. Qed.

Lemma schedule_same_tasks (k : string) (g : Z) (p i : Callback) :
  preserves same_tasks (schedule E k g p i).
Proof. intros w. rewrite schedule_eq. destruct w. split; simpl; [done|lia]. Qed.

Lemma has_same_tasks (k : string) : preserves same_tasks (has k).
Proof. unfold has. frame_step. Qed.

Lemma sendSMS_same_tasks (to body : string) :
  preserves same_tasks (TwilioConfig.sendSMS E to body).
Proof. intros w. pose proof (sendSMS_frame E to body w) as (H1 & _ & _ & H). split; [by rewrite H1|done]. Qed.

Lemma flex_upsert_same_tasks (sid : string) (f : FlexRow.t -> FlexRow.t) :
  preserves same_tasks (FlexTasksRepository.execute_upsert sid f).
Proof. frame_prim. Qed.

Lemma flex_lookup_same_tasks (conv sid : string) :
  preserves same_tasks (FlexTasksRepository.execute_insert_lookup conv sid).
Proof. frame_prim. Qed.

Local Hint Resolve interact_same_tasks new_Date_same_tasks cancel_same_tasks
  schedule_same_tasks has_same_tasks sendSMS_same_tasks flex_upsert_same_tasks
  flex_lookup_same_tasks : frames.

Lemma findByTaskSid_same_tasks (sid : string) :
  preserves same_tasks (FlexTasksRepository.findByTaskSid E sid).
Proof.
  unfold FlexTasksRepository.findByTaskSid, FlexTasksRepository.mapRow,
    FlexTasksRepository.or_new_Date.
  repeat (frame_step; auto with frames).
Qed.

Local Hint Resolve findByTaskSid_same_tasks : frames.

Lemma findByConversationSid_same_tasks (conv : string) :
  preserves same_tasks (FlexTasksRepository.findByConversationSid E conv).
Proof.
  unfold FlexTasksRepository.findByConversationSid.
  repeat (frame_step; auto with frames).
Qed.

Lemma upsertBaseState_same_tasks (input : FlexTasksRepository.BaseState) :
  preserves same_tasks (FlexTasksRepository.upsertBaseState E input).
Proof.
  unfold FlexTasksRepository.upsertBaseState.
  repeat (frame_step; auto with frames).
Qed.

Lemma flex_setGreetingSent_same_tasks (sid : string) (a : Z) :
  preserves same_tasks (FlexTasksRepository.setGreetingSent E sid a).
Proof.
  unfold FlexTasksRepository.setGreetingSent. repeat (frame_step; auto with frames).
Qed.

Lemma flex_markPingSent_same_tasks (sid : string) (a : Z) :
  preserves same_tasks (FlexTasksRepository.markPingSent E sid a).
Proof.
  unfold FlexTasksRepository.markPingSent. repeat (frame_step; auto with frames).
Qed.

Lemma flex_markInactiveSent_same_tasks (sid : string) (a : Z) :
  preserves same_tasks (FlexTasksRepository.markInactiveSent E sid a).
Proof.
  unfold FlexTasksRepository.markInactiveSent. repeat (frame_step; auto with frames).
Qed.

Lemma flex_markCustomerActivity_same_tasks (sid : string) (a : Z) :
  preserves same_tasks (FlexTasksRepository.markCustomerActivity E sid a).
Proof.
  unfold FlexTasksRepository.markCustomerActivity. repeat (frame_step; auto with frames).
Qed.

Local Hint Resolve findByConversationSid_same_tasks upsertBaseState_same_tasks
  flex_setGreetingSent_same_tasks flex_markPingSent_same_tasks
  flex_markInactiveSent_same_tasks flex_markCustomerActivity_same_tasks : frames.

Lemma modify_svc_same_tasks (f : Service -> Service) :
  preserves same_tasks (modify (set_svc f)).
Proof. frame_prim. Qed.

Lemma modify_log_same_tasks (o : Outbound) : preserves same_tasks (modify (log_sent o)).
Proof. frame_prim. Qed.

Local Hint Resolve modify_svc_same_tasks modify_log_same_tasks : frames.

Lemma getTwilioClient_same_tasks : preserves same_tasks (getTwilioClient E).
Proof. unfold getTwilioClient. repeat (frame_step; auto with frames). Qed.

Lemma resolveWorkspaceSid_same_tasks : preserves same_tasks (resolveWorkspaceSid E).
Proof.
  unfold resolveWorkspaceSid, set_workspaceSid. repeat (frame_step; auto with frames).
Qed.

Lemma resolveWorkerParticipantIdentity_same_tasks (conv : string) (ws : option string)
    (h : Hints) :
  preserves same_tasks (resolveWorkerParticipantIdentity E conv ws h).
Proof.
  unfold resolveWorkerParticipantIdentity. repeat (frame_step; auto with frames).
Qed.

Lemma resolveWorkerDisplayName_same_tasks (ws : string) (sid : option string)
    (fb : string) :
  preserves same_tasks (resolveWorkerDisplayName E ws sid fb).
Proof.
  unfold resolveWorkerDisplayName, workerNameCache_set.
  repeat (frame_step; auto with frames).
Qed.

Local Hint Resolve getTwilioClient_same_tasks resolveWorkspaceSid_same_tasks
  resolveWorkerParticipantIdentity_same_tasks resolveWorkerDisplayName_same_tasks : frames.

Lemma sendConversationMessage_same_tasks (conv body : string) (author : option string) :
  preserves same_tasks (sendConversationMessage E conv body author).
Proof. unfold sendConversationMessage. repeat (frame_step; auto with frames). Qed.

Lemma closeConversation_same_tasks (conv : string) :
  preserves same_tasks (closeConversation E conv).
Proof. unfold closeConversation. repeat (frame_step; auto with frames). Qed.

Lemma completeTaskRouterTask_same_tasks (sid : string) :
  preserves same_tasks (completeTaskRouterTask E sid).
Proof. unfold completeTaskRouterTask. repeat (frame_step; auto with frames). Qed.

Lemma scheduleFlexInactivityTimers_same_tasks (sid : string) (g : Z) :
  preserves same_tasks (scheduleFlexInactivityTimers E sid g).
Proof. unfold scheduleFlexInactivityTimers. repeat (frame_step; auto with frames). Qed.

Local Hint Resolve sendConversationMessage_same_tasks closeConversation_same_tasks
  completeTaskRouterTask_same_tasks scheduleFlexInactivityTimers_same_tasks : frames.

Lemma processFlexTask_same_tasks (ws : string) (task : ProviderTask) :
  preserves same_tasks (processFlexTask E ws task).
Proof.
  unfold processFlexTask, warned_add, warned_delete.
  repeat (frame_step; auto with frames).
Qed.

Local Hint Resolve processFlexTask_same_tasks : frames.

Lemma autoProcessFlexAssignedTasks_same_tasks :
  preserves same_tasks (autoProcessFlexAssignedTasks E).
Proof. unfold autoProcessFlexAssignedTasks. repeat (frame_step; auto with frames). Qed.

Lemma markFlexCustomerActivityByConversationSid_same_tasks (conv : string)
    (author : option string) :
  preserves same_tasks (markFlexCustomerActivityByConversationSid E conv author).
Proof.
  unfold markFlexCustomerActivityByConversationSid.
  repeat (frame_step; auto with frames).
Qed.

Lemma sendFlexPingIfInactive_same_tasks (sid : string) :
  preserves same_tasks (sendFlexPingIfInactive E sid).
Proof. unfold sendFlexPingIfInactive. repeat (frame_step; auto with frames). Qed.

Lemma sendFlexInactiveAndClose_same_tasks (sid : string) :
  preserves same_tasks (sendFlexInactiveAndClose E sid).
Proof. unfold sendFlexInactiveAndClose. repeat (frame_step; auto with frames). Qed.

End SameTasks.

Global Instance quiet_refl : Reflexive quiet.
Proof. by intros w. Qed.

Global Instance quiet_trans : Transitive quiet.
Proof. intros a b c (H1 & H2 & H3) (H4 & H5 & H6). repeat split; congruence. Qed.

Section Quiet.
Import TasksService.
Context (E : Env).

Lemma getTwilioClient_quiet : preserves quiet (getTwilioClient E).
Proof.
  unfold getTwilioClient. repeat (frame_step; try frame_prim).
Qed.

Lemma resolveWorkspaceSid_quiet : preserves quiet (resolveWorkspaceSid E).
Proof.
  unfold resolveWorkspaceSid, set_workspaceSid. repeat (frame_step; try frame_prim).
Qed.

End Quiet.

(** * Greeting epochs and assignment *)

Section InternalClaims.
Import TaskInactivityScheduler TasksService.
Context (E : Env).

Lemma findByTaskSid_marks (sid : string) (r : FlexRow.t) (w : World) :
  flex_tasks (db w) !! sid = Some r ->
  exists st w',
    FlexTasksRepository.findByTaskSid E sid w = (Returned (Some st), w') /\
    db w' = db w /\ sched w' = sched w /\ sent w' = sent w /\ svc w' = svc w /\
    (io w <= io w')%nat /\
    FlexTaskState.task_sid st = FlexRow.task_sid r /\
    FlexTaskState.conversation_sid st = FlexRow.conversation_sid r /\
    FlexTaskState.customer_name st = FlexRow.customer_name r /\
    FlexTaskState.customer_address st = FlexRow.customer_address r /\
    FlexTaskState.customer_from st = FlexRow.customer_from r /\
    FlexTaskState.worker_sid st = FlexRow.worker_sid r /\
    FlexTaskState.worker_name st = FlexRow.worker_name r /\
    FlexTaskState.greeting_sent_at st = FlexRow.greeting_sent_at r /\
    FlexTaskState.ping_sent_at st = FlexRow.ping_sent_at r /\
    FlexTaskState.inactive_sent_at st = FlexRow.inactive_sent_at r /\
    FlexTaskState.last_customer_activity_at st = FlexRow.last_customer_activity_at r.
Proof.
  intros Hr.
  unfold FlexTasksRepository.findByTaskSid, bind, gets; simpl. rewrite Hr.
  unfold FlexTasksRepository.mapRow, FlexTasksRepository.or_new_Date, bind, new_Date,
    interact, ret, bind.
  destruct (FlexRow.created_at r), (FlexRow.updated_at r); simpl;
    eexists _, _; (split; [reflexivity|]); simpl; repeat split; lia.
Qed.

(** C5. [setGreetingSent] writes [greeting_sent_at] and, in the same
    statement, resets [ping_sent_at] and [inactive_sent_at] to null: for an
    internal task that exists the row read back has the new greeting mark and
    no ping or inactive mark (nothing is written when no row has the uuid of
    the id, or when the driver rejects the id and the call throws); for a
    flex task the row of the given sid has them after the statement, whether
    or not it existed before, and so has the state read back from it. *)
Theorem setGreetingSent_resets_epoch_marks (k : string) (g : Z) (w : World) :
  match Uuid_fromString E k with
  | Returned u =>
      match row u w with
      | Some t =>
          exists t',
            TasksRepository.setGreetingSent E k g w =
              (Returned (Some t'),
               written u (TasksRepository.greeting_columns g (Date_now E (io w))) w) /\
            row u (world_of (TasksRepository.setGreetingSent E k g w)) = Some t' /\
            greeting_sent_at t' = Some g /\
            ping_sent_at t' = None /\
            inactive_sent_at t' = None /\
            db_log (db (world_of (TasksRepository.setGreetingSent E k g w))) =
              (db_log (db w) ++ [WriteTasks u])%list
      | None => TasksRepository.setGreetingSent E k g w = (Returned None, w)
      end
  | Thrown e => TasksRepository.setGreetingSent E k g w = (Thrown e, w)
  end /\
  (let w' := world_of (FlexTasksRepository.setGreetingSent E k g w) in
   value_of (FlexTasksRepository.setGreetingSent E k g w) = Returned tt /\
   db_log (db w') = (db_log (db w) ++ [WriteFlexTasks k])%list /\
   (exists r,
      flex_tasks (db w') !! k = Some r /\
      FlexRow.greeting_sent_at r = Some g /\
      FlexRow.ping_sent_at r = None /\
      FlexRow.inactive_sent_at r = None) /\
   (exists st,
      value_of (FlexTasksRepository.findByTaskSid E k w') = Returned (Some st) /\
      FlexTaskState.greeting_sent_at st = Some g /\
      FlexTaskState.ping_sent_at st = None /\
      FlexTaskState.inactive_sent_at st = None)).
Proof.
  split.
  - destruct (Uuid_fromString E k) as [u|e] eqn:Hk;
      [|by apply setGreetingSent_invalid].
    rewrite (setGreetingSent_eq E k u g w Hk).
    destruct (row u w) as [t|] eqn:Ht; [|done].
    eexists. split; [reflexivity|]. simpl. split.
    + by apply row_written_hit.
    + by destruct w.
  - set (r := FlexTasksRepository.greeting_columns g (Date_now E (io w))
                (default (FlexRow.blank k) (flex_tasks (db w) !! k))).
    assert (Hr : flex_tasks (db (world_of (FlexTasksRepository.setGreetingSent E k g w)))
                   !! k = Some r).
    { unfold FlexTasksRepository.setGreetingSent, bind, new_Date, interact, ret,
        FlexTasksRepository.execute_upsert, modify, bind; simpl.
      apply lookup_insert_eq. }
    split; [done|]. split; [done|]. split.
    + exists r. split; [exact Hr|done].
    + destruct (findByTaskSid_marks k r _ Hr) as (st & w' & Heq & Hst).
      exists st. rewrite Heq. simpl. destruct Hst as (_&_&_&_&_&_&_&_&_&_&_&_&->&->&->&_). done.
Qed.

(** C9. For a task that exists, [assign] returns the row it wrote:
    [assigned_at] keeps its value when it was already set and becomes the
    current clock reading otherwise, while operator, status and [updated_at]
    are rewritten; [startOperatorHandoff], which assigns first, leaves the
    same [assigned_at] in the store whether or not its greeting is sent.
    The task is the row of the uuid [u] that the driver reads from the id. *)
Theorem assign_sets_assigned_at_once (k u operatorId operatorName : string)
    (sendGreeting : option bool) (t : Task) (w : World) :
  Uuid_fromString E k = Returned u ->
  row u w = Some t ->
  let now := Date_now E (io w) in
  let first := match assigned_at t with Some a => a | None => now end in
  (exists t' w',
     assign E k operatorId operatorName w = (Returned t', w') /\
     row u w' = Some t' /\
     assigned_at t' = Some first /\
     operator_id t' = Some operatorId /\
     operator_name t' = Some operatorName /\
     status t' = assigned /\
     updated_at t' = now) /\
  (exists t'',
     row u (world_of (startOperatorHandoff E k operatorId operatorName sendGreeting w))
       = Some t'' /\
     assigned_at t'' = Some first /\
     operator_id t'' = Some operatorId /\
     operator_name t'' = Some operatorName /\
     status t'' = assigned).
Proof.
  intros Hk Ht now first.
  set (f := TasksRepository.assign_columns operatorId operatorName
              (default now (assigned_at t)) now).
  assert (Hw1 : row u (written u f w) = Some (f t)) by by apply row_written_hit.
  assert (Hfirst : default now (assigned_at t) = first).
  { unfold first. by destruct (assigned_at t). }
  split.
  - rewrite (assign_eq E k u _ _ w Hk), Ht. simpl. eexists _, _. split; [reflexivity|].
    fold now f. split; [done|]. simpl. by rewrite Hfirst.
  - unfold startOperatorHandoff, bind at 1. rewrite (assign_eq E k u _ _ w Hk), Ht.
    cbv beta iota zeta. fold now f.
    set (w1 := written u f w) in *. clearbody w1.
    set (t1 := f t) in *.
    assert (Ht1 : assigned_at t1 = Some first /\ operator_id t1 = Some operatorId /\
                  operator_name t1 = Some operatorName /\ status t1 = assigned).
    { unfold t1, f. simpl. by rewrite Hfirst. }
    clearbody t1.
    set (send := if default true sendGreeting then _ else _).
    assert (Hsend : (exists w2, send w1 = (Returned tt, w2) /\ db w2 = db w1) \/
                    (exists e w2, send w1 = (Thrown e, w2) /\ db w2 = db w1)).
    { unfold send. destruct (default true sendGreeting); [|left; by eexists].
      unfold bind.
      pose proof (sendSMS_frame E (customer_contact t1)
        (operatorHandoffMessage (customer_name t1) operatorName) w1) as Hfr.
      destruct (TwilioConfig.sendSMS E _ _ w1) as [[ok|e] w2] eqn:Hs;
        unfold world_of in Hfr; cbn [snd] in Hfr; destruct Hfr as (Hdb & _).
      - destruct ok; cbn [negb]; [left|right].
        + by exists w2.
        + by eexists _, w2.
      - right. by eexists _, w2. }
    clearbody send.
    unfold bind at 1.
    destruct Hsend as [(w2 & -> & Hdb)|(e & w2 & -> & Hdb)].
    + cbv beta iota. unfold bind at 1. unfold new_Date at 1, bind at 1, interact, ret.
      cbv beta iota. unfold bind at 1.
      rewrite (setGreetingSent_eq E k u _ _ Hk).
      assert (Hw2 : row u (next_io w2) = Some t1).
      { rewrite <- Hw1. apply row_db. by rewrite <- Hdb. }
      rewrite Hw2. cbv beta iota zeta.
      set (gc := TasksRepository.greeting_columns _ _).
      set (w3 := written u gc (next_io w2)).
      assert (Hw3 : row u w3 = Some (gc t1)) by by apply row_written_hit.
      clearbody w3.
      unfold bind.
      pose proof (scheduleInternalInactivityTimers_frame E (gc t1) w3) as (Hv & Hd & _).
      cbv zeta in Hv, Hd.
      destruct (scheduleInternalInactivityTimers E (gc t1) w3) as [[[]|e] w4];
        unfold world_of, value_of in *; cbn [fst snd] in *; [|done].
      exists (gc t1). split.
      * erewrite row_db by exact Hd. done.
      * exact Ht1.
    + unfold world_of; cbn [snd]. exists t1. split.
      * rewrite <- Hw1. by apply row_db.
      * exact Ht1.
Qed.

(** C10 (amended). [assign] succeeds on every existing task whatever its
    status: the row becomes [assigned] with the new operator while
    [closed_at], [close_reason] and the three epoch marks keep their values.
    It throws "Task not found", leaving the world as it was, exactly when the
    driver reads the id as a uuid and no row has that uuid; when the driver
    rejects the id, [assign] throws the driver's error instead, and the world
    is as it was too. *)
Theorem assign_ignores_status (k operatorId operatorName : string) (w : World) :
  match Uuid_fromString E k with
  | Returned u =>
      match row u w with
      | Some t =>
          exists t' w',
            assign E k operatorId operatorName w = (Returned t', w') /\
            row u w' = Some t' /\
            status t' = assigned /\
            operator_id t' = Some operatorId /\
            operator_name t' = Some operatorName /\
            closed_at t' = closed_at t /\
            close_reason t' = close_reason t /\
            greeting_sent_at t' = greeting_sent_at t /\
            ping_sent_at t' = ping_sent_at t /\
            inactive_sent_at t' = inactive_sent_at t /\
            last_customer_activity_at t' = last_customer_activity_at t
      | None => assign E k operatorId operatorName w = (Thrown "Task not found", w)
      end /\
      (value_of (assign E k operatorId operatorName w) = Thrown "Task not found" <->
       Forall (fun t => id t <> u) (tasks (db w)))
  | Thrown e => assign E k operatorId operatorName w = (Thrown e, w)
  end.
Proof.
  destruct (Uuid_fromString E k) as [u|e] eqn:Hk; [|by apply assign_invalid].
  rewrite (assign_eq E k u _ _ w Hk). split.
  - destruct (row u w) as [t|] eqn:Ht; [|done].
    eexists _, _. split; [reflexivity|]. split; [|done].
    by apply row_written_hit.
  - rewrite <- find_none_iff. fold (row u w). by destruct (row u w).
Qed.

End InternalClaims.

(** The instance of C9 at Ana's task, first assigned at 500 and assigned
    again, to Caio, at 7000. *)
Lemma assign_sets_assigned_at_once_witness :
  let w := with_tasks [ana_assigned] 7 in
  (exists t' w',
     TasksService.assign demo_env "t1" "O2" "Caio" w = (Returned t', w') /\
     row "t1" w' = Some t' /\
     assigned_at t' = Some 500 /\
     operator_id t' = Some "O2" /\
     operator_name t' = Some "Caio" /\
     status t' = assigned /\
     updated_at t' = 7000) /\
  (exists t'',
     row "t1" (world_of (TasksService.startOperatorHandoff demo_env "t1" "O2" "Caio" None w)) = Some t'' /\
     assigned_at t'' = Some 500 /\
     operator_id t'' = Some "O2" /\
     operator_name t'' = Some "Caio" /\
     status t'' = assigned).
Proof.
  exact (assign_sets_assigned_at_once demo_env "t1" "t1" "O2" "Caio" None ana_assigned
           (with_tasks [ana_assigned] 7) eq_refl eq_refl).
Defined.

(** The claim's "iff" fails on an id the driver rejects: no task has the id
    "xyz", and [assign] does not throw "Task not found" but the driver's
    error. *)
Lemma assign_malformed_id_throws_driver_error :
  let r := TasksService.assign demo_env_strict "xyz" "O1" "Bia" empty_world in
  Forall (fun t => id t <> "xyz") (tasks (db empty_world)) /\
  value_of r <> Thrown "Task not found" /\
  r = (Thrown invalid_uuid_message, empty_world).
Proof.
  split; [constructor|]. split; [|reflexivity]. vm_compute. discriminate.
Qed.

(** * The ping callback *)

Section PingClaims.
Import TaskInactivityScheduler TasksService.

Lemma later_than_true (a : option Z) (g : Z) :
  later_than a g = true <-> exists x, a = Some x /\ g < x.
Proof.
  unfold later_than. destruct a as [x|].
  - rewrite Z.ltb_lt. split; [eauto|]. by intros (? & [= ->] & ?).
  - split; [done|]. by intros (? & ? & ?).
Qed.

Lemma ping_blocked_silent (E : Env) (k u : string) (t : Task) (w : World) :
  Uuid_fromString E k = Returned u ->
  row u w = Some t -> ping_blocked t ->
  sendInternalPingIfInactive E k w = (Returned tt, w).
Proof.
  intros Hk Ht Hb. unfold sendInternalPingIfInactive, bind.
  rewrite (findById_eq E k u w Hk), Ht.
  destruct Hb as [Hs|[Hg|[Hp|(g & a & Hg & Ha & Hlt)]]].
  - by rewrite bool_decide_eq_false_2.
  - rewrite Hg. by destruct (bool_decide _).
  - destruct (bool_decide (status t = assigned)); [|done]. simpl.
    destruct (greeting_sent_at t); [|done]. by rewrite bool_decide_eq_true_2.
  - destruct (bool_decide (status t = assigned)); [|done]. simpl.
    rewrite Hg. destruct (bool_decide (is_Some (ping_sent_at t))); [done|].
    assert (later_than (last_customer_activity_at t) g = true) as ->; [|done].
    apply later_than_true. eauto.
Qed.

Lemma service_markCustomerActivity_eq (E : Env) (k u : string) (w : World) :
  Uuid_fromString E k = Returned u ->
  markCustomerActivity E k w =
  match row u w with
  | None => (Thrown "Task not found", next_io w)
  | Some t =>
      let f := TasksRepository.activity_columns (Date_now E (io w)) (Date_now E (S (io w))) in
      (Returned (f t), set_sched (cancelled k) (written u f (next_io w)))
  end.
Proof.
  intros Hk.
  unfold markCustomerActivity, bind at 1, new_Date at 1, bind at 1, interact, ret.
  cbv beta iota. unfold bind at 1. rewrite (markCustomerActivity_eq E k u _ _ Hk).
  change (row u (next_io w)) with (row u w).
  destruct (row u w) as [t|]; [|done].
  cbv beta iota zeta. unfold bind. by rewrite cancel_eq.
Qed.

(** C6 (amended). In every state in which the task is not assigned, or not
    greeted, or already pinged, or has customer activity strictly later than
    its greeting, the ping callback returns leaving the whole world as it
    was: no message is attempted and nothing is written.  In particular,
    after [markCustomerActivity] at a clock reading strictly later than the
    greeting mark (or on a task that was never greeted) the ping callback
    attempts no message and writes nothing.  The task is the row of the uuid
    [u] that the driver reads from the id. *)
Theorem ping_silent_when_blocked (E : Env) (k u : string) (t : Task) (w : World) :
  Uuid_fromString E k = Returned u ->
  row u w = Some t ->
  (ping_blocked t -> sendInternalPingIfInactive E k w = (Returned tt, w)) /\
  ((forall g, greeting_sent_at t = Some g -> g < Date_now E (io w)) ->
   let w1 := world_of (markCustomerActivity E k w) in
   timers (sched w1) !! k = None /\
   sendInternalPingIfInactive E k w1 = (Returned tt, w1)).
Proof.
  intros Hk Ht. split; [by apply (ping_blocked_silent E k u)|].
  intros Hg w1. subst w1. rewrite (service_markCustomerActivity_eq E k u w Hk), Ht.
  cbv zeta. unfold world_of; cbn [snd].
  set (f := TasksRepository.activity_columns _ _). split.
  - unfold cancelled. simpl. destruct (timers (sched w) !! k) eqn:Hold; simpl; [|done].
    apply lookup_delete_eq.
  - apply ping_blocked_silent with (u := u) (t := f t); [done| |].
    + erewrite row_db with (w' := written u f (next_io w)) by done.
      apply row_written_hit; [done|]. exact Ht.
    + unfold ping_blocked. destruct (greeting_sent_at t) as [g|] eqn:Hgt.
      * right. right. right. exists g, (Date_now E (io w)). simpl. auto.
      * right. left. simpl. done.
Qed.

(** The instance of C6 at Ana's greeted task: the activity is recorded at
    2000, after the greeting of 1000. *)
Lemma ping_silent_when_blocked_witness :
  let w := with_tasks [ana_greeted] 2 in
  let w1 := world_of (markCustomerActivity demo_env "t1" w) in
  timers (sched w1) !! "t1" = None /\
  sendInternalPingIfInactive demo_env "t1" w1 = (Returned tt, w1).
Proof.
  intros w w1.
  apply (ping_silent_when_blocked demo_env "t1" "t1" ana_greeted w eq_refl eq_refl).
  intros g [= <-]. vm_compute. reflexivity.
Defined.

(** C6 as stated fails when the activity and the greeting carry the same
    millisecond: the activity is then not strictly later than the greeting
    and the ping callback sends the ping. *)
Lemma ping_sent_after_same_millisecond_activity :
  let w := with_tasks [ana_greeted] 1 in
  let w1 := world_of (markCustomerActivity demo_env "t1" w) in
  (exists t, row "t1" w1 = Some t /\
             greeting_sent_at t = Some 1000 /\ last_customer_activity_at t = Some 1000) /\
  sent w1 = [] /\
  sent (world_of (sendInternalPingIfInactive demo_env "t1" w1)) =
    [mkOutbound SMS "+5501" None (stillInChatMessage "Ana") true] /\
  sent (world_of (sendInternalPingIfInactive demo_env "t1" w1)) <> sent w1.
Proof.
  vm_compute. split; [eexists; split; [reflexivity|split; reflexivity]|].
  split; [reflexivity|]. split; [reflexivity|discriminate].
Qed.

End PingClaims.

(** * Rows and their ids *)

Section Rows.
Import TasksRepository.

Lemma row_tasks (k : string) (w w' : World) :
  tasks (db w') = tasks (db w) -> row k w' = row k w.
Proof. unfold row. by intros ->. Qed.

Lemma find_unique (k : string) (rows : list Task) (u : Task) :
  NoDup (map id rows) -> In u rows -> id u = k -> List.find (has_id k) rows = Some u.
Proof.
  induction rows as [|a rows IH]; simpl; [done|].
  intros Hnd Hin Hid. apply NoDup_cons in Hnd as [Hfresh Hnd].
  destruct (has_id k a) eqn:Ha.
  - apply has_id_true in Ha. destruct Hin as [->|Hin]; [done|].
    exfalso. apply Hfresh. rewrite Ha, <- Hid. apply list_elem_of_In. by apply in_map.
  - destruct Hin as [->|Hin]; [|by apply IH].
    apply has_id_true in Hid. congruence.
Qed.

End Rows.

Lemma demo_clock_monotone : monotone_clock demo_env.
Proof. intros i j Hij. simpl. lia. Qed.
(** * Closing for inactivity *)

Section CloseClaims.
Import TaskInactivityScheduler TasksService.





End CloseClaims.

(** * The flex customer-activity sink *)

Section FlexActivity.
Import TaskInactivityScheduler TasksService.
Context (E : Env).

Lemma nonempty_true (s : string) : nonempty s = true <-> s <> "".
Proof.
  unfold nonempty. rewrite negb_true_iff, bool_decide_eq_false. done.
Qed.

Lemma truthy_true (o : option string) : truthy o = true <-> exists s, o = Some s /\ s <> "".
Proof.
  destruct o as [s|]; simpl.
  - rewrite nonempty_true. split; [eauto|]. by intros (? & [= <-] & ?).
  - split; [done|]. by intros (? & ? & ?).
Qed.

Lemma is_string_true (o : option string) (s : string) : is_string o s = true <-> o = Some s.
Proof. apply bool_decide_eq_true. Qed.

Lemma truthy_fmap_trim (o : option string) :
  truthy (trim <$> o) = true <-> exists s, o = Some s /\ trim s <> "".
Proof.
  rewrite truthy_true. destruct o as [s|]; simpl.
  - split; intros (x & [= <-] & Hx); eauto.
  - split; intros (? & ? & ?); done.
Qed.

Lemma known_customer_true (r : FlexRow.t) :
  truthy (trim <$> FlexRow.customer_address r) || truthy (trim <$> FlexRow.customer_from r)
    = true <-> customer_known r.
Proof.
  rewrite orb_true_iff, !truthy_fmap_trim. done.
Qed.

Lemma ignored_author_false (r : FlexRow.t) (a : string) :
  a <> "" -> ignored_author E r a = false <-> counts_as_customer E r a.
Proof.
  intros Ha. unfold ignored_author, counts_as_customer.
  destruct (truthy _ || truthy _) eqn:Hk.
  - apply known_customer_true in Hk.
    rewrite andb_false_iff, !negb_false_iff, !is_string_true.
    unfold matches_customer. tauto.
  - assert (~ customer_known r) as Hnk.
    { rewrite <- known_customer_true. congruence. }
    rewrite !orb_false_iff, !andb_false_iff, bool_decide_eq_false.
    unfold not_operator. split.
    + intros ((H1 & H2) & H3). right. split; [done|]. split; [done|]. split.
      * intros Heq. destruct H2 as [H2|H2].
        -- rewrite Heq in H2. simpl in H2. apply nonempty_true in Ha. congruence.
        -- apply is_string_true in Heq. congruence.
      * intros Heq. destruct H3 as [H3|H3].
        -- rewrite Heq in H3. simpl in H3. apply nonempty_true in Ha. congruence.
        -- apply is_string_true in Heq. congruence.
    + intros [[? _]|[_ (H1 & H2 & H3)]]; [done|].
      split; [split; [done|]|]; right; apply not_true_iff_false; by rewrite is_string_true.
Qed.

Lemma markFlex_found (conv s sid : string) (r : FlexRow.t) (w : World) :
  trim s <> "" ->
  flex_tasks_by_conversation (db w) !! conv = Some sid ->
  sid <> "" ->
  flex_tasks (db w) !! sid = Some r ->
  exists w1,
    db w1 = db w /\ sched w1 = sched w /\ (io w <= io w1)%nat /\
    markFlexCustomerActivityByConversationSid E conv (Some s) w =
    if ignored_author E r (trim s) then (Returned tt, w1)
    else (Returned tt,
          set_sched (cancelled (FlexRow.task_sid r))
            (upserted (FlexRow.task_sid r)
               (FlexTasksRepository.activity_columns (Date_now E (io w1))
                  (Date_now E (S (io w1))))
               (next_io w1))).
Proof.
  intros Hs Hconv Hsid Hr.
  destruct (findByTaskSid_marks E sid r w Hr)
    as (st & w1 & Hfind & Hdb & Hsched & _ & _ & Hio & Htsid & _ & _ & Haddr & Hfrom &
        Hwsid & Hwname & _).
  exists w1. split; [done|]. split; [done|]. split; [done|].
  unfold markFlexCustomerActivityByConversationSid.
  change (trim <$> Some s) with (Some (trim s)). cbn [truthy].
  apply nonempty_true in Hs as Hs'. rewrite Hs'. cbn [negb default].
  unfold bind at 1, FlexTasksRepository.findByConversationSid, bind at 1, gets.
  cbv beta iota. rewrite Hconv. apply nonempty_true in Hsid as ->.
  rewrite Hfind. cbv beta iota zeta.
  rewrite Haddr, Hfrom, Hwsid, Hwname. unfold Datatypes.id, ignored_author.
  cbv zeta.
  set (ign := if truthy _ || truthy _ then _ else _). destruct ign; [done|].
  unfold bind at 1. rewrite new_Date_eq. cbv beta iota.
  unfold bind at 1, FlexTasksRepository.markCustomerActivity, bind at 1.
  rewrite new_Date_eq. cbv beta iota.
  unfold FlexTasksRepository.execute_upsert, modify. cbv beta iota.
  rewrite cancel_eq, Htsid. done.
Qed.

(** C7 (amended). The sink always returns.  With an author that is empty
    after trimming, or with no flex task behind the conversation sid, it
    leaves the world as it was.  With an author that is not empty after
    trimming and a flex task found: when the customer is known (trimmed
    [customer_address] or [customer_from] non-empty) the activity is written
    iff the trimmed author equals one of the two trimmed addresses; when it
    is not known, iff the trimmed author differs from the automation author,
    the stored [worker_name] and the stored [worker_sid].  Writing means one
    statement on the row, which sets [last_customer_activity_at] to a clock
    reading of the call, and the cancellation of the task's timers: the
    scheduler entry and its two pending timeouts are removed; otherwise
    tables and scheduler are untouched.  So an author whose trimmed text is
    the stored [worker_name], and not a customer address, changes nothing. *)
Theorem flex_activity_sink_classifies (conv : string) (author : option string) (w : World) :
  let w' := world_of (markFlexCustomerActivityByConversationSid E conv author w) in
  value_of (markFlexCustomerActivityByConversationSid E conv author w) = Returned tt /\
  ((forall s, author = Some s -> trim s = "") -> w' = w) /\
  ((forall sid, flex_tasks_by_conversation (db w) !! conv = Some sid ->
                sid = "" \/ flex_tasks (db w) !! sid = None) -> w' = w) /\
  (forall (s sid : string) (r : FlexRow.t),
     author = Some s ->
     trim s <> "" ->
     flex_tasks_by_conversation (db w) !! conv = Some sid ->
     sid <> "" ->
     flex_tasks (db w) !! sid = Some r ->
     FlexRow.task_sid r = sid ->
     (counts_as_customer E r (trim s) ->
      exists (i : nat) (r' : FlexRow.t),
        (io w <= i)%nat /\
        flex_tasks (db w') !! sid = Some r' /\
        FlexRow.last_customer_activity_at r' = Some (Date_now E i) /\
        db_log (db w') = (db_log (db w) ++ [WriteFlexTasks sid])%list /\
        sched w' = cancelled sid (sched w) /\
        timers (sched w') !! sid = None /\
        (forall old, timers (sched w) !! sid = Some old ->
           pending (sched w') !! pingTimeout old = None /\
           pending (sched w') !! inactiveTimeout old = None)) /\
     (~ counts_as_customer E r (trim s) -> db w' = db w /\ sched w' = sched w) /\
     (FlexRow.worker_name r = Some (trim s) -> ~ matches_customer r (trim s) ->
      db w' = db w /\ sched w' = sched w)).
Proof.
  intros w'. subst w'.
  assert (Hnoauthor : (forall s, author = Some s -> trim s = "") ->
            markFlexCustomerActivityByConversationSid E conv author w = (Returned tt, w)).
  { intros Hempty. unfold markFlexCustomerActivityByConversationSid.
    destruct author as [s|]; [|done]. simpl. rewrite (Hempty s eq_refl). done. }
  assert (Hnotask : (forall sid, flex_tasks_by_conversation (db w) !! conv = Some sid ->
                       sid = "" \/ flex_tasks (db w) !! sid = None) ->
            markFlexCustomerActivityByConversationSid E conv author w = (Returned tt, w)).
  { intros Hnone. unfold markFlexCustomerActivityByConversationSid.
    destruct (truthy (trim <$> author)); [|done]. cbn [negb].
    unfold bind at 1, FlexTasksRepository.findByConversationSid, bind at 1, gets.
    cbv beta iota.
    destruct (flex_tasks_by_conversation (db w) !! conv) as [sid|] eqn:Hc; [|done].
    destruct (Hnone sid eq_refl) as [->|Hrow]; [done|].
    destruct (nonempty sid); [|done].
    unfold FlexTasksRepository.findByTaskSid, bind, gets. by rewrite Hrow. }
  assert (Hfound : forall s sid r,
            author = Some s -> trim s <> "" ->
            flex_tasks_by_conversation (db w) !! conv = Some sid -> sid <> "" ->
            flex_tasks (db w) !! sid = Some r ->
            exists w1,
              db w1 = db w /\ sched w1 = sched w /\ (io w <= io w1)%nat /\
              markFlexCustomerActivityByConversationSid E conv author w =
              if ignored_author E r (trim s) then (Returned tt, w1)
              else (Returned tt,
                    set_sched (cancelled (FlexRow.task_sid r))
                      (upserted (FlexRow.task_sid r)
                         (FlexTasksRepository.activity_columns (Date_now E (io w1))
                            (Date_now E (S (io w1))))
                         (next_io w1)))).
  { intros s sid r -> Hs Hc Hsid Hr. by apply (markFlex_found conv s sid). }
  split; [|split; [|split]].
  - destruct author as [s|]; [|done].
    destruct (decide (trim s = "")) as [He|Hne].
    { rewrite Hnoauthor; [done|]. by intros ? [= <-]. }
    destruct (flex_tasks_by_conversation (db w) !! conv) as [sid|] eqn:Hc;
      [|rewrite Hnotask; [done|by intros ? [=]]].
    destruct (decide (sid = "")) as [->|Hsid];
      [rewrite Hnotask; [done|intros ? [= <-]; by left]|].
    destruct (flex_tasks (db w) !! sid) as [r|] eqn:Hr;
      [|rewrite Hnotask; [done|intros ? [= <-]; by right]].
    destruct (Hfound s sid r eq_refl Hne eq_refl Hsid Hr) as (w1 & _ & _ & _ & ->).
    by destruct (ignored_author E r (trim s)).
  - intros H. by rewrite Hnoauthor.
  - intros H. by rewrite Hnotask.
  - intros s sid r Ha Hs Hc Hsid Hr Hk.
    destruct (Hfound s sid r Ha Hs Hc Hsid Hr) as (w1 & Hdb & Hsc & Hio & ->).
    rewrite Hk.
    pose proof (ignored_author_false r (trim s) Hs) as Hiff.
    split; [|split].
    + intros Hcust. apply Hiff in Hcust as ->. unfold world_of; cbn [snd].
      exists (io w1), (FlexTasksRepository.activity_columns (Date_now E (io w1))
                         (Date_now E (S (io w1)))
                         (default (FlexRow.blank sid) (flex_tasks (db w1) !! sid))).
      split; [done|]. split; [|split; [done|split]].
      * simpl. apply lookup_insert_eq.
      * simpl. by rewrite Hdb.
      * simpl. rewrite Hsc. split; [done|]. apply cancelled_clears.
    + intros Hncust. destruct (ignored_author E r (trim s)); [done|].
      destruct Hncust. by apply Hiff.
    + intros Hwn Hnm. destruct (ignored_author E r (trim s)); [done|].
      destruct (proj1 Hiff eq_refl) as [[_ Hm]|[_ (_ & Hw & _)]]; done.
Qed.

End FlexActivity.

(** The instance of C7 at scenario 5: the operator Bia writes in the
    conversation of a task whose customer is known by [from]; nothing
    changes.  When the customer writes from that address the activity is
    recorded and the timers are removed. *)
Lemma flex_activity_sink_classifies_witness :
  (let w' := world_of (TasksService.markFlexCustomerActivityByConversationSid demo_env
                         "CH1" (Some "Bia") bia_flex_world) in
   db w' = db bia_flex_world /\ sched w' = sched bia_flex_world) /\
  (let w' := world_of (TasksService.markFlexCustomerActivityByConversationSid demo_env
                         "CH1" (Some " +5501 ") bia_flex_world) in
   exists (i : nat) (r' : FlexRow.t),
     (io bia_flex_world <= i)%nat /\
     flex_tasks (db w') !! "WT1" = Some r' /\
     FlexRow.last_customer_activity_at r' = Some (Date_now demo_env i) /\
     db_log (db w') = (db_log (db bia_flex_world) ++ [WriteFlexTasks "WT1"])%list /\
     sched w' = cancelled "WT1" (sched bia_flex_world) /\
     timers (sched w') !! "WT1" = None /\
     (forall old, timers (sched bia_flex_world) !! "WT1" = Some old ->
        pending (sched w') !! pingTimeout old = None /\
        pending (sched w') !! inactiveTimeout old = None)).
Proof.
  split.
  - destruct (flex_activity_sink_classifies demo_env "CH1" (Some "Bia") bia_flex_world)
      as (_ & _ & _ & H).
    destruct (H "Bia" "WT1" bia_flex_row eq_refl) as (_ & _ & Hop);
      [by vm_compute|reflexivity|done|reflexivity|reflexivity|].
    apply Hop; [reflexivity|]. intros [Hm|Hm]; vm_compute in Hm; discriminate.
  - destruct (flex_activity_sink_classifies demo_env "CH1" (Some " +5501 ") bia_flex_world)
      as (_ & _ & _ & H).
    destruct (H " +5501 " "WT1" bia_flex_row eq_refl) as (Hcust & _);
      [by vm_compute|reflexivity|done|reflexivity|reflexivity|].
    apply Hcust. left. split.
    + right. exists "+5501". split; [reflexivity|by vm_compute].
    + right. reflexivity.
Defined.

(** C7 as stated fails: the author is trimmed before it is compared.  With
    no customer address known, the author " Bia " is a non-empty string that
    differs from the automation author, from the stored worker name "Bia" and
    from the stored worker sid, and yet nothing is written and the timers
    stay; the same holds of the author "  ". *)
Lemma flex_activity_padded_author_ignored :
  let w := bia_anonymous_world in
  flex_tasks_by_conversation (db w) !! "CH1" = Some "WT1" /\
  flex_tasks (db w) !! "WT1" = Some bia_anonymous_row /\
  ~ customer_known bia_anonymous_row /\
  (forall author, author = " Bia " \/ author = "  " ->
     author <> "" /\
     not_operator demo_env bia_anonymous_row author /\
     let w' := world_of (TasksService.markFlexCustomerActivityByConversationSid demo_env
                           "CH1" (Some author) w) in
     db w' = db w /\ sched w' = sched w /\
     exists r, flex_tasks (db w') !! "WT1" = Some r /\
               FlexRow.last_customer_activity_at r = None).
Proof.
  split; [reflexivity|]. split; [reflexivity|]. split.
  - intros [(s & Hs & Hne)|(s & Hs & Hne)]; vm_compute in Hs; discriminate.
  - intros author [->| ->].
    + split; [discriminate|]. split; [by repeat split|].
      split; [reflexivity|]. split; [reflexivity|].
      exists bia_anonymous_row. split; reflexivity.
    + split; [discriminate|]. split; [by repeat split|].
      split; [reflexivity|]. split; [reflexivity|].
      exists bia_anonymous_row. split; reflexivity.
Qed.

(** * The source mode of a tick *)

Section SourceMode.
Import TasksService.
Context (E : Env).

Lemma for_of_value {A : Type} (l : list A) (body : A -> M unit) (w : World) :
  value_of (for_of l body w) = Returned tt \/
  exists e, value_of (for_of l body w) = Thrown e.
Proof.
  revert w. induction l as [|x l IH]; intros w; simpl; [by left|].
  unfold bind. destruct (body x w) as [[[]|e] w1]; [apply IH|right; by exists e].
Qed.

Lemma autoProcessAssignedTasks_after_flex (w w' : World) :
  source E = "auto" ->
  autoProcessFlexAssignedTasks E w = (Returned true, w') ->
  autoProcessAssignedTasks E w = (Returned tt, w').
Proof.
  intros Hsrc Hflex. unfold autoProcessAssignedTasks. rewrite Hsrc.
  simpl. unfold bind. by rewrite Hflex.
Qed.

(** C1 (amended). When the provider client is configured and a workspace
    sid resolves, [autoProcessFlexAssignedTasks] does not report "no work" for
    an empty task list: it returns true after the listing, having written,
    scheduled and sent nothing, and in source mode "auto" the tick stops
    there, without running the internal pipeline.  Whatever the list, the
    result is not false (the method returns true or throws), and whenever it
    returns true an "auto" tick ends with the flex pipeline. *)
Theorem flex_reports_work_when_configured (ws : string) (w w1 w2 : World) :
  getTwilioClient E w = (Returned true, w1) ->
  resolveWorkspaceSid E w1 = (Returned (Some ws), w2) ->
  ws <> "" ->
  (tasks_list E (io w2) ws (number_or (TASKS_FLEX_POLL_LIMIT E) (of_Z 50)) = Some [] ->
   autoProcessFlexAssignedTasks E w = (Returned true, next_io w2) /\
   quiet w (next_io w2) /\
   (source E = "auto" -> autoProcessAssignedTasks E w = (Returned tt, next_io w2))) /\
  value_of (autoProcessFlexAssignedTasks E w) <> Returned false /\
  (source E = "auto" ->
   forall w', autoProcessFlexAssignedTasks E w = (Returned true, w') ->
              autoProcessAssignedTasks E w = (Returned tt, w')).
Proof.
  intros Hclient Hws Hne.
  assert (Hshape : autoProcessFlexAssignedTasks E w =
            match tasks_list E (io w2) ws (number_or (TASKS_FLEX_POLL_LIMIT E) (of_Z 50)) with
            | None => (Thrown "tasks.list", next_io w2)
            | Some tasks =>
                bind (for_of tasks (processFlexTask E ws)) (fun _ => ret true) (next_io w2)
            end).
  { unfold autoProcessFlexAssignedTasks, bind at 1. rewrite Hclient. cbn [negb].
    unfold bind at 1. rewrite Hws. cbn [truthy default].
    apply nonempty_true in Hne as ->. cbn [negb].
    unfold bind at 1, interact. by destruct (tasks_list _ _ _ _). }
  split; [|split].
  - intros Hempty. rewrite Hshape, Hempty.
    assert (Heq : bind (for_of [] (processFlexTask E ws)) (fun _ => ret true) (next_io w2)
                  = (Returned true, next_io w2)) by done.
    split; [done|]. split.
    + pose proof (getTwilioClient_quiet E w) as H1.
      pose proof (resolveWorkspaceSid_quiet E w1) as H2.
      rewrite Hclient in H1. rewrite Hws in H2.
      etransitivity; [exact H1|]. etransitivity; [exact H2|]. done.
    + intros Hsrc. apply autoProcessAssignedTasks_after_flex; [done|].
      by rewrite Hshape, Hempty.
  - rewrite Hshape. destruct (tasks_list _ _ _ _) as [tasks|]; [|done].
    unfold bind.
    destruct (for_of_value tasks (processFlexTask E ws) (next_io w2)) as [Hv|[e Hv]];
      destruct (for_of tasks (processFlexTask E ws) (next_io w2)) as [[[]|e'] w3];
      simpl in *; congruence.
  - intros Hsrc w'. by apply autoProcessAssignedTasks_after_flex.
Qed.

End SourceMode.

(** The instance of C1 under [demo_env] (credentials and workspace
    configured, the provider lists no task, mode "auto") with Ana's task
    assigned and not greeted. *)
Lemma flex_reports_work_when_configured_witness :
  let w := with_tasks [ana_assigned] 0 in
  let w2 :=
    set_svc (fun s => mkService true (Some "WS1") false false ∅ ∅) w in
  TasksService.autoProcessFlexAssignedTasks demo_env w = (Returned true, next_io w2) /\
  quiet w (next_io w2) /\
  TasksService.autoProcessAssignedTasks demo_env w = (Returned tt, next_io w2).
Proof.
  intros w w2.
  destruct (flex_reports_work_when_configured demo_env "WS1" w
              (set_svc (fun s => mkService true None false false ∅ ∅) w) w2
              eq_refl eq_refl) as (H & _ & _); [done|].
  destruct (H eq_refl) as (H1 & H2 & H3).
  split; [exact H1|]. split; [exact H2|]. apply H3. reflexivity.
Defined.

(** C1 as stated fails: with the client configured, the workspace resolved
    and an empty list from the provider, the flex pipeline reports true, and
    the "auto" tick ends without the internal pipeline, which would have
    greeted Ana. *)
Lemma empty_flex_list_stops_auto_tick :
  let w := with_tasks [ana_assigned] 0 in
  TasksService.source demo_env = "auto" /\
  tasks_list demo_env 0 "WS1" (of_Z 50) = Some [] /\
  value_of (TasksService.autoProcessFlexAssignedTasks demo_env w) = Returned true /\
  value_of (TasksService.autoProcessFlexAssignedTasks demo_env w) <> Returned false /\
  sent (world_of (TasksService.autoProcessAssignedTasks demo_env w)) = [] /\
  tasks (db (world_of (TasksService.autoProcessAssignedTasks demo_env w))) = [ana_assigned] /\
  sent (world_of (TasksService.autoProcessInternalAssignedTasks demo_env w)) =
    [mkOutbound SMS "+5501" None (operatorHandoffMessage "Ana" "Bia") true] /\
  world_of (TasksService.autoProcessAssignedTasks demo_env w) <>
  world_of (TasksService.autoProcessInternalAssignedTasks demo_env
              (world_of (TasksService.autoProcessFlexAssignedTasks demo_env w))).
Proof.
  vm_compute. repeat split; try reflexivity; discriminate.
Qed.

(** * The worker participant, rule by rule *)

Section IdentityRules.
Import TasksService.
Context (E : Env).













End IdentityRules.



(** * More on the scheduler *)

Section SchedulerMore.
Import TaskInactivityScheduler.

(** X1. [cancel] removes the entry of the task and its two pending timeouts
    and nothing else: entries of other tasks stay, a task without entry
    leaves the world as it is, and cancelling again changes nothing. *)
Theorem cancel_removes_entry_only (taskId : string) (w : World) :
  let w1 := world_of (cancel taskId w) in
  value_of (cancel taskId w) = Returned tt /\
  value_of (has taskId w1) = Returned false /\
  cancel taskId w1 = (Returned tt, w1) /\
  match timers (sched w) !! taskId with
  | None => w1 = w
  | Some old =>
      pending (sched w1) =
        delete (inactiveTimeout old) (delete (pingTimeout old) (pending (sched w))) /\
      next_handle (sched w1) = next_handle (sched w) /\
      db w1 = db w /\ sent w1 = sent w /\ io w1 = io w
  end /\
  (forall k', k' <> taskId -> timers (sched w1) !! k' = timers (sched w) !! k').
Proof.
  intros w1. subst w1. rewrite cancel_eq. unfold world_of, value_of; cbn [fst snd].
  assert (Hgone : timers (cancelled taskId (sched w)) !! taskId = None).
  { unfold cancelled. destruct (timers (sched w) !! taskId) eqn:Hold; simpl;
      [apply lookup_delete_eq|exact Hold]. }
  split; [done|]. split.
  { unfold has, gets. simpl. rewrite Hgone. apply f_equal, bool_decide_eq_false_2.
    by intros [? ?]. }
  split.
  { rewrite cancel_eq. f_equal. destruct w as [d s v c r o n]. unfold set_sched. simpl.
    f_equal. simpl in Hgone. unfold cancelled at 1. by rewrite Hgone. }
  split.
  - unfold cancelled, set_sched. destruct w as [d s v c r o n]. simpl.
    destruct (timers s !! taskId) as [old|] eqn:Hold; simpl; [done|by destruct s].
  - intros k' Hne. unfold cancelled, set_sched. destruct w as [d s v c r o n]. simpl.
    destruct (timers s !! taskId); simpl; [|done].
    by rewrite lookup_delete_ne.
Qed.

Lemma cancelled_wf (k : string) (s : Scheduler) :
  scheduler_wf s -> scheduler_wf (cancelled k s).
Proof.
  intros (H1 & H2 & H3). unfold cancelled.
  destruct (timers s !! k) as [old|] eqn:Hold; [|done].
  split; [|split]; simpl.
  - intros k' t h Hk'. apply lookup_delete_Some in Hk' as [_ Hk'].
    exact (H1 k' t h Hk').
  - intros h [x Hx]. apply H2. exists x.
    apply lookup_delete_Some in Hx as [_ Hx].
    by apply lookup_delete_Some in Hx as [_ Hx].
  - intros k1 k2 t1 t2 h Hk1 Hk2.
    apply lookup_delete_Some in Hk1 as [_ Hk1].
    apply lookup_delete_Some in Hk2 as [_ Hk2].
    exact (H3 k1 k2 t1 t2 h Hk1 Hk2).
Qed.

Lemma armed_wf (k : string) (dp di : Z) (p i : Callback) (s : Scheduler) :
  scheduler_wf s -> timers s !! k = None -> scheduler_wf (armed k dp di p i s).
Proof.
  intros (H1 & H2 & H3) Hk. unfold armed. split; [|split]; simpl.
  - intros k' t h Hk'. destruct (decide (k' = k)) as [E1|Hne].
    + rewrite E1, lookup_insert_eq in Hk'. injection Hk' as <-. simpl.
      intros [<-|[<-|[]]]; lia.
    + rewrite lookup_insert_ne in Hk' by done. intros Hh.
      specialize (H1 k' t h Hk' Hh). lia.
  - intros h [x Hx].
    destruct (decide (S (next_handle s) = h)) as [Hn1|Hn1]; [lia|].
    rewrite lookup_insert_ne in Hx by done.
    destruct (decide (next_handle s = h)) as [Hn2|Hn2]; [lia|].
    rewrite lookup_insert_ne in Hx by done.
    assert (h < next_handle s)%nat by (apply H2; by exists x). lia.
  - intros k1 k2 t1 t2 h Hk1 Hk2 Hh1 Hh2.
    destruct (decide (k1 = k)) as [E1|Hn1], (decide (k2 = k)) as [E2|Hn2].
    + congruence.
    + rewrite E1, lookup_insert_eq in Hk1. injection Hk1 as <-.
      rewrite lookup_insert_ne in Hk2 by done.
      specialize (H1 k2 t2 h Hk2 Hh2). simpl in Hh1. destruct Hh1 as [<-|[<-|[]]]; lia.
    + rewrite E2, lookup_insert_eq in Hk2. injection Hk2 as <-.
      rewrite lookup_insert_ne in Hk1 by done.
      specialize (H1 k1 t1 h Hk1 Hh1). simpl in Hh2. destruct Hh2 as [<-|[<-|[]]]; lia.
    + rewrite lookup_insert_ne in Hk1 by done. rewrite lookup_insert_ne in Hk2 by done.
      exact (H3 k1 k2 t1 t2 h Hk1 Hk2 Hh1 Hh2).
Qed.

Lemma cancelled_gone (k : string) (s : Scheduler) : timers (cancelled k s) !! k = None.
Proof.
  unfold cancelled. destruct (timers s !! k) eqn:Hold; simpl;
    [apply lookup_delete_eq|exact Hold].
Qed.

(** X2. On a well-formed scheduler, (re-)arming the timers of one task keeps
    the scheduler well formed and leaves the entry and the pending timeouts
    of every other task as they were; so does cancelling. *)
Theorem schedule_leaves_other_tasks_armed (E : Env) (taskId other : string) (g : Z)
    (onPing onInactive : Callback) (t : TaskTimers) (w : World) :
  scheduler_wf (sched w) ->
  other <> taskId ->
  timers (sched w) !! other = Some t ->
  let w1 := world_of (schedule E taskId g onPing onInactive w) in
  let w2 := world_of (cancel taskId w) in
  scheduler_wf (sched w1) /\
  timers (sched w1) !! other = Some t /\
  pending (sched w1) !! pingTimeout t = pending (sched w) !! pingTimeout t /\
  pending (sched w1) !! inactiveTimeout t = pending (sched w) !! inactiveTimeout t /\
  scheduler_wf (sched w2) /\
  timers (sched w2) !! other = Some t /\
  pending (sched w2) !! pingTimeout t = pending (sched w) !! pingTimeout t /\
  pending (sched w2) !! inactiveTimeout t = pending (sched w) !! inactiveTimeout t.
Proof.
  intros Hwf Hne Ht w1 w2. subst w1 w2. rewrite schedule_eq, cancel_eq.
  unfold world_of; cbn [snd].
  assert (Hc : timers (cancelled taskId (sched w)) !! other = Some t /\
               forall h, In h (handles t) ->
                 pending (cancelled taskId (sched w)) !! h = pending (sched w) !! h).
  { unfold cancelled. destruct (timers (sched w) !! taskId) as [old|] eqn:Hold; [|done].
    simpl. split; [by rewrite lookup_delete_ne|].
    intros h Hh. destruct Hwf as (_ & _ & H3).
    assert (Hnot : ~ In h (handles old)).
    { intros Hin. apply Hne. by apply (H3 other taskId t old h). }
    simpl in Hnot.
    rewrite !lookup_delete_ne; [done|intros <-; tauto|intros <-; tauto]. }
  destruct Hc as [Hc1 Hc2].
  pose proof (cancelled_wf taskId _ Hwf) as Hwfc.
  assert (Hlt : forall h, In h (handles t) ->
            (h < next_handle (cancelled taskId (sched w)))%nat).
  { intros h Hh. destruct Hwfc as (H1 & _). by apply (H1 other t h). }
  split; [apply armed_wf; [done|apply cancelled_gone]|].
  simpl. split; [by rewrite lookup_insert_ne|].
  split; [|split; [|split; [done|split; [done|split; apply Hc2; simpl; auto]]]].
  - specialize (Hlt (pingTimeout t)). rewrite !lookup_insert_ne by (simpl in Hlt; lia).
    apply Hc2. simpl. auto.
  - specialize (Hlt (inactiveTimeout t)). rewrite !lookup_insert_ne by (simpl in Hlt; lia).
    apply Hc2. simpl. auto.
Qed.

End SchedulerMore.

Lemma two_timers_world_wf : scheduler_wf (sched two_timers_world).
Proof.
  split; [|split].
  - intros k t h Hk Hh. simpl in Hk.
    destruct (decide (k = "t1")) as [->|H1].
    { vm_compute in Hk. injection Hk as <-. simpl in *. lia. }
    destruct (decide (k = "t2")) as [->|H2].
    { vm_compute in Hk. injection Hk as <-. simpl in *. lia. }
    rewrite lookup_insert_ne in Hk by done. rewrite lookup_singleton_ne in Hk by done.
    done.
  - intros h [x Hx]. simpl in *.
    destruct (decide (h < 4)%nat) as [|Hge]; [done|].
    rewrite !lookup_insert_ne in Hx by lia. rewrite lookup_singleton_ne in Hx by lia.
    done.
  - intros k1 k2 t1 t2 h Hk1 Hk2 Hh1 Hh2. simpl in Hk1, Hk2.
    assert (Hcase : forall k t, ({["t1" := mkTaskTimers 0 1; "t2" := mkTaskTimers 2 3]}
                       : gmap string TaskTimers) !! k = Some t ->
              (k = "t1" /\ t = mkTaskTimers 0 1) \/ (k = "t2" /\ t = mkTaskTimers 2 3)).
    { intros k t Hk. destruct (decide (k = "t1")) as [->|H1].
      { vm_compute in Hk. injection Hk as <-. by left. }
      destruct (decide (k = "t2")) as [->|H2].
      { vm_compute in Hk. injection Hk as <-. by right. }
      rewrite lookup_insert_ne in Hk by done. rewrite lookup_singleton_ne in Hk by done.
      done. }
    destruct (Hcase _ _ Hk1) as [[-> ->]|[-> ->]], (Hcase _ _ Hk2) as [[-> ->]|[-> ->]];
      simpl in *; try done; lia.
Qed.

(** The instance of X2: re-arming Ana's timers ("t1") leaves those of "t2". *)
Lemma schedule_leaves_other_tasks_armed_witness :
  let w := two_timers_world in
  let t := mkTaskTimers 2 3 in
  let w1 := world_of (TaskInactivityScheduler.schedule demo_env "t1" 8000
                        (InternalPing "t1") (InternalInactive "t1") w) in
  let w2 := world_of (TaskInactivityScheduler.cancel "t1" w) in
  scheduler_wf (sched w1) /\
  timers (sched w1) !! "t2" = Some t /\
  pending (sched w1) !! pingTimeout t = pending (sched w) !! pingTimeout t /\
  pending (sched w1) !! inactiveTimeout t = pending (sched w) !! inactiveTimeout t /\
  scheduler_wf (sched w2) /\
  timers (sched w2) !! "t2" = Some t /\
  pending (sched w2) !! pingTimeout t = pending (sched w) !! pingTimeout t /\
  pending (sched w2) !! inactiveTimeout t = pending (sched w) !! inactiveTimeout t.
Proof.
  apply (schedule_leaves_other_tasks_armed demo_env "t1" "t2" 8000
           (InternalPing "t1") (InternalInactive "t1") (mkTaskTimers 2 3) two_timers_world).
  - exact two_timers_world_wf.
  - discriminate.
  - vm_compute. reflexivity.
Defined.

(** * What the entry points can touch *)

(** A relation between the world before and after that every primitive
    effect of a group of operations respects is respected by the operations
    themselves.  The two sections list the primitives of the internal and of
    the flex operations. *)

Section InternalEffects.
Import TaskInactivityScheduler TasksService.
Context (E : Env) (R : World -> World -> Prop) `{!Reflexive R} `{!Transitive R}.
Context (Hinteract : preserves R interact).
Context (Hclient : forall b, preserves R (modify (set_sms_client b))).
Context (Hsms : forall to body ok, preserves R (modify (log_sent (mkOutbound SMS to None body ok)))).
Context (Hcancel : forall k, preserves R (cancel k)).
Context (Hschedule : forall k g p i, preserves R (schedule E k g p i)).
Context (Hupdate : forall k f, preserves R (TasksRepository.execute_update k f)).
Context (Hinsert : forall k n c now, preserves R (TasksRepository.execute_insert k n c now)).

Local Ltac go := repeat (frame_step; auto).

Lemma new_Date_respects : preserves R (new_Date E).
Proof. unfold new_Date. go. Qed.
Local Hint Resolve new_Date_respects : core.

Lemma has_respects (k : string) : preserves R (has k).
Proof. unfold has. go. Qed.
Local Hint Resolve has_respects : core.

Lemma findById_respects (k : string) : preserves R (TasksRepository.findById E k).
Proof. unfold TasksRepository.findById. go. Qed.
Local Hint Resolve findById_respects : core.

Lemma repo_create_respects (n c : string) : preserves R (TasksRepository.create E n c).
Proof. unfold TasksRepository.create. go. Qed.

Lemma assignToOperator_respects (k o n : string) :
  preserves R (TasksRepository.assignToOperator E k o n).
Proof. unfold TasksRepository.assignToOperator. go. Qed.

Lemma setGreetingSent_respects (k : string) (g : Z) :
  preserves R (TasksRepository.setGreetingSent E k g).
Proof. unfold TasksRepository.setGreetingSent. go. Qed.

Lemma repo_markCustomerActivity_respects (k : string) (a : Z) :
  preserves R (TasksRepository.markCustomerActivity E k a).
Proof. unfold TasksRepository.markCustomerActivity. go. Qed.

Lemma markPingSent_respects (k : string) (a : Z) :
  preserves R (TasksRepository.markPingSent E k a).
Proof. unfold TasksRepository.markPingSent. go. Qed.

Lemma closeDueToInactivity_respects (k : string) (a : Z) :
  preserves R (TasksRepository.closeDueToInactivity E k a).
Proof. unfold TasksRepository.closeDueToInactivity. go. Qed.

Local Hint Resolve repo_create_respects assignToOperator_respects setGreetingSent_respects
  repo_markCustomerActivity_respects markPingSent_respects closeDueToInactivity_respects
  : core.

Lemma sendSMS_respects (to body : string) : preserves R (TwilioConfig.sendSMS E to body).
Proof. unfold TwilioConfig.sendSMS, TwilioConfig.getTwilioClient. go. Qed.
Local Hint Resolve sendSMS_respects : core.

Lemma scheduleInternalInactivityTimers_respects (t : Task) :
  preserves R (scheduleInternalInactivityTimers E t).
Proof. unfold scheduleInternalInactivityTimers. go. Qed.
Local Hint Resolve scheduleInternalInactivityTimers_respects : core.

Lemma create_respects (n c : string) : preserves R (create E n c).
Proof. unfold create. auto. Qed.

Lemma assign_respects (k o n : string) : preserves R (assign E k o n).
Proof. unfold assign. go. Qed.
Local Hint Resolve assign_respects : core.

Lemma startOperatorHandoff_respects (k o n : string) (s : option bool) :
  preserves R (startOperatorHandoff E k o n s).
Proof. unfold startOperatorHandoff. go. Qed.

Lemma registerOperatorGreeting_respects (k : string) :
  preserves R (registerOperatorGreeting E k).
Proof. unfold registerOperatorGreeting. go. Qed.

Lemma markCustomerActivity_respects (k : string) :
  preserves R (TasksService.markCustomerActivity E k).
Proof. unfold TasksService.markCustomerActivity. go. Qed.

Lemma markCustomerActivityByContact_respects (c : string) :
  preserves R (markCustomerActivityByContact E c).
Proof.
  unfold markCustomerActivityByContact, TasksRepository.findAssignedByCustomerContact. go.
Qed.

Lemma sendInternalPingIfInactive_respects (k : string) :
  preserves R (sendInternalPingIfInactive E k).
Proof. unfold sendInternalPingIfInactive. go. Qed.

Lemma sendInternalInactiveAndClose_respects (k : string) :
  preserves R (sendInternalInactiveAndClose E k).
Proof. unfold sendInternalInactiveAndClose. go. Qed.

Lemma processInternalTask_respects (t : Task) : preserves R (processInternalTask E t).
Proof. unfold processInternalTask. go. Qed.
Local Hint Resolve processInternalTask_respects : core.

Lemma autoProcessInternalAssignedTasks_respects :
  preserves R (autoProcessInternalAssignedTasks E).
Proof. unfold autoProcessInternalAssignedTasks, TasksRepository.findByStatus. go. Qed.

End InternalEffects.

Section FlexEffects.
Import TaskInactivityScheduler TasksService.
Context (E : Env) (R : World -> World -> Prop) `{!Reflexive R} `{!Transitive R}.
Context (Hinteract : preserves R interact).
Context (Hsvc : forall f, preserves R (modify (set_svc f))).
Context (Hmsg : forall to author body ok,
           preserves R (modify (log_sent (mkOutbound Conversation to (Some author) body ok)))).
Context (Hcancel : forall k, preserves R (cancel k)).
Context (Hschedule : forall k g p i, preserves R (schedule E k g p i)).
Context (Hupsert : forall sid f, preserves R (FlexTasksRepository.execute_upsert sid f)).
Context (Hlookup : forall conv sid,
           preserves R (FlexTasksRepository.execute_insert_lookup conv sid)).

Local Ltac go := repeat (frame_step; auto).

Lemma flex_new_Date_respects : preserves R (new_Date E).
Proof. unfold new_Date. go. Qed.
Local Hint Resolve flex_new_Date_respects : core.

Lemma flex_has_respects (k : string) : preserves R (has k).
Proof. unfold has. go. Qed.
Local Hint Resolve flex_has_respects : core.

Lemma findByTaskSid_respects (sid : string) :
  preserves R (FlexTasksRepository.findByTaskSid E sid).
Proof.
  unfold FlexTasksRepository.findByTaskSid, FlexTasksRepository.mapRow,
    FlexTasksRepository.or_new_Date. go.
Qed.
Local Hint Resolve findByTaskSid_respects : core.

Lemma findByConversationSid_respects (conv : string) :
  preserves R (FlexTasksRepository.findByConversationSid E conv).
Proof. unfold FlexTasksRepository.findByConversationSid. go. Qed.

Lemma upsertBaseState_respects (input : FlexTasksRepository.BaseState) :
  preserves R (FlexTasksRepository.upsertBaseState E input).
Proof. unfold FlexTasksRepository.upsertBaseState. go. Qed.

Lemma flex_setGreetingSent_respects (sid : string) (a : Z) :
  preserves R (FlexTasksRepository.setGreetingSent E sid a).
Proof. unfold FlexTasksRepository.setGreetingSent. go. Qed.

Lemma flex_markPingSent_respects (sid : string) (a : Z) :
  preserves R (FlexTasksRepository.markPingSent E sid a).
Proof. unfold FlexTasksRepository.markPingSent. go. Qed.

Lemma flex_markInactiveSent_respects (sid : string) (a : Z) :
  preserves R (FlexTasksRepository.markInactiveSent E sid a).
Proof. unfold FlexTasksRepository.markInactiveSent. go. Qed.

Lemma flex_markCustomerActivity_respects (sid : string) (a : Z) :
  preserves R (FlexTasksRepository.markCustomerActivity E sid a).
Proof. unfold FlexTasksRepository.markCustomerActivity. go. Qed.

Local Hint Resolve findByConversationSid_respects upsertBaseState_respects
  flex_setGreetingSent_respects flex_markPingSent_respects flex_markInactiveSent_respects
  flex_markCustomerActivity_respects : core.

Lemma getTwilioClient_respects : preserves R (getTwilioClient E).
Proof. unfold getTwilioClient. go. Qed.

Lemma resolveWorkspaceSid_respects : preserves R (resolveWorkspaceSid E).
Proof. unfold resolveWorkspaceSid, set_workspaceSid. go. Qed.

Lemma resolveWorkerParticipantIdentity_respects (conv : string) (ws : option string)
    (h : Hints) :
  preserves R (resolveWorkerParticipantIdentity E conv ws h).
Proof. unfold resolveWorkerParticipantIdentity. go. Qed.

Lemma resolveWorkerDisplayName_respects (ws : string) (sid : option string) (fb : string) :
  preserves R (resolveWorkerDisplayName E ws sid fb).
Proof. unfold resolveWorkerDisplayName, workerNameCache_set. go. Qed.

Local Hint Resolve getTwilioClient_respects resolveWorkspaceSid_respects
  resolveWorkerParticipantIdentity_respects resolveWorkerDisplayName_respects : core.

Lemma sendConversationMessage_respects (conv body : string) (author : option string) :
  preserves R (sendConversationMessage E conv body author).
Proof. unfold sendConversationMessage. go. Qed.

Lemma closeConversation_respects (conv : string) : preserves R (closeConversation E conv).
Proof. unfold closeConversation. go. Qed.

Lemma completeTaskRouterTask_respects (sid : string) :
  preserves R (completeTaskRouterTask E sid).
Proof. unfold completeTaskRouterTask. go. Qed.

Lemma scheduleFlexInactivityTimers_respects (sid : string) (g : Z) :
  preserves R (scheduleFlexInactivityTimers E sid g).
Proof. unfold scheduleFlexInactivityTimers. go. Qed.

Local Hint Resolve sendConversationMessage_respects closeConversation_respects
  completeTaskRouterTask_respects scheduleFlexInactivityTimers_respects : core.

Lemma processFlexTask_respects (ws : string) (task : ProviderTask) :
  preserves R (processFlexTask E ws task).
Proof. unfold processFlexTask, warned_add, warned_delete. go. Qed.
Local Hint Resolve processFlexTask_respects : core.

Lemma autoProcessFlexAssignedTasks_respects : preserves R (autoProcessFlexAssignedTasks E).
Proof. unfold autoProcessFlexAssignedTasks. go. Qed.

Lemma markFlexCustomerActivityByConversationSid_respects (conv : string)
    (author : option string) :
  preserves R (markFlexCustomerActivityByConversationSid E conv author).
Proof. unfold markFlexCustomerActivityByConversationSid. go. Qed.

Lemma sendFlexPingIfInactive_respects (sid : string) :
  preserves R (sendFlexPingIfInactive E sid).
Proof. unfold sendFlexPingIfInactive. go. Qed.

Lemma sendFlexInactiveAndClose_respects (sid : string) :
  preserves R (sendFlexInactiveAndClose E sid).
Proof. unfold sendFlexInactiveAndClose. go. Qed.

End FlexEffects.

Section AllEffects.
Import TaskInactivityScheduler TasksService.
Context (E : Env) (R : World -> World -> Prop) `{!Reflexive R} `{!Transitive R}.
Context (Hinteract : preserves R interact).
Context (Hrunning : forall b, preserves R (modify (set_running b))).
Context (Hclient : forall b, preserves R (modify (set_sms_client b))).
Context (Hsvc : forall f, preserves R (modify (set_svc f))).
Context (Hsent : forall o, preserves R (modify (log_sent o))).
Context (Hclear : forall h, preserves R (clearTimeout h)).
Context (Hcancel : forall k, preserves R (cancel k)).
Context (Hschedule : forall k g p i, preserves R (schedule E k g p i)).
Context (Hupdate : forall k f, preserves R (TasksRepository.execute_update k f)).
Context (Hinsert : forall k n c now, preserves R (TasksRepository.execute_insert k n c now)).
Context (Hupsert : forall sid f, preserves R (FlexTasksRepository.execute_upsert sid f)).
Context (Hlookup : forall conv sid,
           preserves R (FlexTasksRepository.execute_insert_lookup conv sid)).

Lemma autoProcessAssignedTasks_respects : preserves R (autoProcessAssignedTasks E).
Proof.
  unfold autoProcessAssignedTasks.
  repeat (frame_step;
          auto using autoProcessFlexAssignedTasks_respects,
            autoProcessInternalAssignedTasks_respects).
Qed.

Lemma tick_respects : preserves R (TasksWorker.tick E).
Proof.
  unfold TasksWorker.tick.
  repeat (frame_step; auto using autoProcessAssignedTasks_respects).
Qed.

Lemma run_callback_respects (cb : Callback) : preserves R (run_callback E cb).
Proof.
  destruct cb; cbv beta iota delta [run_callback].
  - apply sendInternalPingIfInactive_respects; auto.
  - apply sendInternalInactiveAndClose_respects; auto.
  - apply sendFlexPingIfInactive_respects; auto.
  - apply sendFlexInactiveAndClose_respects; auto.
Qed.

Lemma fire_timeout_respects (h : nat) : preserves R (fire_timeout E h).
Proof.
  unfold fire_timeout. repeat (frame_step; auto using run_callback_respects).
Qed.

Lemma run_respects (c : Command) (w : World) : R w (run E c w).
Proof.
  destruct c as [n c|k o n|k o n s|k|k|c|c a| |cb|h]; cbv beta iota delta [run].
  - apply create_respects; auto.
  - apply assign_respects; auto.
  - apply startOperatorHandoff_respects; auto.
  - apply registerOperatorGreeting_respects; auto.
  - apply markCustomerActivity_respects; auto.
  - apply markCustomerActivityByContact_respects; auto.
  - apply markFlexCustomerActivityByConversationSid_respects; auto.
  - apply tick_respects.
  - apply run_callback_respects.
  - apply fire_timeout_respects.
Qed.

End AllEffects.

(** * The two sides of the module do not interfere *)

Global Instance flex_side_untouched_refl : Reflexive flex_side_untouched.
Proof. by intros w. Qed.

Global Instance flex_side_untouched_trans : Transitive flex_side_untouched.
Proof.
  intros a b c (H1 & H2 & H3 & H4) (H5 & H6 & H7 & H8). repeat split; congruence.
Qed.

Global Instance internal_side_untouched_refl : Reflexive internal_side_untouched.
Proof. by intros w. Qed.

Global Instance internal_side_untouched_trans : Transitive internal_side_untouched.
Proof. intros a b c (H1 & H2 & H3) (H4 & H5 & H6). repeat split; congruence. Qed.

Section Sides.
Import TaskInactivityScheduler TasksService.
Context (E : Env).

Lemma sent_on_log (c : Channel) (o : Outbound) (w : World) :
  ob_channel o <> c -> sent_on c (log_sent o w) = sent_on c w.
Proof.
  intros Hne. unfold sent_on, log_sent. simpl. rewrite filter_app, filter_cons.
  destruct (decide (ob_channel o = c)); [done|]. by rewrite filter_nil, app_nil_r.
Qed.

(** The primitives of the internal operations leave the flex side. *)

Lemma flex_side_interact : preserves flex_side_untouched interact.
Proof. frame_prim. Qed.

Lemma flex_side_client (b : bool) : preserves flex_side_untouched (modify (set_sms_client b)).
Proof. frame_prim. Qed.

Lemma flex_side_sms (to body : string) (ok : bool) :
  preserves flex_side_untouched (modify (log_sent (mkOutbound SMS to None body ok))).
Proof.
  intros w. unfold modify, world_of; cbn [snd]. repeat split; try by destruct w.
  by apply sent_on_log.
Qed.

Lemma flex_side_cancel (k : string) : preserves flex_side_untouched (cancel k).
Proof. intros w. rewrite cancel_eq. by destruct w. Qed.

Lemma flex_side_schedule (k : string) (g : Z) (p i : Callback) :
  preserves flex_side_untouched (schedule E k g p i).
Proof. intros w. rewrite schedule_eq. by destruct w. Qed.

Lemma flex_side_update (k : string) (f : Task -> Task) :
  preserves flex_side_untouched (TasksRepository.execute_update k f).
Proof. frame_prim. Qed.

Lemma flex_side_insert (k n c : string) (now : Z) :
  preserves flex_side_untouched (TasksRepository.execute_insert k n c now).
Proof. frame_prim. Qed.

Lemma flex_side_running (b : bool) : preserves flex_side_untouched (modify (set_running b)).
Proof. frame_prim. Qed.

(** The primitives of the flex operations leave the internal side. *)

Lemma internal_side_interact : preserves internal_side_untouched interact.
Proof. frame_prim. Qed.

Lemma internal_side_svc (f : Service -> Service) :
  preserves internal_side_untouched (modify (set_svc f)).
Proof. frame_prim. Qed.

Lemma internal_side_msg (to author body : string) (ok : bool) :
  preserves internal_side_untouched
    (modify (log_sent (mkOutbound Conversation to (Some author) body ok))).
Proof.
  intros w. unfold modify, world_of; cbn [snd]. repeat split; try by destruct w.
  by apply sent_on_log.
Qed.

Lemma internal_side_cancel (k : string) : preserves internal_side_untouched (cancel k).
Proof. intros w. rewrite cancel_eq. by destruct w. Qed.

Lemma internal_side_schedule (k : string) (g : Z) (p i : Callback) :
  preserves internal_side_untouched (schedule E k g p i).
Proof. intros w. rewrite schedule_eq. by destruct w. Qed.

Lemma internal_side_upsert (sid : string) (f : FlexRow.t -> FlexRow.t) :
  preserves internal_side_untouched (FlexTasksRepository.execute_upsert sid f).
Proof. frame_prim. Qed.

Lemma internal_side_lookup (conv sid : string) :
  preserves internal_side_untouched (FlexTasksRepository.execute_insert_lookup conv sid).
Proof. frame_prim. Qed.

Lemma internal_side_running (b : bool) :
  preserves internal_side_untouched (modify (set_running b)).
Proof. frame_prim. Qed.

Local Hint Resolve flex_side_interact flex_side_client flex_side_sms flex_side_cancel
  flex_side_schedule flex_side_update flex_side_insert internal_side_interact
  internal_side_svc internal_side_msg internal_side_cancel internal_side_schedule
  internal_side_upsert internal_side_lookup : core.

(** X3. The HTTP commands on internal tasks, the SMS sink, the two internal
    timer callbacks and the internal pipeline never touch the flex side: the
    two flex tables, the private fields of the service and the conversation
    messages are what they were. *)
Theorem internal_operations_leave_flex_side (w : World) :
  (forall n c, flex_side_untouched w (run E (Create n c) w)) /\
  (forall k o n, flex_side_untouched w (run E (Assign k o n) w)) /\
  (forall k o n s, flex_side_untouched w (run E (StartOperatorHandoff k o n s) w)) /\
  (forall k, flex_side_untouched w (run E (RegisterOperatorGreeting k) w)) /\
  (forall k, flex_side_untouched w (run E (MarkCustomerActivity k) w)) /\
  (forall c, flex_side_untouched w (run E (InboundFrom c) w)) /\
  (forall k, flex_side_untouched w (run E (Fire (InternalPing k)) w)) /\
  (forall k, flex_side_untouched w (run E (Fire (InternalInactive k)) w)) /\
  flex_side_untouched w (world_of (autoProcessInternalAssignedTasks E w)).
Proof.
  split; [|split; [|split; [|split; [|split; [|split; [|split; [|split]]]]]]].
  - intros n c. apply (create_respects E flex_side_untouched); auto.
  - intros k o n. apply (assign_respects E flex_side_untouched); auto.
  - intros k o n s. apply (startOperatorHandoff_respects E flex_side_untouched); auto.
  - intros k. apply (registerOperatorGreeting_respects E flex_side_untouched); auto.
  - intros k. apply (markCustomerActivity_respects E flex_side_untouched); auto.
  - intros c. apply (markCustomerActivityByContact_respects E flex_side_untouched); auto.
  - intros k. apply (sendInternalPingIfInactive_respects E flex_side_untouched); auto.
  - intros k. apply (sendInternalInactiveAndClose_respects E flex_side_untouched); auto.
  - apply (autoProcessInternalAssignedTasks_respects E flex_side_untouched); auto.
Qed.

(** X4. The flex pipeline, the conversation sink and the two flex timer
    callbacks never touch the internal side: the [tasks] table, the SMS
    client and the SMS messages are what they were. *)
Theorem flex_operations_leave_internal_side (w : World) :
  internal_side_untouched w (world_of (autoProcessFlexAssignedTasks E w)) /\
  (forall c a, internal_side_untouched w (run E (InboundConversation c a) w)) /\
  (forall k, internal_side_untouched w (run E (Fire (FlexPing k)) w)) /\
  (forall k, internal_side_untouched w (run E (Fire (FlexInactive k)) w)).
Proof.
  split; [|split; [|split]].
  - apply (autoProcessFlexAssignedTasks_respects E internal_side_untouched); auto.
  - intros c a.
    apply (markFlexCustomerActivityByConversationSid_respects E internal_side_untouched);
      auto.
  - intros k. apply (sendFlexPingIfInactive_respects E internal_side_untouched); auto.
  - intros k. apply (sendFlexInactiveAndClose_respects E internal_side_untouched); auto.
Qed.

Lemma source_internal_tick :
  source E = "internal" -> preserves flex_side_untouched (TasksWorker.tick E).
Proof.
  intros Hsrc.
  assert (Hint : preserves flex_side_untouched (autoProcessInternalAssignedTasks E))
    by (apply autoProcessInternalAssignedTasks_respects; auto; typeclasses eauto).
  unfold TasksWorker.tick, autoProcessAssignedTasks. rewrite Hsrc. simpl.
  repeat (frame_step; auto using flex_side_running).
Qed.

Lemma source_flex_tick :
  source E = "flex" -> preserves internal_side_untouched (TasksWorker.tick E).
Proof.
  intros Hsrc.
  assert (Hflex : preserves internal_side_untouched (autoProcessFlexAssignedTasks E))
    by (apply autoProcessFlexAssignedTasks_respects; auto; typeclasses eauto).
  unfold TasksWorker.tick, autoProcessAssignedTasks. rewrite Hsrc. simpl.
  repeat (frame_step; auto using internal_side_running).
Qed.

(** X5. The source mode decides which side a tick may touch: with
    TASKS_AUTO_SOURCE equal to "internal" (in any letter case) a tick leaves
    the flex side as it was, provider client included, and with "flex" it
    leaves the internal side as it was, whatever the provider answers. *)
Theorem tick_source_mode_sides (w : World) :
  (source E = "internal" -> flex_side_untouched w (world_of (TasksWorker.tick E w))) /\
  (source E = "flex" -> internal_side_untouched w (world_of (TasksWorker.tick E w))).
Proof.
  split; intros Hsrc; [by apply source_internal_tick|by apply source_flex_tick].
Qed.

End Sides.

(** The instance of X5: a tick in mode "Internal" greets Ana and leaves the
    flex side; a tick in mode "FLEX" leaves Ana's task ungreeted. *)
Lemma tick_source_mode_sides_witness :
  let w := with_tasks [ana_assigned] 0 in
  flex_side_untouched w (world_of (TasksWorker.tick (demo_env_source "Internal") w)) /\
  internal_side_untouched w (world_of (TasksWorker.tick (demo_env_source "FLEX") w)).
Proof.
  intros w. split.
  - apply (proj1 (tick_source_mode_sides (demo_env_source "Internal") w)). reflexivity.
  - apply (proj2 (tick_source_mode_sides (demo_env_source "FLEX") w)). reflexivity.
Defined.

(** * The invariant of the scheduler *)

Global Instance keeps_scheduler_ok_refl : Reflexive keeps_scheduler_ok.
Proof. intros w H. exact H. Qed.

Global Instance keeps_scheduler_ok_trans : Transitive keeps_scheduler_ok.
Proof. intros a b c H1 H2 H. apply H2, H1, H. Qed.

Section SchedulerInvariant.
Import TaskInactivityScheduler.
Context (E : Env).

Lemma same_sched_keeps_ok (w w' : World) : sched w' = sched w -> keeps_scheduler_ok w w'.
Proof. intros Heq H. by rewrite Heq. Qed.

Lemma cleared_ok (h : nat) (s : Scheduler) :
  scheduler_ok s ->
  scheduler_ok (mkScheduler (timers s) (delete h (pending s)) (next_handle s)).
Proof.
  intros (H1 & H2 & H3). split; [|split]; simpl; [done|done|].
  intros h' [x Hx]. apply lookup_delete_Some in Hx as [_ Hx]. apply H3. by exists x.
Qed.

Lemma cancelled_ok (k : string) (s : Scheduler) :
  scheduler_ok s -> scheduler_ok (cancelled k s).
Proof.
  intros (H1 & H2 & H3). unfold cancelled.
  destruct (timers s !! k) as [old|] eqn:Hold; [|done].
  split; [|split]; simpl.
  - intros k' t Hk'. apply lookup_delete_Some in Hk' as [_ Hk'].
    exact (H1 k' t Hk').
  - intros k1 k2 t1 t2 h Hk1 Hk2.
    apply lookup_delete_Some in Hk1 as [_ Hk1].
    apply lookup_delete_Some in Hk2 as [_ Hk2].
    exact (H2 k1 k2 t1 t2 h Hk1 Hk2).
  - intros h [x Hx].
    apply lookup_delete_Some in Hx as [Hni Hx].
    apply lookup_delete_Some in Hx as [Hnp Hx].
    destruct (H3 h) as (k' & t' & Hk' & Hin); [by exists x|].
    exists k', t'. split; [|done]. apply lookup_delete_Some. split; [|done].
    intros <-. rewrite Hold in Hk'. injection Hk' as <-.
    simpl in Hin. destruct Hin as [?|[?|[]]]; congruence.
Qed.

Lemma armed_ok (k : string) (dp di : Z) (p i : Callback) (s : Scheduler) :
  scheduler_ok s -> timers s !! k = None -> scheduler_ok (armed k dp di p i s).
Proof.
  intros (H1 & H2 & H3) Hk. unfold armed. split; [|split]; simpl.
  - intros k' t Hk'. destruct (decide (k' = k)) as [E1|Hne].
    + rewrite E1, lookup_insert_eq in Hk'. injection Hk' as <-. simpl. lia.
    + rewrite lookup_insert_ne in Hk' by done.
      destruct (H1 k' t Hk') as (? & ? & ?). lia.
  - intros k1 k2 t1 t2 h Hk1 Hk2 Hh1 Hh2.
    destruct (decide (k1 = k)) as [E1|Hn1], (decide (k2 = k)) as [E2|Hn2].
    + congruence.
    + rewrite E1, lookup_insert_eq in Hk1. injection Hk1 as <-.
      rewrite lookup_insert_ne in Hk2 by done.
      destruct (H1 k2 t2 Hk2) as (_ & ? & ?).
      simpl in Hh1, Hh2. destruct Hh1 as [<-|[<-|[]]], Hh2 as [?|[?|[]]]; lia.
    + rewrite E2, lookup_insert_eq in Hk2. injection Hk2 as <-.
      rewrite lookup_insert_ne in Hk1 by done.
      destruct (H1 k1 t1 Hk1) as (_ & ? & ?).
      simpl in Hh1, Hh2. destruct Hh2 as [<-|[<-|[]]], Hh1 as [?|[?|[]]]; lia.
    + rewrite lookup_insert_ne in Hk1 by done. rewrite lookup_insert_ne in Hk2 by done.
      exact (H2 k1 k2 t1 t2 h Hk1 Hk2 Hh1 Hh2).
  - intros h [x Hx].
    destruct (decide (h = S (next_handle s))) as [->|Hn1].
    { exists k, (mkTaskTimers (next_handle s) (S (next_handle s))).
      split; [apply lookup_insert_eq|]. simpl. auto. }
    rewrite lookup_insert_ne in Hx by done.
    destruct (decide (h = next_handle s)) as [->|Hn2].
    { exists k, (mkTaskTimers (next_handle s) (S (next_handle s))).
      split; [apply lookup_insert_eq|]. simpl. auto. }
    rewrite lookup_insert_ne in Hx by done.
    destruct (H3 h) as (k' & t' & Hk' & Hin); [by exists x|].
    exists k', t'. split; [|done]. rewrite lookup_insert_ne; [done|].
    intros <-. congruence.
Qed.

Lemma cancelled_absent (k : string) (s : Scheduler) : timers (cancelled k s) !! k = None.
Proof. apply cancelled_clears. Qed.

(** X6. The invariant of the scheduler is kept by every entry point, every
    run of a callback and every expiry of a timeout, in whatever order, and
    by each single [cancel], [schedule] and removal of a timeout that fired:
    every entry holds two distinct handles handed out earlier, no handle
    belongs to two tasks, and every pending timeout belongs to an entry. *)
Theorem entry_points_keep_scheduler_ok (cs : list Command) (w : World) :
  scheduler_ok (sched w) ->
  scheduler_ok (sched (run_all E cs w)) /\
  (forall k, scheduler_ok (sched (world_of (cancel k w)))) /\
  (forall k g p i, scheduler_ok (sched (world_of (schedule E k g p i w)))) /\
  (forall h, scheduler_ok (sched (world_of (clearTimeout h w)))).
Proof.
  intros Hok. split; [|split; [|split]].
  - revert w Hok. induction cs as [|c cs IH]; intros w Hok; simpl; [done|].
    apply IH. revert Hok.
    change (keeps_scheduler_ok w (run E c w)).
    apply (run_respects E keeps_scheduler_ok).
    + intros w0. by apply same_sched_keeps_ok; destruct w0.
    + intros b w0. by apply same_sched_keeps_ok; destruct w0.
    + intros b w0. by apply same_sched_keeps_ok; destruct w0.
    + intros f w0. by apply same_sched_keeps_ok; destruct w0.
    + intros o w0. by apply same_sched_keeps_ok; destruct w0.
    + intros h w0 H. destruct w0. by apply cleared_ok.
    + intros k w0 H. rewrite cancel_eq. destruct w0. by apply cancelled_ok.
    + intros k g p i w0 H. rewrite schedule_eq. destruct w0. simpl in *.
      apply armed_ok; [by apply cancelled_ok|apply cancelled_absent].
    + intros k f w0. by apply same_sched_keeps_ok; destruct w0.
    + intros k n c0 now w0. by apply same_sched_keeps_ok; destruct w0.
    + intros sid f w0. by apply same_sched_keeps_ok; destruct w0.
    + intros conv sid w0. by apply same_sched_keeps_ok; destruct w0.
  - intros k. rewrite cancel_eq. destruct w. by apply cancelled_ok.
  - intros k g p i. rewrite schedule_eq. destruct w. simpl in *.
    apply armed_ok; [by apply cancelled_ok|apply cancelled_absent].
  - intros h. destruct w. by apply cleared_ok.
Qed.

End SchedulerInvariant.

Lemma handoff_world_ok : scheduler_ok (sched handoff_world).
Proof.
  assert (Hcase : forall k t, ({["t2" := mkTaskTimers 2 3]} : gmap string TaskTimers) !! k
                    = Some t -> k = "t2" /\ t = mkTaskTimers 2 3).
  { intros k t Hk. apply lookup_singleton_Some in Hk as [<- <-]. done. }
  split; [|split].
  - intros k t Hk. destruct (Hcase _ _ Hk) as [-> ->]. simpl. lia.
  - intros k1 k2 t1 t2 h Hk1 Hk2 _ _.
    destruct (Hcase _ _ Hk1) as [-> _], (Hcase _ _ Hk2) as [-> _]. done.
  - intros h [x Hx]. exists "t2", (mkTaskTimers 2 3). split; [reflexivity|].
    simpl in *.
    destruct (decide (h = 2%nat)) as [->|H2]; [auto|].
    destruct (decide (h = 3%nat)) as [->|H3]; [auto|].
    rewrite lookup_insert_ne in Hx by done. rewrite lookup_singleton_ne in Hx by done.
    done.
Qed.

(** The instance of X6: Ana's handoff arms her timers next to those of "t2",
    her ping timeout expires, her reply removes her entry, the ping timeout
    of "t2" expires and a tick runs. *)
Lemma entry_points_keep_scheduler_ok_witness :
  let cs := [StartOperatorHandoff "t1" "O1" "Bia" None; Expire 4;
             MarkCustomerActivity "t1"; Expire 2; Tick] in
  scheduler_ok (sched (run_all demo_env cs handoff_world)) /\
  (forall k, scheduler_ok
               (sched (world_of (TaskInactivityScheduler.cancel k handoff_world)))) /\
  (forall k g p i,
     scheduler_ok
       (sched (world_of (TaskInactivityScheduler.schedule demo_env k g p i handoff_world)))) /\
  (forall h,
     scheduler_ok (sched (world_of (TaskInactivityScheduler.clearTimeout h handoff_world)))).
Proof.
  apply (entry_points_keep_scheduler_ok demo_env). exact handoff_world_ok.
Defined.

(** * More on the tasks repository *)

Section RepositoryMore.
Import TasksRepository.
Context (E : Env).

Lemma touches_only_row_intro (k : string) (op : M (option Task)) (w : World) :
  (row k w = None -> op w = (Returned None, w)) ->
  (forall t, row k w = Some t ->
     exists f, op w = (Returned (Some (f t)), written k f w) /\
               forall u, id (f u) = id u /\ customer_name (f u) = customer_name u /\
                         customer_contact (f u) = customer_contact u /\
                         created_at (f u) = created_at u) ->
  touches_only_row k op w.
Proof.
  intros Hnone Hsome. unfold touches_only_row.
  destruct (row k w) as [t|] eqn:Ht.
  - destruct (Hsome t eq_refl) as (f & Hop & Hf). rewrite Hop.
    unfold world_of; cbn [snd].
    assert (Hid : forall u, id (f u) = id u) by (intros u; apply Hf).
    split; [|split].
    + unfold written. destruct w. simpl. by apply update_ids.
    + intros k' Hne. by apply row_written_other.
    + exists (f t). split; [done|]. split; [by apply row_written_hit|].
      destruct (Hf t) as (? & ? & ? & ?). repeat split; try done.
  - rewrite (Hnone eq_refl). by repeat split.
Qed.

(** X7. The five UPDATE methods of the tasks repository are guarded.  With
    an id the driver does not read as a uuid they throw the driver's error
    and nothing is written.  Otherwise, when no row has the uuid read they
    return null without writing anything (no row is created), and when a row
    has it they execute one statement, on that row only: the rows of the
    other uuids, the number and the order of the rows are what they were,
    and the row keeps its id, customer and creation date. *)
Theorem guarded_updates_touch_one_row (k o n : string) (g a : Z) (w : World) :
  guarded_by_id E k (assignToOperator E k o n) w /\
  guarded_by_id E k (setGreetingSent E k g) w /\
  guarded_by_id E k (markCustomerActivity E k a) w /\
  guarded_by_id E k (markPingSent E k a) w /\
  guarded_by_id E k (closeDueToInactivity E k a) w.
Proof.
  unfold guarded_by_id. destruct (Uuid_fromString E k) as [u|e] eqn:Hk.
  - split; [|split; [|split; [|split]]]; apply touches_only_row_intro.
    + intros H. by rewrite (assignToOperator_eq E k u o n w Hk), H.
    + intros t H. rewrite (assignToOperator_eq E k u o n w Hk), H.
      eexists. split; [reflexivity|done].
    + intros H. by rewrite (setGreetingSent_eq E k u g w Hk), H.
    + intros t H. rewrite (setGreetingSent_eq E k u g w Hk), H.
      eexists. split; [reflexivity|done].
    + intros H. by rewrite (markCustomerActivity_eq E k u a w Hk), H.
    + intros t H. rewrite (markCustomerActivity_eq E k u a w Hk), H.
      eexists. split; [reflexivity|done].
    + intros H. by rewrite (markPingSent_eq E k u a w Hk), H.
    + intros t H. rewrite (markPingSent_eq E k u a w Hk), H.
      eexists. split; [reflexivity|done].
    + intros H. by rewrite (closeDueToInactivity_eq E k u a w Hk), H.
    + intros t H. rewrite (closeDueToInactivity_eq E k u a w Hk), H.
      eexists. split; [reflexivity|done].
  - split; [|split; [|split; [|split]]].
    + by apply assignToOperator_invalid.
    + by apply setGreetingSent_invalid.
    + by apply markCustomerActivity_invalid.
    + by apply markPingSent_invalid.
    + by apply closeDueToInactivity_invalid.
Qed.

Lemma find_app_fresh (k : string) (rows : list Task) (t : Task) :
  List.find (has_id k) rows = None -> id t = k ->
  List.find (has_id k) (rows ++ [t]) = Some t.
Proof.
  intros Hnone Hid. induction rows as [|u rows IH]; simpl in *.
  - by rewrite (proj2 (has_id_true k t) Hid).
  - destruct (has_id k u); [done|]. by apply IH.
Qed.

Lemma find_app_other (k : string) (rows : list Task) (t : Task) :
  id t <> k -> List.find (has_id k) (rows ++ [t]) = List.find (has_id k) rows.
Proof.
  intros Hne. induction rows as [|u rows IH]; simpl.
  - destruct (has_id k t) eqn:Hk; [|done]. by apply has_id_true in Hk.
  - by destruct (has_id k u).
Qed.

Lemma existsb_has_id_false (k : string) (rows : list Task) :
  List.find (has_id k) rows = None -> existsb (has_id k) rows = false.
Proof.
  induction rows as [|u rows IH]; simpl; [done|].
  destruct (has_id k u); [done|]. apply IH.
Qed.

(** X9. [create] with a fresh uuid, whose text the driver reads back as
    that uuid, stores an open task without operator and without marks,
    stamped with one clock reading, after the rows that were there;
    [findById] of the returned id reads back exactly the task returned, and
    the other uuids read as before. *)
Theorem create_then_findById (customerName customerContact : string) (w : World) :
  row (Uuid_random E (io w)) w = None ->
  Uuid_fromString E (Uuid_random E (io w)) = Returned (Uuid_random E (io w)) ->
  exists t w',
    create E customerName customerContact w = (Returned t, w') /\
    id t = Uuid_random E (io w) /\
    t = mkTask (id t) customerName customerContact None None open
          (Date_now E (S (io w))) (Date_now E (S (io w)))
          None None None None None None None /\
    tasks (db w') = (tasks (db w) ++ [t])%list /\
    findById E (id t) w' = (Returned (Some t), w') /\
    (forall k', k' <> id t -> row k' w' = row k' w).
Proof.
  intros Hfresh Hread.
  set (k := Uuid_random E (io w)) in *.
  set (now := Date_now E (S (io w))).
  set (t := mkTask k customerName customerContact None None open now now
               None None None None None None None).
  set (w' := set_db (fun d => mkDb (insert_row k customerName customerContact now (tasks d))
                                (flex_tasks d) (flex_tasks_by_conversation d)
                                (db_log d ++ [WriteTasks k]))
               (next_io (next_io w))).
  assert (Hrows : tasks (db w') = (tasks (db w) ++ [t])%list).
  { pose proof (existsb_has_id_false _ _ Hfresh) as Hex.
    unfold w'. destruct w as [d s v c r o i]. simpl in *. unfold insert_row.
    by rewrite Hex. }
  exists t, w'. split; [done|]. split; [done|]. split; [done|].
  split; [exact Hrows|]. split.
  - change (id t) with k. rewrite (findById_eq E k k w' Hread). f_equal. f_equal. unfold row. rewrite Hrows.
    by apply find_app_fresh.
  - intros k' Hne. unfold row. rewrite Hrows. simpl in Hne. by apply find_app_other.
Qed.

Lemma normalizeLimit_bounds (limit : number) : 1 <= normalizeLimit limit 1000 <= 1000.
Proof.
  unfold normalizeLimit. destruct limit as [m e| |b]; [|lia|lia].
  cbv zeta. destruct (Z.leb_spec (floor_of m e) 0); lia.
Qed.

(** X10. The two filtering reads change nothing and return the first rows,
    in table order, of those that match (status, or contact and status
    "assigned"), as many as the cap allows.  The cap is 100 when the limit is
    NaN or infinite or when its floor is zero or negative, the floor of the
    limit when that lies between 1 and 1000, and 1000 above that; the floor
    of a whole number is the number itself. *)
Theorem filtering_reads_are_bounded_prefixes (st : TaskStatus) (contact : string)
    (limit : number) (w : World) :
  let cap := normalizeLimit limit 1000 in
  (exists l,
     findByStatus st limit w = (Returned l, w) /\
     l `prefix_of` filter (fun t => status t = st) (tasks (db w)) /\
     Z.of_nat (length l) =
       Z.min cap (Z.of_nat (length (filter (fun t => status t = st) (tasks (db w))))) /\
     Forall (fun t => status t = st /\ In t (tasks (db w))) l) /\
  (exists l,
     findAssignedByCustomerContact contact limit w = (Returned l, w) /\
     l `prefix_of`
       filter (fun t => customer_contact t = contact /\ status t = assigned) (tasks (db w)) /\
     Z.of_nat (length l) =
       Z.min cap (Z.of_nat (length (filter
          (fun t => customer_contact t = contact /\ status t = assigned) (tasks (db w))))) /\
     Forall (fun t => customer_contact t = contact /\ status t = assigned /\
                      In t (tasks (db w))) l) /\
  1 <= cap <= 1000 /\
  (limit = NaN \/ (exists b, limit = Infinity b) -> cap = 100) /\
  (forall m e, limit = Finite m e ->
     (floor_of m e <= 0 -> cap = 100) /\
     (1 <= floor_of m e <= 1000 -> cap = floor_of m e) /\
     (1000 < floor_of m e -> cap = 1000) /\
     (e = 0 -> floor_of m e = m) /\
     (e < 0 -> floor_of m e * 2 ^ (- e) <= m < (floor_of m e + 1) * 2 ^ (- e)) /\
     (0 <= e -> floor_of m e = m * 2 ^ e)).
Proof.
  intros cap.
  assert (Hb : 1 <= cap <= 1000) by apply normalizeLimit_bounds.
  split; [|split; [|split; [done|split]]].
  - eexists. split; [reflexivity|]. fold cap. split; [apply prefix_take|]. split.
    + rewrite length_take. lia.
    + apply Forall_forall. intros t Ht.
      apply elem_of_take in Ht as (i & Ht & _). apply list_elem_of_lookup_2 in Ht.
      apply list_elem_of_filter in Ht as [? Hin]. split; [done|by apply list_elem_of_In].
  - eexists. split; [reflexivity|]. fold cap. split; [apply prefix_take|]. split.
    + rewrite length_take. lia.
    + apply Forall_forall. intros t Ht.
      apply elem_of_take in Ht as (i & Ht & _). apply list_elem_of_lookup_2 in Ht.
      apply list_elem_of_filter in Ht as [[? ?] Hin].
      split; [done|]. split; [done|by apply list_elem_of_In].
  - intros [->|[b ->]]; reflexivity.
  - intros m e ->. subst cap. unfold normalizeLimit. cbv zeta.
    split; [|split; [|split; [|split; [|split]]]].
    + intros H. destruct (Z.leb_spec (floor_of m e) 0); [done|lia].
    + intros H. destruct (Z.leb_spec (floor_of m e) 0); lia.
    + intros H. destruct (Z.leb_spec (floor_of m e) 0); lia.
    + intros ->. unfold floor_of. simpl. lia.
    + intros He. unfold floor_of. destruct (Z.leb_spec 0 e); [lia|].
      assert (0 < 2 ^ (- e)) by (apply Z.pow_pos_nonneg; lia).
      pose proof (Z.mul_div_le m (2 ^ (- e)) ltac:(lia)).
      pose proof (Z.mul_succ_div_gt m (2 ^ (- e)) ltac:(lia)).
      lia.
    + intros He. unfold floor_of. destruct (Z.leb_spec 0 e); [done|lia].
Qed.

End RepositoryMore.

(** The instance of X9 on the empty table. *)
Lemma create_then_findById_witness :
  exists t w',
    TasksRepository.create demo_env_strict "Ana" "+5501" empty_world = (Returned t, w') /\
    id t = Uuid_random demo_env_strict (io empty_world) /\
    t = mkTask (id t) "Ana" "+5501" None None open
          (Date_now demo_env_strict (S (io empty_world)))
          (Date_now demo_env_strict (S (io empty_world)))
          None None None None None None None /\
    tasks (db w') = (tasks (db empty_world) ++ [t])%list /\
    TasksRepository.findById demo_env_strict (id t) w' = (Returned (Some t), w') /\
    (forall k', k' <> id t -> row k' w' = row k' empty_world).
Proof.
  apply (create_then_findById demo_env_strict "Ana" "+5501" empty_world); reflexivity.
Defined.

(** * More on the flex repository *)

Section FlexRepositoryMore.
Import FlexTasksRepository.
Context (E : Env).

Lemma findByTaskSid_created (sid : string) (w : World) :
  exists w1,
    db w1 = db w /\ sched w1 = sched w /\ sent w1 = sent w /\ svc w1 = svc w /\
    match flex_tasks (db w) !! sid with
    | None => findByTaskSid E sid w = (Returned None, w1) /\ w1 = w
    | Some r =>
        exists st,
          findByTaskSid E sid w = (Returned (Some st), w1) /\
          (forall c, FlexRow.created_at r = Some c -> FlexTaskState.created_at st = c)
    end.
Proof.
  unfold findByTaskSid, bind, gets. cbv beta iota.
  destruct (flex_tasks (db w) !! sid) as [r|] eqn:Hr; [|by exists w].
  unfold mapRow, or_new_Date, bind, new_Date, interact, ret, bind.
  destruct (FlexRow.created_at r), (FlexRow.updated_at r); cbv beta iota;
    eexists; (split; [|split; [|split; [|split]]]);
    try (eexists; split; [reflexivity|]; simpl; intros c Hc; congruence); done.
Qed.

Lemma upsertBaseState_world (input : BaseState) (w : World) :
  exists createdAt w',
    upsertBaseState E input w = (Returned tt, w') /\
    flex_tasks (db w') =
      <[taskSid input :=
          base_columns input createdAt (Date_now E (io w))
            (default (FlexRow.blank (taskSid input)) (flex_tasks (db w) !! taskSid input))]>
        (flex_tasks (db w)) /\
    flex_tasks_by_conversation (db w') =
      (if truthy (conversationSid input)
       then <[default "" (conversationSid input) := taskSid input]>
              (flex_tasks_by_conversation (db w))
       else flex_tasks_by_conversation (db w)) /\
    tasks (db w') = tasks (db w) /\ sched w' = sched w /\ sent w' = sent w /\
    match flex_tasks (db w) !! taskSid input with
    | None => createdAt = Date_now E (io w)
    | Some r => forall c, FlexRow.created_at r = Some c -> createdAt = c
    end.
Proof.
  unfold upsertBaseState, bind at 1. rewrite new_Date_eq. cbv beta iota.
  unfold bind at 1.
  destruct (findByTaskSid_created (taskSid input) (next_io w))
    as (w1 & Hdb & Hsc & Hse & _ & Hfind).
  change (flex_tasks (db (next_io w))) with (flex_tasks (db w)) in Hfind.
  change (db (next_io w)) with (db w) in Hdb.
  change (sched (next_io w)) with (sched w) in Hsc.
  change (sent (next_io w)) with (sent w) in Hse.
  destruct (flex_tasks (db w) !! taskSid input) as [r|] eqn:Hr.
  - destruct Hfind as (st & -> & Hc). cbv beta iota zeta.
    exists (FlexTaskState.created_at st).
    unfold bind, execute_upsert, execute_insert_lookup, modify.
    destruct (truthy (conversationSid input)); cbv beta iota;
      eexists; (split; [reflexivity|]); simpl; rewrite ?Hdb, ?Hr; repeat split;
      try done; by destruct w1; simpl in *; subst.
  - destruct Hfind as (-> & ->). cbv beta iota zeta. exists (Date_now E (io w)).
    unfold bind, execute_upsert, execute_insert_lookup, modify.
    destruct (truthy (conversationSid input)); cbv beta iota;
      eexists; (split; [reflexivity|]); simpl; rewrite ?Hr; by repeat split.
Qed.

(** X11. [upsertBaseState] rewrites the ten observed columns and
    [updated_at] of the row of the task and nothing else: an existing row
    keeps its greeting, ping, inactive and activity marks and its creation
    date, a new row starts without marks, created at the clock reading of the
    call; the other rows are untouched, and the lookup row of the
    conversation is written exactly when the conversation sid is non-empty. *)
Theorem upsertBaseState_keeps_epoch_marks (input : BaseState) (w : World) :
  let w' := world_of (upsertBaseState E input w) in
  let sid := taskSid input in
  value_of (upsertBaseState E input w) = Returned tt /\
  (exists r',
     flex_tasks (db w') !! sid = Some r' /\
     holds_base_state input r' /\
     FlexRow.updated_at r' = Some (Date_now E (io w)) /\
     match flex_tasks (db w) !! sid with
     | Some r =>
         flex_marks r' = flex_marks r /\
         (forall c, FlexRow.created_at r = Some c -> FlexRow.created_at r' = Some c)
     | None =>
         flex_marks r' = (None, None, None, None) /\
         FlexRow.created_at r' = Some (Date_now E (io w))
     end) /\
  (forall sid', sid' <> sid -> flex_tasks (db w') !! sid' = flex_tasks (db w) !! sid') /\
  flex_tasks_by_conversation (db w') =
    (if truthy (conversationSid input)
     then <[default "" (conversationSid input) := sid]> (flex_tasks_by_conversation (db w))
     else flex_tasks_by_conversation (db w)) /\
  tasks (db w') = tasks (db w) /\ sched w' = sched w /\ sent w' = sent w.
Proof.
  intros w' sid. subst w' sid.
  destruct (upsertBaseState_world input w)
    as (createdAt & w' & -> & Hrows & Hlook & Ht & Hs & Hse & Hc).
  unfold world_of, value_of; cbn [fst snd]. split; [done|]. split.
  - eexists. split; [rewrite Hrows; apply lookup_insert_eq|].
    split; [by repeat split|]. split; [done|].
    destruct (flex_tasks (db w) !! taskSid input) as [r|]; simpl.
    + split; [done|]. intros c Hcr. by rewrite (Hc c Hcr).
    + by rewrite Hc.
  - split; [|done]. intros sid' Hne. rewrite Hrows. by apply lookup_insert_ne.
Qed.

(** X12. After [upsertBaseState] of a task with non-empty sid and non-empty
    conversation sid, [findByConversationSid] of that conversation finds the
    task, with the columns just written, and reads no clock. *)
Theorem upsertBaseState_then_findByConversationSid (input : BaseState) (conv : string)
    (w : World) :
  conversationSid input = Some conv ->
  conv <> "" ->
  taskSid input <> "" ->
  let w' := world_of (upsertBaseState E input w) in
  exists st,
    findByConversationSid E conv w' = (Returned (Some st), w') /\
    FlexTaskState.task_sid st = taskSid input /\
    FlexTaskState.conversation_sid st = Some conv /\
    FlexTaskState.customer_name st = customerName input /\
    FlexTaskState.customer_address st = customerAddress input /\
    FlexTaskState.customer_from st = customerFrom input /\
    FlexTaskState.worker_sid st = workerSid input /\
    FlexTaskState.worker_name st = workerName input /\
    FlexTaskState.updated_at st = Date_now E (io w).
Proof.
  intros Hconv Hne Hsid w'. subst w'.
  destruct (upsertBaseState_world input w)
    as (createdAt & w' & -> & Hrows & Hlook & _).
  unfold world_of; cbn [snd].
  rewrite Hconv in Hlook. cbn [truthy default] in Hlook.
  apply nonempty_true in Hne as Hne'. rewrite Hne' in Hlook.
  unfold findByConversationSid, bind at 1, gets. cbv beta iota.
  rewrite Hlook, lookup_insert_eq. apply nonempty_true in Hsid as ->.
  unfold findByTaskSid, bind at 1, gets. cbv beta iota.
  rewrite Hrows, lookup_insert_eq.
  unfold mapRow, or_new_Date, base_columns, bind, ret. simpl.
  eexists. split; [reflexivity|]. simpl. by rewrite Hconv.
Qed.



End FlexRepositoryMore.

(** The instance of X12: the task of scenario 4 is found by its conversation. *)
Lemma upsertBaseState_then_findByConversationSid_witness :
  let w' := world_of (FlexTasksRepository.upsertBaseState demo_env demo_base_state
                        empty_world) in
  exists st,
    FlexTasksRepository.findByConversationSid demo_env "CH1" w' = (Returned (Some st), w') /\
    FlexTaskState.task_sid st = "WT1" /\
    FlexTaskState.conversation_sid st = Some "CH1" /\
    FlexTaskState.customer_name st = Some "Ana" /\
    FlexTaskState.customer_address st = None /\
    FlexTaskState.customer_from st = Some "+5501" /\
    FlexTaskState.worker_sid st = Some "WK1" /\
    FlexTaskState.worker_name st = Some "Bia" /\
    FlexTaskState.updated_at st = Date_now demo_env (io empty_world).
Proof.
  apply (upsertBaseState_then_findByConversationSid demo_env demo_base_state "CH1"
           empty_world); [reflexivity|discriminate|discriminate].
Defined.

(** * More on the internal service *)

Section InternalServiceMore.
Import TaskInactivityScheduler TasksService.
Context (E : Env).

Lemma In_insert_latest_first (x t : Task) (s : list Task) :
  In x (insert_latest_first t s) <-> x = t \/ In x s.
Proof.
  induction s as [|u r IH]; simpl; [intuition|].
  destruct (updated_at u <=? updated_at t); simpl; [intuition|].
  rewrite IH. intuition.
Qed.

Lemma In_sort_latest_first (x : Task) (l : list Task) :
  In x (sort_latest_first l) <-> In x l.
Proof.
  induction l as [|t l IH]; simpl; [done|].
  rewrite In_insert_latest_first, IH. intuition.
Qed.

Lemma sort_latest_first_head (pre post : list Task) (m : Task) :
  (forall u, In u pre -> updated_at u < updated_at m) ->
  (forall u, In u post -> updated_at u <= updated_at m) ->
  exists rest, sort_latest_first (pre ++ m :: post) = m :: rest.
Proof.
  intros Hpre Hpost. induction pre as [|a pre IH]; simpl.
  - destruct (sort_latest_first post) as [|u r] eqn:Hs; simpl; [by eexists|].
    assert (updated_at u <= updated_at m) as Hu.
    { apply Hpost, In_sort_latest_first. rewrite Hs. by left. }
    apply Z.leb_le in Hu as ->. by eexists.
  - destruct IH as (rest & ->); [intros u Hu; apply Hpre; by right|].
    simpl. assert (updated_at a < updated_at m) as Ha by (apply Hpre; by left).
    apply Z.leb_gt in Ha as ->. by eexists.
Qed.

(** X14. An SMS of a customer is booked on one task: of the assigned tasks
    of the contact (the first 25 in table order) the one updated last, the
    first of them when several tie.  The driver reading the id of that row
    back as its uuid, its activity mark is written and its scheduler entry
    removed; with no assigned task nothing happens at all. *)
Theorem markCustomerActivityByContact_marks_latest (contact : string) (w : World) :
  let candidates :=
    take 25 (filter (fun t => customer_contact t = contact /\ status t = assigned)
                    (tasks (db w))) in
  (candidates = [] -> markCustomerActivityByContact E contact w = (Returned tt, w)) /\
  (forall pre m post,
     candidates = (pre ++ m :: post)%list ->
     (forall u, In u pre -> updated_at u < updated_at m) ->
     (forall u, In u post -> updated_at u <= updated_at m) ->
     Uuid_fromString E (id m) = Returned (id m) ->
     markCustomerActivityByContact E contact w =
     (Returned tt,
      set_sched (cancelled (id m))
        (written (id m)
           (TasksRepository.activity_columns (Date_now E (io w)) (Date_now E (S (io w))))
           (next_io w)))).
Proof.
  intros candidates.
  assert (TasksRepository.findAssignedByCustomerContact contact (of_Z 25) w =
          (Returned candidates, w)) as Hfind by done.
  split.
  - intros Hnil. unfold markCustomerActivityByContact, bind at 1.
    by rewrite Hfind, Hnil.
  - intros pre m post Hc Hpre Hpost Hread.
    unfold markCustomerActivityByContact, bind at 1. rewrite Hfind, Hc.
    destruct (sort_latest_first_head pre post m Hpre Hpost) as (rest & ->).
    cbv beta iota. unfold bind at 1. rewrite new_Date_eq. cbv beta iota.
    unfold bind at 1. rewrite (markCustomerActivity_eq E (id m) (id m) _ _ Hread).
    change (row (id m) (next_io w)) with (row (id m) w).
    assert (In m (tasks (db w))) as Hin.
    { assert (m ∈ candidates) as Hm.
      { rewrite Hc. apply list_elem_of_In, in_or_app. right. by left. }
      apply elem_of_take in Hm as (i & Hm & _).
      apply list_elem_of_lookup_2, list_elem_of_filter in Hm as [_ Hm].
      by apply list_elem_of_In. }
    destruct (row (id m) w) as [t|] eqn:Ht.
    + cbv beta iota zeta. by rewrite cancel_eq.
    + exfalso. unfold row in Ht.
      apply (find_none _ _ Ht m) in Hin. revert Hin.
      unfold TasksRepository.has_id. by rewrite bool_decide_eq_true_2.
Qed.

Lemma startOperatorHandoff_failure_eq (k u o n : string) (s : option bool)
    (t : Task) (w : World) :
  Uuid_fromString E k = Returned u ->
  row u w = Some t ->
  default true s = true ->
  let now := Date_now E (io w) in
  let w1 := written u (TasksRepository.assign_columns o n (default now (assigned_at t)) now) w in
  let to := customer_contact t in
  let body := operatorHandoffMessage (customer_name t) n in
  startOperatorHandoff E k o n s w =
  match sms_client_state E w with
  | Returned false => (Thrown "Failed to send operator handoff message", w1)
  | Thrown e => (Thrown e, w1)
  | Returned true =>
      if messages_create E (S (io w)) body (TwilioConfig.phoneNumber E) to
      then startOperatorHandoff E k o n s w
      else (Thrown "Failed to send operator handoff message", sms_attempted E to body w1)
  end.
Proof.
  intros Hk Ht Hs now w1 to body. subst now w1 to body.
  destruct (sms_client_state E w) as [[|]|e] eqn:Hc;
    [destruct (messages_create E (S (io w)) _ _ _) eqn:Hm; [done|]| |];
    unfold startOperatorHandoff, bind at 1; rewrite (assign_eq E k u o n w Hk), Ht;
    cbv beta iota zeta; rewrite Hs; unfold bind at 1, bind at 1; rewrite sendSMS_eq;
    set (f := TasksRepository.assign_columns _ _ _ _);
    change (customer_contact (f t)) with (customer_contact t);
    change (customer_name (f t)) with (customer_name t);
    change (io (written u f w)) with (S (io w));
    change (sms_client_state E (written u f w)) with (sms_client_state E w);
    rewrite Hc; [by rewrite Hm|done|done].
Qed.

(** X15. When the handoff message cannot be sent, [startOperatorHandoff]
    throws after the assignment was written: "Failed to send operator handoff
    message" when the configuration is incomplete or the provider refuses the
    message, and the error of the SDK constructor when that refuses the
    credentials.  In each case the task stays assigned to the operator, its
    greeting mark is the one it had, no timer is armed and no message was
    delivered. *)
Theorem handoff_send_failure_keeps_assignment (k u o n : string) (s : option bool)
    (t : Task) (w : World) :
  Uuid_fromString E k = Returned u ->
  row u w = Some t ->
  default true s = true ->
  let r := startOperatorHandoff E k o n s w in
  let now := Date_now E (io w) in
  let client := value_of (TwilioConfig.getTwilioClient E w) in
  let refused :=
    messages_create E (S (io w)) (operatorHandoffMessage (customer_name t) n)
      (TwilioConfig.phoneNumber E) (customer_contact t) = false in
  (client = Returned false \/ (client = Returned true /\ refused) ->
   value_of r = Thrown "Failed to send operator handoff message") /\
  (forall e, client = Thrown e -> value_of r = Thrown e) /\
  (client <> Returned true \/ refused ->
   row u (world_of r) =
     Some (TasksRepository.assign_columns o n (default now (assigned_at t)) now t) /\
   sched (world_of r) = sched w /\
   delivered (world_of r) = delivered w).
Proof.
  intros Hk Ht Hs r now client refused. subst r now client refused.
  rewrite getTwilioClient_value.
  rewrite (startOperatorHandoff_failure_eq k u o n s t w Hk Ht Hs).
  set (f := TasksRepository.assign_columns _ _ _ _).
  assert (row u (written u f w) = Some (f t)) as Hrow.
  { apply find_update_hit; [done|exact Ht]. }
  split; [|split].
  - intros [Hc|[Hc Hm]].
    + by rewrite Hc.
    + by rewrite Hc, Hm.
  - intros e Hc. by rewrite Hc.
  - intros Hfail.
    destruct (sms_client_state E w) as [[|]|e] eqn:Hc.
    + destruct Hfail as [Hfail|Hm]; [done|]. rewrite Hm.
      unfold world_of. cbn [snd]. split; [exact Hrow|]. split; [done|].
      unfold delivered, sms_attempted. cbn. change (io (written u f w)) with (S (io w)).
      rewrite List.filter_app. cbn. rewrite Hm. by rewrite app_nil_r.
    + by repeat split.
    + by repeat split.
Qed.

(** X16. With [sendGreeting = false] the handoff sends nothing and still
    marks the task as greeted, at the clock reading after the assignment, and
    leaves it with a scheduler entry. *)
Theorem handoff_without_greeting_sends_nothing (k u o n : string) (t : Task) (w : World) :
  Uuid_fromString E k = Returned u ->
  row u w = Some t ->
  exists t' w',
    startOperatorHandoff E k o n (Some false) w = (Returned t', w') /\
    sent w' = sent w /\
    row u w' = Some t' /\
    status t' = assigned /\
    operator_id t' = Some o /\ operator_name t' = Some n /\
    greeting_sent_at t' = Some (Date_now E (S (io w))) /\
    ping_sent_at t' = None /\ inactive_sent_at t' = None /\
    is_Some (timers (sched w') !! u).
Proof.
  intros Hk Ht.
  set (f := TasksRepository.assign_columns o n
              (default (Date_now E (io w)) (assigned_at t)) (Date_now E (io w))).
  set (g := TasksRepository.greeting_columns (Date_now E (S (io w)))
              (Date_now E (S (S (io w))))).
  set (w1 := written u f w).
  set (w2 := written u g (next_io w1)).
  assert (row u w1 = Some (f t)) as Hrow.
  { apply find_update_hit; [done|exact Ht]. }
  assert (row u w2 = Some (g (f t))) as Hrow2.
  { apply find_update_hit; [done|exact Hrow]. }
  assert (id (g (f t)) = u) as Hid.
  { apply find_has_id in Ht as [Hid _]. exact Hid. }
  assert (startOperatorHandoff E k o n (Some false) w =
          (Returned (g (f t)),
           world_of (scheduleInternalInactivityTimers E (g (f t)) w2))) as Heq.
  { unfold startOperatorHandoff, bind at 1. rewrite (assign_eq E k u o n w Hk), Ht. cbv beta iota zeta.
    fold f. fold w1. change (default true (Some false)) with false. cbv iota.
    unfold bind at 1, ret at 1. cbv beta iota.
    unfold bind at 1. rewrite new_Date_eq. cbv beta iota.
    unfold bind at 1. rewrite (setGreetingSent_eq E k u _ _ Hk).
    change (row u (next_io w1)) with (row u w1). rewrite Hrow. cbv beta iota zeta.
    change (io w1) with (S (io w)). change (io (next_io w1)) with (S (S (io w))).
    fold g. fold w2. unfold bind at 1.
    destruct (scheduleInternalInactivityTimers_frame E (g (f t)) w2) as (Hv & _).
    destruct (scheduleInternalInactivityTimers E (g (f t)) w2) as [v w3].
    unfold value_of in Hv. cbn [fst] in Hv. subst v. done. }
  exists (g (f t)), (world_of (scheduleInternalInactivityTimers E (g (f t)) w2)).
  split; [exact Heq|].
  destruct (scheduleInternalInactivityTimers_frame E (g (f t)) w2) as (_ & Hdb & Hsent & _).
  split; [by rewrite Hsent|].
  split; [by rewrite (row_tasks u w2 _) by (by rewrite Hdb)|].
  do 6 (split; [done|]).
  rewrite scheduleInternalInactivityTimers_eq.
  change (greeting_sent_at (g (f t))) with (Some (Date_now E (S (io w)))).
  cbv beta iota. rewrite Hid.
  destruct (bool_decide (is_Some (timers (sched w2) !! u))) eqn:Hhas.
  - by apply bool_decide_eq_true in Hhas.
  - rewrite schedule_eq. unfold world_of. cbn. rewrite lookup_insert_eq. by eexists.
Qed.

(** X17. [registerOperatorGreeting] throws the driver's error for an id
    that is not read as a uuid, refuses a uuid that no row has and a task
    that is not assigned, and none of the three has any effect; on an
    assigned task that already has a scheduler entry it moves the greeting
    mark to the clock reading of the call and leaves the scheduler as it was:
    the pending timers keep the deadlines of the earlier greeting. *)
Theorem registerOperatorGreeting_refusals_and_old_timers (k : string) (w : World) :
  match Uuid_fromString E k with
  | Thrown e => registerOperatorGreeting E k w = (Thrown e, w)
  | Returned u =>
      (row u w = None ->
       registerOperatorGreeting E k w = (Thrown "Task not found", w)) /\
      (forall t, row u w = Some t -> status t <> assigned ->
       registerOperatorGreeting E k w = (Thrown "Task is not assigned to an operator", w)) /\
      (forall t, row u w = Some t -> status t = assigned ->
       is_Some (timers (sched w) !! u) ->
       let r := registerOperatorGreeting E k w in
       exists t',
         value_of r = Returned t' /\
         row u (world_of r) = Some t' /\
         greeting_sent_at t' = Some (Date_now E (io w)) /\
         sched (world_of r) = sched w /\ sent (world_of r) = sent w)
  end.
Proof.
  destruct (Uuid_fromString E k) as [u|e] eqn:Hk.
  2: { unfold registerOperatorGreeting, bind. by rewrite (findById_invalid E k e w Hk). }
  split; [|split].
  - intros Ht. unfold registerOperatorGreeting, bind.
    by rewrite (findById_eq E k u w Hk), Ht.
  - intros t Ht Hs. unfold registerOperatorGreeting, bind.
    rewrite (findById_eq E k u w Hk), Ht.
    by rewrite bool_decide_eq_false_2.
  - intros t Ht Hs Htm r. subst r.
    set (g := TasksRepository.greeting_columns (Date_now E (io w)) (Date_now E (S (io w)))).
    set (w2 := written u g (next_io w)).
    assert (registerOperatorGreeting E k w = (Returned (g t), w2)) as ->; [|exists (g t)].
    2: { unfold value_of, world_of. cbn [fst snd]. split; [done|].
         split; [apply find_update_hit; [done|exact Ht]|]. by repeat split. }
    unfold registerOperatorGreeting, bind at 1. rewrite (findById_eq E k u w Hk), Ht.
    cbv beta iota. rewrite bool_decide_eq_true_2 by done. cbn [negb].
    unfold bind at 1. rewrite new_Date_eq. cbv beta iota.
    unfold bind at 1. rewrite (setGreetingSent_eq E k u _ _ Hk).
    change (row u (next_io w)) with (row u w). rewrite Ht. cbv beta iota zeta.
    change (io (next_io w)) with (S (io w)). fold g. fold w2.
    assert (id (g t) = u) as Hid.
    { apply find_has_id in Ht as [Hid _]. exact Hid. }
    unfold bind at 1. rewrite scheduleInternalInactivityTimers_eq.
    change (greeting_sent_at (g t)) with (Some (Date_now E (io w))).
    cbv beta iota. rewrite Hid.
    change (sched w2) with (sched w). by rewrite bool_decide_eq_true_2.
Qed.

End InternalServiceMore.

(** The instance of X14: of Ana's two assigned tasks the one updated at 2000
    gets the activity mark. *)
Lemma markCustomerActivityByContact_marks_latest_witness :
  TasksService.markCustomerActivityByContact demo_env "+5501"
    (with_tasks [ana_greeted; ana_second] 3) =
  (Returned tt,
   set_sched (cancelled "t2")
     (written "t2" (TasksRepository.activity_columns 3000 4000)
        (next_io (with_tasks [ana_greeted; ana_second] 3)))).
Proof.
  apply (proj2 (markCustomerActivityByContact_marks_latest demo_env "+5501"
                  (with_tasks [ana_greeted; ana_second] 3))
           [ana_greeted] ana_second []).
  - vm_compute. reflexivity.
  - intros u [<-|[]]. reflexivity.
  - intros u [].
  - reflexivity.
Defined.

(** The instances of X15: without credentials the handoff of Ana's task
    fails and the task stays assigned; with an account sid that the SDK
    refuses the constructor's error is thrown, and the task stays assigned
    as well. *)
Lemma handoff_send_failure_keeps_assignment_witness :
  (let r := TasksService.startOperatorHandoff demo_env_no_sms "t1" "O2" "Caio" None
              (with_tasks [ana_assigned] 1) in
   value_of r = Thrown "Failed to send operator handoff message" /\
   row "t1" (world_of r) =
     Some (TasksRepository.assign_columns "O2" "Caio" 500 1000 ana_assigned) /\
   sched (world_of r) = sched (with_tasks [ana_assigned] 1) /\
   delivered (world_of r) = delivered (with_tasks [ana_assigned] 1)) /\
  (let r := TasksService.startOperatorHandoff demo_env_bad_sid "t1" "O2" "Caio" None
              (with_tasks [ana_assigned] 1) in
   value_of r = Thrown "accountSid must start with AC" /\
   row "t1" (world_of r) =
     Some (TasksRepository.assign_columns "O2" "Caio" 500 1000 ana_assigned) /\
   sched (world_of r) = sched (with_tasks [ana_assigned] 1) /\
   delivered (world_of r) = delivered (with_tasks [ana_assigned] 1)).
Proof.
  split.
  - destruct (handoff_send_failure_keeps_assignment demo_env_no_sms "t1" "t1" "O2" "Caio"
                None ana_assigned (with_tasks [ana_assigned] 1) eq_refl eq_refl eq_refl)
      as (H1 & _ & H3).
    split; [apply H1; left; reflexivity|]. apply H3. left. discriminate.
  - destruct (handoff_send_failure_keeps_assignment demo_env_bad_sid "t1" "t1" "O2" "Caio"
                None ana_assigned (with_tasks [ana_assigned] 1) eq_refl eq_refl eq_refl)
      as (_ & H2 & H3).
    split; [apply H2; reflexivity|]. apply H3. left. discriminate.
Defined.

(** The instance of X16: Ana's task is handed off without a greeting. *)
Lemma handoff_without_greeting_sends_nothing_witness :
  exists t' w',
    TasksService.startOperatorHandoff demo_env "t1" "O2" "Caio" (Some false)
      (with_tasks [ana_assigned] 1) = (Returned t', w') /\
    sent w' = sent (with_tasks [ana_assigned] 1) /\
    row "t1" w' = Some t' /\
    status t' = assigned /\
    operator_id t' = Some "O2" /\ operator_name t' = Some "Caio" /\
    greeting_sent_at t' = Some 2000 /\
    ping_sent_at t' = None /\ inactive_sent_at t' = None /\
    is_Some (timers (sched w') !! "t1").
Proof.
  apply (handoff_without_greeting_sends_nothing demo_env "t1" "t1" "O2" "Caio"
           ana_assigned (with_tasks [ana_assigned] 1)); reflexivity.
Defined.

(** The instance of X17: greeting Ana's task again at 7000 keeps the timers
    armed for the greeting at 1000. *)
Lemma registerOperatorGreeting_refusals_and_old_timers_witness :
  let w := world_of (TasksService.registerOperatorGreeting demo_env "t1"
                       (with_tasks [ana_greeted] 1)) in
  let r := TasksService.registerOperatorGreeting demo_env "t1" w in
  exists t',
    value_of r = Returned t' /\
    row "t1" (world_of r) = Some t' /\
    greeting_sent_at t' = Some (Date_now demo_env (io w)) /\
    sched (world_of r) = sched w /\ sent (world_of r) = sent w.
Proof.
  intros w.
  apply (proj2 (proj2 (registerOperatorGreeting_refusals_and_old_timers demo_env "t1" w))
           (TasksRepository.greeting_columns 1000 2000 ana_greeted)).
  - vm_compute. reflexivity.
  - reflexivity.
  - vm_compute. by eexists.
Defined.

(** * The timer callbacks of internal tasks fire at most one message *)

Section CallbacksOnce.
Import TaskInactivityScheduler TasksService.
Context (E : Env).








Lemma one_shot_fired {R : Type} (look : World -> option R) (blocked : R -> Prop)
    (cb : M unit) :
  (forall w, one_shot look blocked cb w) ->
  (forall w t, look w = Some t -> blocked t ->
     delivered (world_of (cb w)) = delivered w /\ look (world_of (cb w)) = Some t) ->
  forall n w, (length (delivered (fired n cb w)) <= S (length (delivered w)))%nat.
Proof.
  intros Hstep Hsilent n w.
  assert (delivered (fired n cb w) = delivered w \/
          (length (delivered (fired n cb w)) = S (length (delivered w)) /\
           exists t, look (fired n cb w) = Some t /\ blocked t)) as [->|[-> _]]; [|lia..].
  induction n as [|n IH]; [by left|].
  change (fired (S n) cb w) with (world_of (cb (fired n cb w))).
  destruct IH as [IH|(IH & t & Ht & Hb)].
  - destruct (Hstep (fired n cb w)) as [Hd|(Hd & Hrow)].
    + left. by rewrite Hd.
    + right. by rewrite Hd, IH.
  - right. destruct (Hsilent _ t Ht Hb) as [Hd Hl]. rewrite Hd. eauto.
Qed.


End CallbacksOnce.

(** * The internal pipeline run twice *)

Section InternalTickSettles.
Import TaskInactivityScheduler TasksService.
Context (E : Env) (Hmono : monotone_clock E) (Hsms : sms_reliable E).

Lemma set_sched_cancelled_absent (k : string) (w : World) :
  timers (sched w) !! k = None -> set_sched (cancelled k) w = w.
Proof.
  intros H. unfold set_sched, cancelled. rewrite H. by destruct w.
Qed.

Lemma cancelled_other (k k' : string) (s : Scheduler) :
  k' <> k -> timers (cancelled k s) !! k' = timers s !! k'.
Proof.
  intros Hne. unfold cancelled. destruct (timers s !! k); [|done].
  simpl. by apply lookup_delete_ne.
Qed.

Lemma quiet_row_ext (u : Task) (s s' : Scheduler) :
  timers s' !! id u = timers s !! id u -> quiet_row E u s -> quiet_row E u s'.
Proof. intros H. unfold quiet_row. by rewrite H. Qed.

Lemma quiet_row_silent (u : Task) (w : World) :
  quiet_row E u (sched w) -> processInternalTask E u w = (Returned tt, w).
Proof.
  intros [Hs|[Hop|[(g & Hg & Ht)|[Hg Hc]]]]; unfold processInternalTask.
  - by rewrite bool_decide_eq_false_2.
  - destruct (bool_decide (status u = assigned)); cbn [negb]; [|done]. by rewrite Hop.
  - destruct (bool_decide (status u = assigned)); cbn [negb]; [|done].
    destruct (negb _ || negb _); [done|]. rewrite Hg.
    destruct (later_than _ g); cbn [orb] in Ht.
    + by rewrite cancel_eq, set_sched_cancelled_absent.
    + destruct (bool_decide (is_Some (inactive_sent_at u))).
      * by rewrite cancel_eq, set_sched_cancelled_absent.
      * rewrite scheduleInternalInactivityTimers_eq, Hg.
        by rewrite bool_decide_eq_true_2.
  - destruct (bool_decide (status u = assigned)); cbn [negb]; [|done].
    destruct (negb _ || negb _); [done|]. rewrite Hg.
    unfold bind at 1. rewrite sendSMS_eq. unfold sms_client_state. by rewrite Hc.
Qed.

Lemma client_ready (w : World) :
  TwilioConfig.validateConfig E = true -> sms_client_state E w = Returned true.
Proof.
  intros Hc. unfold sms_client_state. rewrite Hc. cbn [negb].
  destruct (sms_client w); [done|]. by rewrite (proj1 Hsms Hc).
Qed.

Lemma processInternalTask_step (t : Task) (w : World) :
  row (id t) w = Some t ->
  Uuid_fromString E (id t) = Returned (id t) ->
  (forall a, last_customer_activity_at t = Some a -> a <= Date_now E (io w)) ->
  exists w',
    processInternalTask E t w = (Returned tt, w') /\
    (exists u, row (id t) w' = Some u /\ quiet_row E u (sched w')) /\
    greets (id t) w w' /\
    (forall k, k <> id t -> timers (sched w') !! k = timers (sched w) !! k) /\
    (io w <= io w')%nat.
Proof.
  intros Ht Hread Ha.
  assert (forall q : quiet_row E t (sched w),
    exists w',
      processInternalTask E t w = (Returned tt, w') /\
      (exists u, row (id t) w' = Some u /\ quiet_row E u (sched w')) /\
      greets (id t) w w' /\
      (forall k, k <> id t -> timers (sched w') !! k = timers (sched w) !! k) /\
      (io w <= io w')%nat) as Hquiet.
  { intros q. exists w. split; [by apply quiet_row_silent|].
    split; [by exists t|]. split; [by left|]. split; [done|lia]. }
  destruct (decide (status t = assigned)) as [Hs|Hs]; [|apply Hquiet; by left].
  destruct (negb (truthy (operator_id t)) || negb (truthy (operator_name t))) eqn:Hop;
    [apply Hquiet; right; by left|].
  destruct (greeting_sent_at t) as [g|] eqn:Hg.
  - destruct (later_than (last_customer_activity_at t) g ||
              bool_decide (is_Some (inactive_sent_at t))) eqn:Hl.
    + exists (set_sched (cancelled (id t)) w). split.
      { unfold processInternalTask. rewrite bool_decide_eq_true_2 by done. cbn [negb].
        rewrite Hop, Hg. destruct (later_than _ g); cbn [orb] in Hl; [apply cancel_eq|].
        rewrite Hl. apply cancel_eq. }
      split.
      { exists t. split; [exact Ht|]. right; right; left. exists g.
        split; [done|]. rewrite Hl. apply cancelled_gone. }
      split; [by left|]. split; [|done].
      intros k Hk. by apply cancelled_other.
    + destruct (timers (sched w) !! id t) as [tm|] eqn:Htm.
      { apply Hquiet. right; right; left. exists g. split; [done|].
        rewrite Hl, Htm. by eexists. }
      eexists. split.
      { unfold processInternalTask. rewrite bool_decide_eq_true_2 by done. cbn [negb].
        rewrite Hop, Hg. apply orb_false_elim in Hl as [Hl1 Hl2]. rewrite Hl1, Hl2.
        rewrite scheduleInternalInactivityTimers_eq, Hg.
        rewrite bool_decide_eq_false_2 by (rewrite Htm; by intros [? ?]).
        apply schedule_eq. }
      split.
      { exists t. split; [exact Ht|]. right; right; left. exists g.
        split; [done|]. rewrite Hl. cbn. rewrite lookup_insert_eq. by eexists. }
      split; [by left|]. split; [|cbn; lia].
      intros k Hk. cbn. rewrite lookup_insert_ne by done. by apply cancelled_other.
  - destruct (TwilioConfig.validateConfig E) eqn:Hc;
      [|apply Hquiet; right; right; by right].
    set (w1 := sms_attempted E (customer_contact t)
                 (operatorHandoffMessage (customer_name t) (default "" (operator_name t))) w).
    set (f := TasksRepository.greeting_columns (Date_now E (S (io w)))
                (Date_now E (S (S (io w))))).
    set (w2 := written (id t) f (next_io w1)).
    assert (processInternalTask E t w =
            scheduleInternalInactivityTimers E (f t) w2) as Heq.
    { unfold processInternalTask. rewrite bool_decide_eq_true_2 by done. cbn [negb].
      rewrite Hop, Hg. unfold bind at 1.
      rewrite sendSMS_eq, (client_ready w Hc), (proj2 Hsms).
      cbv beta iota. cbn [negb]. unfold bind at 1. rewrite new_Date_eq. cbv beta iota.
      unfold bind at 1. rewrite (setGreetingSent_eq E (id t) (id t) _ _ Hread). fold w1.
      change (row (id t) (next_io w1)) with (row (id t) w). by rewrite Ht. }
    assert (row (id t) w2 = Some (f t)) as Hrow.
    { change (row (id t) w2) with (row (id t) (written (id t) f w)).
      apply find_update_hit; [done|exact Ht]. }
    assert (forall s, is_Some (timers s !! id t) -> quiet_row E (f t) s) as Hq.
    { intros s Hs'. right; right; left. exists (Date_now E (S (io w))). split; [done|].
      change (last_customer_activity_at (f t)) with (last_customer_activity_at t).
      change (inactive_sent_at (f t)) with (@None Z).
      rewrite bool_decide_eq_false_2 by (by intros [? ?]).
      assert (later_than (last_customer_activity_at t) (Date_now E (S (io w))) = false)
        as ->; [|done].
      destruct (later_than _ _) eqn:Hl; [|done].
      apply later_than_true in Hl as (a & Hla & Hlt). specialize (Ha a Hla).
      pose proof (Hmono (io w) (S (io w))). lia. }
    rewrite Heq, scheduleInternalInactivityTimers_eq.
    change (greeting_sent_at (f t)) with (Some (Date_now E (S (io w)))).
    cbv beta iota. change (id (f t)) with (id t). change (sched w2) with (sched w).
    destruct (timers (sched w) !! id t) as [tm|] eqn:Htm.
    + rewrite bool_decide_eq_true_2 by (by eexists). exists w2. split; [done|].
      split; [exists (f t); split; [exact Hrow|apply Hq; change (sched w2) with (sched w);
        rewrite Htm; by eexists]|].
      split; [right; by eexists _, _|]. split; [done|cbn; lia].
    + rewrite bool_decide_eq_false_2 by (by intros [? ?]). rewrite schedule_eq.
      eexists. split; [reflexivity|].
      split.
      { exists (f t). split; [exact Hrow|]. apply Hq. cbn.
        rewrite lookup_insert_eq. by eexists. }
      split; [right; by eexists _, _|]. split; [|cbn; lia].
      intros k Hk. cbn. rewrite lookup_insert_ne by done. by apply cancelled_other.
Qed.

Lemma greets_same_id_status (k : string) (w w' : World) :
  greets k w w' -> Forall2 same_id_status (tasks (db w)) (tasks (db w')).
Proof.
  intros [->|(g & now & ->)].
  - apply Forall_Forall2_diag, Forall_forall. by intros.
  - unfold TasksRepository.update_where_id. apply Forall2_fmap_r.
    apply Forall_Forall2_diag, Forall_forall. intros t _. unfold compose.
    by destruct (TasksRepository.has_id k t).
Qed.

Lemma greets_row_other (k k' : string) (w w' : World) :
  greets k w w' -> k' <> k -> row k' w' = row k' w.
Proof.
  intros [H|(g & now & H)] Hne; unfold row; rewrite H; [done|].
  by apply find_update_other.
Qed.

Lemma greets_activity (k : string) (w w' : World) :
  greets k w w' -> (io w <= io w')%nat ->
  activity_not_ahead E w -> activity_not_ahead E w'.
Proof.
  intros Hg Hio Hact t a Hin Ha.
  assert (exists t0, In t0 (tasks (db w)) /\
                     last_customer_activity_at t0 = last_customer_activity_at t)
    as (t0 & Hin0 & Ha0).
  { destruct Hg as [H|(g & now & H)]; rewrite H in Hin; [by exists t|].
    apply in_map_iff in Hin as (t0 & <- & Hin0). exists t0. split; [done|].
    by destruct (TasksRepository.has_id k t0). }
  rewrite <- Ha0 in Ha. specialize (Hact t0 a Hin0 Ha).
  pose proof (Hmono _ _ Hio). lia.
Qed.

Lemma same_id_status_trans (l1 l2 l3 : list Task) :
  Forall2 same_id_status l1 l2 -> Forall2 same_id_status l2 l3 ->
  Forall2 same_id_status l1 l3.
Proof.
  intros H. revert l3. induction H as [|x y l1 l2 [H1 H2] _ IH]; intros l3 H3.
  - by inversion H3.
  - inversion H3 as [|? z ? l3' [H4 H5] H6]; subst. constructor; [|by apply IH].
    split; congruence.
Qed.

Lemma same_id_status_ids (l l' : list Task) :
  Forall2 same_id_status l l' -> map id l' = map id l.
Proof. induction 1 as [|t t' l l' [Hi _] _ IH]; simpl; [done|]. by rewrite Hi, IH. Qed.

Lemma same_id_status_batch (n : nat) (l l' : list Task) :
  Forall2 same_id_status l l' ->
  Forall2 same_id_status
    (take n (filter (fun t => status t = assigned) l))
    (take n (filter (fun t => status t = assigned) l')).
Proof.
  intros H. apply Forall2_take.
  induction H as [|t t' l l' [Hi Hs] _ IH]; [constructor|].
  rewrite !filter_cons, Hs.
  destruct (decide (status t = assigned)); [|done]. by constructor.
Qed.

Lemma same_id_status_In_r (l l' : list Task) (u : Task) :
  Forall2 same_id_status l l' -> In u l' -> exists t, In t l /\ id u = id t.
Proof.
  induction 1 as [|t t' l l' [Hi _] _ IH]; simpl; [done|].
  intros [<-|Hin]; [exists t; by split; [left|]|].
  destruct (IH Hin) as (t0 & Hin0 & Hid). exists t0. split; [by right|done].
Qed.

Lemma batch_in (n : nat) (rows : list Task) (t : Task) :
  In t (take n (filter (fun t => status t = assigned) rows)) -> In t rows.
Proof.
  intros Hin. apply list_elem_of_In in Hin.
  apply elem_of_take in Hin as (i & Hin & _).
  apply list_elem_of_lookup_2, list_elem_of_filter in Hin as [_ Hin].
  by apply list_elem_of_In.
Qed.

Lemma batch_NoDup (n : nat) (rows : list Task) :
  NoDup (map id rows) ->
  NoDup (map id (take n (filter (fun t => status t = assigned) rows))).
Proof.
  intros H. eapply (sublist_NoDup _ (map id rows)); [exact H|].
  apply (fmap_sublist id). etrans; [apply sublist_take|apply sublist_filter].
Qed.

Lemma internal_loop_settles (l : list Task) (w : World) :
  NoDup (map id l) ->
  NoDup (map id (tasks (db w))) ->
  (forall t, In t l -> In t (tasks (db w))) ->
  (forall t, In t l -> Uuid_fromString E (id t) = Returned (id t)) ->
  activity_not_ahead E w ->
  exists w',
    for_of l (processInternalTask E) w = (Returned tt, w') /\
    Forall2 same_id_status (tasks (db w)) (tasks (db w')) /\
    (forall t, In t l -> exists u, row (id t) w' = Some u /\ quiet_row E u (sched w')) /\
    (forall k, ~ In k (map id l) ->
       row k w' = row k w /\ timers (sched w') !! k = timers (sched w) !! k).
Proof.
  revert w. induction l as [|t l IH]; intros w Hl Hnd Hin Hread Hact.
  { exists w. split; [done|]. split; [|by split].
    apply Forall_Forall2_diag, Forall_forall. by intros. }
  simpl in Hl. apply NoDup_cons in Hl as [Hfresh Hl].
  assert (row (id t) w = Some t) as Ht.
  { apply find_unique; [done|apply Hin; by left|done]. }
  destruct (processInternalTask_step t w Ht) as (w1 & Hrun & (u & Hu & Hq) & Hg & Htm & Hio).
  { apply Hread. by left. }
  { intros a Ha. apply (Hact t a); [apply Hin; by left|done]. }
  pose proof (greets_same_id_status _ _ _ Hg) as Hrel.
  destruct (IH w1) as (w' & Hloop & Hrel' & Hquiet & Hframe).
  - done.
  - by rewrite (same_id_status_ids _ _ Hrel).
  - intros t' Hin'.
    assert (id t' <> id t) as Hne.
    { intros Heq. apply Hfresh. rewrite <- Heq. apply list_elem_of_In. by apply in_map. }
    assert (row (id t') w1 = Some t') as Hrow.
    { rewrite (greets_row_other _ _ _ _ Hg Hne).
      apply find_unique; [done|apply Hin; by right|done]. }
    by apply find_has_id in Hrow as [_ ?].
  - intros t' Hin'. apply Hread. by right.
  - by apply (greets_activity _ _ _ Hg).
  - exists w'. split; [simpl; unfold bind; by rewrite Hrun|].
    split; [by apply (same_id_status_trans _ (tasks (db w1)))|]. split.
    + intros t' [<-|Hin']; [|by apply Hquiet].
      destruct (Hframe (id t)) as [Hr Hs]; [by rewrite <- list_elem_of_In|].
      exists u. split; [by rewrite Hr|]. apply find_has_id in Hu as [Hid _].
      apply (quiet_row_ext u (sched w1)); [by rewrite Hid|done].
    + intros k Hk. simpl in Hk.
      assert (k <> id t) as Hne by (intros ->; apply Hk; by left).
      destruct (Hframe k) as [Hr Hs]; [intros Hk'; apply Hk; by right|].
      split; [by rewrite Hr; apply (greets_row_other _ _ _ _ Hg)|].
      by rewrite Hs; apply Htm.
Qed.

Lemma for_of_silent {A : Type} (l : list A) (body : A -> M unit) (w : World) :
  (forall x, In x l -> body x w = (Returned tt, w)) ->
  for_of l body w = (Returned tt, w).
Proof.
  induction l as [|x l IH]; intros H; simpl; [done|].
  unfold bind. rewrite (H x) by (by left). apply IH. intros y Hy. apply H. by right.
Qed.

(** After one run of the pipeline every row of the next batch is quiet. *)
Lemma internal_pipeline_quiet (w : World) :
  NoDup (map id (tasks (db w))) ->
  ids_read_back E w ->
  activity_not_ahead E w ->
  exists w1,
    autoProcessInternalAssignedTasks E w = (Returned tt, w1) /\
    forall u,
      In u (take (Z.to_nat (TasksRepository.normalizeLimit
                              (number_or (TASKS_AUTO_BATCH_SIZE E) (of_Z 100)) 1000))
              (filter (fun t => status t = assigned) (tasks (db w1)))) ->
      quiet_row E u (sched w1).
Proof.
  intros Hnd Hread Hact.
  set (n := Z.to_nat (TasksRepository.normalizeLimit
                        (number_or (TASKS_AUTO_BATCH_SIZE E) (of_Z 100)) 1000)).
  assert (autoProcessInternalAssignedTasks E w =
            for_of (take n (filter (fun t => status t = assigned) (tasks (db w))))
                   (processInternalTask E) w) as Hauto by done.
  destruct (internal_loop_settles
              (take n (filter (fun t => status t = assigned) (tasks (db w)))) w)
    as (w1 & Hloop & Hrel & Hquiet & _);
    [by apply batch_NoDup|done|intros t; apply batch_in|
     intros t Ht; apply Hread; by apply batch_in in Ht|done|].
  exists w1. split; [by rewrite Hauto|]. intros u Hu.
  destruct (same_id_status_In_r _ _ u (same_id_status_batch n _ _ Hrel) Hu)
    as (t & Ht & Hid).
  destruct (Hquiet t Ht) as (u' & Hu' & Hq).
  assert (row (id t) w1 = Some u) as Hrow.
  { apply find_unique; [by rewrite (same_id_status_ids _ _ Hrel)| |done].
    by apply batch_in in Hu. }
  by replace u with u' by congruence.
Qed.

(** X19. With a clock that does not go back, an SDK that builds its client
    and a provider that accepts every SMS, unique task ids which the driver
    reads back as the uuids of their rows, and no activity mark ahead of the
    clock, the internal pipeline returns, and a second run right after the
    first changes nothing at all: no message, no write, no timer armed or
    cancelled. *)
Theorem internal_pipeline_second_run_is_silent (w : World) :
  NoDup (map id (tasks (db w))) ->
  ids_read_back E w ->
  activity_not_ahead E w ->
  let w1 := world_of (autoProcessInternalAssignedTasks E w) in
  value_of (autoProcessInternalAssignedTasks E w) = Returned tt /\
  autoProcessInternalAssignedTasks E w1 = (Returned tt, w1).
Proof.
  intros Hnd Hread Hact w1. subst w1.
  destruct (internal_pipeline_quiet w Hnd Hread Hact) as (w1 & -> & Hquiet).
  unfold value_of, world_of. cbn [fst snd]. split; [done|].
  change (autoProcessInternalAssignedTasks E w1)
    with (for_of (take (Z.to_nat (TasksRepository.normalizeLimit
                                    (number_or (TASKS_AUTO_BATCH_SIZE E) (of_Z 100)) 1000))
                    (filter (fun t => status t = assigned) (tasks (db w1))))
            (processInternalTask E) w1).
  apply for_of_silent. intros u Hu. apply quiet_row_silent. by apply Hquiet.
Qed.

End InternalTickSettles.

Lemma demo_sms_reliable : sms_reliable demo_env.
Proof. split; [reflexivity|by intros i body from to]. Qed.

(** The instance of X19: two assigned tasks, one of them not greeted yet. *)
Lemma internal_pipeline_second_run_is_silent_witness :
  let w := with_tasks [ana_assigned; ana_second] 1 in
  let w1 := world_of (TasksService.autoProcessInternalAssignedTasks demo_env w) in
  value_of (TasksService.autoProcessInternalAssignedTasks demo_env w) = Returned tt /\
  TasksService.autoProcessInternalAssignedTasks demo_env w1 = (Returned tt, w1).
Proof.
  intros w.
  apply (internal_pipeline_second_run_is_silent demo_env demo_clock_monotone
           demo_sms_reliable w).
  - apply (bool_decide_unpack _). vm_compute. exact I.
  - intros t _. reflexivity.
  - intros t a [<-|[<-|[]]]; discriminate.
Defined.

(** * Which participant the automation writes as *)

Section Participants.
Import TasksService.
Context (E : Env).

Lemma first_identity_sound (test : Participant -> string -> option bool)
    (ps : list Participant) (i : string) :
  first_identity test ps = Some (Some i) ->
  i <> "" /\ exists p, In p ps /\ trimmed_identity p = i /\ test p i = Some true.
Proof.
  induction ps as [|p ps IH]; simpl; [done|].
  destruct (nonempty (trimmed_identity p)) eqn:Hne; simpl.
  - destruct (test p (trimmed_identity p)) as [[|]|] eqn:Ht; [| |done].
    + intros [= <-]. split; [by apply nonempty_true|]. exists p. by split; [left|].
    + intros H. destruct (IH H) as (Hi & q & Hq & Hrest). split; [done|].
      exists q. by split; [right|].
  - intros H. destruct (IH H) as (Hi & q & Hq & Hrest). split; [done|].
    exists q. by split; [right|].
Qed.

Lemma first_identity_complete (test : Participant -> string -> bool)
    (ps : list Participant) (p : Participant) :
  In p ps -> trimmed_identity p <> "" -> test p (trimmed_identity p) = true ->
  exists q, In q ps /\ test q (trimmed_identity q) = true /\
    first_identity (fun p i => Some (test p i)) ps = Some (Some (trimmed_identity q)).
Proof.
  intros Hin Hne Ht. induction ps as [|a ps IH]; simpl; [done|].
  destruct (nonempty (trimmed_identity a)) eqn:Ha; simpl.
  - destruct (test a (trimmed_identity a)) eqn:Hta.
    + exists a. by split; [left|].
    + destruct Hin as [->|Hin]; [congruence|].
      destruct (IH Hin) as (q & Hq & Hrest). exists q. by split; [right|].
  - destruct Hin as [->|Hin].
    { apply nonempty_true in Hne. congruence. }
    destruct (IH Hin) as (q & Hq & Hrest). exists q. by split; [right|].
Qed.

Lemma candidateIdentities_sound (markers : list string) (ps : list Participant)
    (i : string) :
  In i (candidateIdentities markers ps) ->
  i <> "" /\
  exists p, In p ps /\ trimmed_identity p = i /\ isCustomerParticipant markers p = false.
Proof.
  induction ps as [|p ps IH]; simpl; [done|].
  assert (In i (candidateIdentities markers ps) ->
          i <> "" /\
          exists q, (p = q \/ In q ps) /\ trimmed_identity q = i /\
                    isCustomerParticipant markers q = false) as Hrest.
  { intros H. destruct (IH H) as (Hi & q & Hq & Hr). split; [done|].
    exists q. by split; [right|]. }
  destruct (nonempty (trimmed_identity p)) eqn:Hne; simpl; [|done].
  destruct (isCustomerParticipant markers p) eqn:Hc; [done|].
  intros [<-|H]; [|by apply Hrest].
  split; [by apply nonempty_true|]. exists p. by split; [left|].
Qed.

Lemma rule_cases (P : Prop) (r k : option (option string)) (i : string) :
  (r = Some (Some i) -> P) ->
  (k = Some (Some i) -> P) ->
  r ≫= (fun r1 => match r1 with Some ident => Some (Some ident) | None => k end)
    = Some (Some i) -> P.
Proof. destruct r as [[x|]|]; simpl; auto; done. Qed.

(** X20. Whatever rule selects it, the identity the automation writes under
    is the trimmed, non-empty identity of one of the listed participants;
    nothing is made up from the hints. *)
Theorem resolved_identity_is_a_participant (ps : list Participant)
    (workerSid : option string) (hints : Hints) (i : string) :
  resolve_among E ps workerSid hints = Some (Some i) ->
  i <> "" /\ exists p, In p ps /\ trimmed_identity p = i.
Proof.
  assert (forall (c : bool) test,
            (if c then first_identity test ps else Some None) = Some (Some i) ->
            i <> "" /\ exists p, In p ps /\ trimmed_identity p = i) as Hfirst.
  { intros [|] test H; [|done].
    destruct (first_identity_sound test ps i H) as (Hi & p & Hp & Ht & _). eauto. }
  unfold resolve_among. cbv zeta.
  apply rule_cases; [apply (Hfirst true)|].
  apply rule_cases; [apply Hfirst|].
  apply rule_cases; [apply Hfirst|].
  apply rule_cases; [apply Hfirst|].
  destruct (candidateIdentities _ ps) as [|c [|? ?]] eqn:Hc; [done| |done].
  intros [= <-].
  destruct (candidateIdentities_sound (customerMarkers hints) ps c)
    as (Hi & p & Hp & Ht & _); [rewrite Hc; by left|eauto].
Qed.

(** X21. A participant whose identity is the worker sid, up to surrounding
    blanks and letter case, is selected before every other rule is tried:
    the result is such an identity whatever the name and customer hints say
    and whatever the attributes of the participants hold. *)
Theorem worker_sid_identity_has_priority (ps : list Participant)
    (workerSid : option string) (hints : Hints) (p : Participant) :
  normalize workerSid <> "" ->
  In p ps ->
  normalize (Some (trimmed_identity p)) = normalize workerSid ->
  exists i,
    resolve_among E ps workerSid hints = Some (Some i) /\
    normalize (Some i) = normalize workerSid.
Proof.
  intros Hsid Hin Hp.
  assert (trimmed_identity p <> "") as Hne.
  { intros H0. rewrite H0 in Hp. by rewrite <- Hp in Hsid. }
  destruct (first_identity_complete
              (fun _ ident =>
                 nonempty (normalize workerSid) &&
                 bool_decide (normalize (Some ident) = normalize workerSid))
              ps p Hin Hne) as (q & Hq & Htest & Hfirst).
  { apply nonempty_true in Hsid as ->. by rewrite bool_decide_eq_true_2. }
  exists (trimmed_identity q). split.
  - unfold resolve_among. cbv zeta. by rewrite Hfirst.
  - apply andb_true_iff in Htest as [_ Htest]. by apply bool_decide_eq_true in Htest.
Qed.

Lemma first_identity_never (ps : list Participant) :
  first_identity (fun _ _ => Some false) ps = Some None.
Proof.
  induction ps as [|p ps IH]; simpl; [done|].
  by destruct (negb (nonempty (trimmed_identity p))).
Qed.

(** X22. Without a worker sid and without a worker name, the identity is
    chosen by elimination: it is returned exactly when one participant with
    an identity is left after those matching a customer marker are set
    aside; with none or several left over, no identity is returned. *)
Theorem identity_by_elimination (ps : list Participant) (workerSid : option string)
    (hints : Hints) :
  normalize workerSid = "" ->
  normalize (h_workerName hints) = "" ->
  forall i,
    resolve_among E ps workerSid hints = Some (Some i) <->
    candidateIdentities (customerMarkers hints) ps = [i].
Proof.
  intros Hsid Hname i. unfold resolve_among. cbv zeta. rewrite Hsid, Hname.
  change (nonempty "") with false. cbn [andb].
  rewrite first_identity_never. simpl.
  destruct (candidateIdentities _ ps) as [|c [|? ?]]; split; intros H;
    try done; by injection H as ->.
Qed.

End Participants.

(** The instance of X20 and X21: Bia joined as " WK1 ", her worker sid is
    "wk1". *)
Lemma resolved_identity_is_a_participant_witness :
  "WK1" <> "" /\
  exists p, In p [ana_participant; bia_participant] /\ TasksService.trimmed_identity p = "WK1".
Proof.
  apply (resolved_identity_is_a_participant demo_env [ana_participant; bia_participant]
           (Some "wk1") (TasksService.mkHints None None None) "WK1").
  vm_compute. reflexivity.
Defined.

Lemma worker_sid_identity_has_priority_witness :
  exists i,
    TasksService.resolve_among demo_env [ana_participant; bia_participant] (Some "wk1")
      (TasksService.mkHints (Some "whatsapp:+5501") None None) = Some (Some i) /\
    TasksService.normalize (Some i) = TasksService.normalize (Some "wk1").
Proof.
  apply (worker_sid_identity_has_priority demo_env [ana_participant; bia_participant]
           (Some "wk1") (TasksService.mkHints (Some "whatsapp:+5501") None None)
           bia_participant).
  - vm_compute. discriminate.
  - right. by left.
  - vm_compute. reflexivity.
Defined.

(** The instance of X22: with the customer's address as a hint, Bia is the
    one participant left. *)
Lemma identity_by_elimination_witness :
  TasksService.resolve_among demo_env [ana_participant; bia_participant] None
    (TasksService.mkHints None (Some "whatsapp:+5501") None) = Some (Some "WK1").
Proof.
  apply (identity_by_elimination demo_env [ana_participant; bia_participant] None
           (TasksService.mkHints None (Some "whatsapp:+5501") None)
           eq_refl eq_refl "WK1").
  vm_compute. reflexivity.
Defined.

(** * Names and the workspace: what is resolved once is kept *)

Section Names.
Import TasksService.
Context (E : Env).

Lemma first_nonblank_nonempty (l : list (option json)) (s : string) :
  first_nonblank l = Some s -> s <> "".
Proof.
  induction l as [|c l IH]; simpl; [done|].
  destruct (as_string c) as [x|]; [|done].
  destruct (nonempty (trim x)) eqn:Hx; [|done].
  intros [= <-]. by apply nonempty_true.
Qed.

Lemma trim_nonempty (s : string) : trim s <> "" -> s <> "".
Proof. by intros H ->. Qed.

Lemma resolveWorkerDisplayName_hit (ws sid fb name : string) (w : World) :
  trim sid <> "" ->
  workerNameCache (svc w) !! sid = Some name ->
  name <> "" ->
  resolveWorkerDisplayName E ws (Some sid) fb w = (Returned name, w).
Proof.
  intros Hsid Hc Hname. unfold resolveWorkerDisplayName. cbv zeta.
  apply trim_nonempty in Hsid as Hsid'.
  apply nonempty_true in Hsid as ->. apply nonempty_true in Hsid' as ->. cbn [negb orb].
  unfold bind, gets. rewrite Hc. cbn [truthy default].
  by apply nonempty_true in Hname as ->.
Qed.

Lemma resolveWorkerDisplayName_caches (ws sid fb : string) (w : World) :
  trim sid <> "" ->
  exists name w',
    resolveWorkerDisplayName E ws (Some sid) fb w = (Returned name, w') /\
    name <> "" /\
    workerNameCache (svc w') !! sid = Some name /\
    db w' = db w /\ sched w' = sched w /\ sent w' = sent w.
Proof.
  intros Hsid.
  destruct (truthy (workerNameCache (svc w) !! sid)) eqn:Hhit.
  { apply truthy_true in Hhit as (c & Hc & Hne). exists c, w.
    by rewrite (resolveWorkerDisplayName_hit ws sid fb c w). }
  assert (forall name,
    name <> "" ->
    exists w',
      (workerNameCache_set sid name ;; ret name)%M (next_io w) = (Returned name, w') /\
      name <> "" /\
      workerNameCache (svc w') !! sid = Some name /\
      db w' = db w /\ sched w' = sched w /\ sent w' = sent w) as Hset.
  { intros name Hname. eexists. split; [reflexivity|]. split; [done|].
    split; [cbn; apply lookup_insert_eq|done]. }
  assert ((if nonempty (trim fb) then trim fb else "Atendente") <> "") as Hfb.
  { destruct (nonempty (trim fb)) eqn:Hf; [by apply nonempty_true|done]. }
  unfold resolveWorkerDisplayName. cbv zeta.
  apply trim_nonempty in Hsid as Hsid'.
  apply nonempty_true in Hsid as ->. apply nonempty_true in Hsid' as ->. cbn [negb orb].
  unfold bind at 1, gets. cbv beta iota. rewrite Hhit.
  unfold bind at 1, interact. cbv beta iota.
  destruct (workers_fetch E (io w) ws sid) as [worker|]; cbn [mbind option_bind];
    [|exists (if nonempty (trim fb) then trim fb else "Atendente"); by apply Hset].
  destruct (pickWorkerNameFromAttributes _) as [[fromAttrs|]|] eqn:Hpick;
    cbn [mbind option_bind].
  - exists fromAttrs. apply Hset. unfold pickWorkerNameFromAttributes, pick_from in Hpick.
    destruct (prop _ "full_name") as [c1|]; [|done].
    destruct (prop _ "fullName") as [c2|]; [|done].
    destruct (prop _ "fullname") as [c3|]; [|done].
    destruct (prop _ "name") as [c4|]; [|done].
    cbn [mbind option_bind] in Hpick.
    assert (first_nonblank [c1; c2; c3; c4] = Some fromAttrs) as Hfirst by congruence.
    by apply first_nonblank_nonempty in Hfirst.
  - destruct (wk_friendlyName worker) as [f|];
      [|exists (if nonempty (trim fb) then trim fb else "Atendente"); by apply Hset].
    destruct (nonempty (trim f)) eqn:Hf;
      [|exists (if nonempty (trim fb) then trim fb else "Atendente"); by apply Hset].
    exists (trim f). apply Hset. by apply nonempty_true.
  - exists (if nonempty (trim fb) then trim fb else "Atendente"). by apply Hset.
Qed.

(** X23. Asked for the display name of a worker sid, the service answers
    with a non-empty name and remembers it under the sid, also when the
    lookup failed and the name is only the fallback: every later request for
    that sid gets the same name, whatever workspace and fallback it passes,
    and changes nothing. *)
Theorem worker_name_is_memoised (ws sid fb : string) (w : World) :
  trim sid <> "" ->
  exists name w',
    resolveWorkerDisplayName E ws (Some sid) fb w = (Returned name, w') /\
    name <> "" /\
    forall ws' fb',
      resolveWorkerDisplayName E ws' (Some sid) fb' w' = (Returned name, w').
Proof.
  intros Hsid.
  destruct (resolveWorkerDisplayName_caches ws sid fb w Hsid)
    as (name & w' & Hrun & Hname & Hcache & _).
  exists name, w'. split; [done|]. split; [done|].
  intros ws' fb'. by apply resolveWorkerDisplayName_hit.
Qed.

(** X24. A workspace sid that was resolved, from the environment or from the
    listing, is kept: the next resolution returns it without asking the
    provider again. *)
Theorem workspace_sid_is_memoised (s : string) (w w' : World) :
  resolveWorkspaceSid E w = (Returned (Some s), w') ->
  s <> "" ->
  resolveWorkspaceSid E w' = (Returned (Some s), w').
Proof.
  intros Hrun Hs.
  assert (workspaceSid (svc w') = Some s) as Hcached.
  { revert Hrun. unfold resolveWorkspaceSid, bind at 1, gets. cbv beta iota.
    destruct (truthy (workspaceSid (svc w))) eqn:Hcur.
    { intros [= Hv <-]. exact Hv. }
    destruct (truthy (TWILIO_TASKROUTER_WORKSPACE_SID E)) eqn:Henv.
    { intros [= Hv <-]. exact Hv. }
    unfold bind at 1, interact. cbv beta iota.
    destruct (workspaces_list E (io w)) as [[|w0 [|w1 l]]|]; [| | |done].
    - cbn. intros H. by injection H.
    - intros [= <- <-]. done.
    - destruct (List.filter _ _) as [|f0 [|f1 fl]]; [by intros [= ? ?]| |by intros [= ? ?]].
      intros [= <- <-]. done. }
  unfold resolveWorkspaceSid, bind at 1, gets. cbv beta iota. rewrite Hcached.
  cbn [truthy]. by apply nonempty_true in Hs as ->.
Qed.

(** X25. The customer name read from the task attributes is never empty:
    it is the trimmed [customers.name], [friendlyName] or [from], the first
    of them that is a non-blank string, and "cliente" when there is none. *)
Theorem customer_name_never_blank (attrs : json) (name : string) :
  pickCustomerName attrs = Some name ->
  name <> "" /\
  (forall fields cf s,
     attrs = JObj fields -> assoc "customers" fields = Some (JObj cf) ->
     assoc "name" cf = Some (JStr s) -> trim s <> "" -> name = trim s) /\
  (forall fields,
     attrs = JObj fields ->
     as_string (assoc "friendlyName" fields) = None ->
     as_string (assoc "from" fields) = None ->
     (forall cf, assoc "customers" fields = Some (JObj cf) ->
                 as_string (assoc "name" cf) = None) ->
     name = "cliente").
Proof.
  unfold pickCustomerName.
  destruct attrs as [| | | | |fields]; try done; cbn [prop mbind option_bind].
  all: try (intros [= <-]; split; [done|]; split; by intros).
  destruct (first_nonblank _) as [x|] eqn:Hx; intros [= <-].
  - split; [by apply first_nonblank_nonempty in Hx|]. split.
    + intros fields' cf s [= <-] Hc Hn Hs. rewrite Hc, Hn in Hx. cbn in Hx.
      apply nonempty_true in Hs. rewrite Hs in Hx. by injection Hx.
    + intros fields' [= <-] Hf Hfrom Hc. exfalso. revert Hx. cbn.
      assert (as_string
                match assoc "customers" fields with
                | Some (JObj fields0) => assoc "name" fields0
                | _ => None
                end = None) as ->.
      { destruct (assoc "customers" fields) as [[| | | | |cf]|]; try done. by apply Hc. }
      by rewrite Hf, Hfrom.
  - split; [done|]. split; [|done].
    intros fields' cf s [= <-] Hc Hn Hs. rewrite Hc, Hn in Hx. cbn in Hx.
    apply nonempty_true in Hs. by rewrite Hs in Hx.
Qed.

End Names.

(** The instance of X23: the lookup of "WK1" fails, the fallback is kept. *)
Lemma worker_name_is_memoised_witness :
  exists name w',
    TasksService.resolveWorkerDisplayName demo_env "WS1" (Some "WK1") " Bia " empty_world =
      (Returned name, w') /\
    name <> "" /\
    forall ws' fb',
      TasksService.resolveWorkerDisplayName demo_env ws' (Some "WK1") fb' w' =
        (Returned name, w').
Proof.
  apply (worker_name_is_memoised demo_env "WS1" "WK1" " Bia " empty_world).
  vm_compute. discriminate.
Defined.

(** The instance of X24: the workspace of the environment. *)
Lemma workspace_sid_is_memoised_witness :
  let w' := world_of (TasksService.resolveWorkspaceSid demo_env empty_world) in
  TasksService.resolveWorkspaceSid demo_env w' = (Returned (Some "WS1"), w').
Proof.
  apply (workspace_sid_is_memoised demo_env "WS1" empty_world).
  - vm_compute. reflexivity.
  - discriminate.
Defined.

(** The instance of X25: the name under [customers] is trimmed and taken. *)
Lemma customer_name_never_blank_witness :
  let attrs := JObj [("customers", JObj [("name", JStr " Ana ")]); ("from", JStr "+5501")] in
  "Ana" <> "" /\
  (forall fields cf s,
     attrs = JObj fields -> assoc "customers" fields = Some (JObj cf) ->
     assoc "name" cf = Some (JStr s) -> trim s <> "" -> "Ana" = trim s) /\
  (forall fields,
     attrs = JObj fields ->
     as_string (assoc "friendlyName" fields) = None ->
     as_string (assoc "from" fields) = None ->
     (forall cf, assoc "customers" fields = Some (JObj cf) ->
                 as_string (assoc "name" cf) = None) ->
     "Ana" = "cliente").
Proof.
  apply (customer_name_never_blank
           (JObj [("customers", JObj [("name", JStr " Ana ")]); ("from", JStr "+5501")])
           "Ana").
  vm_compute. reflexivity.
Defined.

(** * The timer callbacks of flex tasks *)

Section FlexCallbacks.
Import TaskInactivityScheduler TasksService.
Context (E : Env).

Lemma getTwilioClient_cases (w : World) :
  (exists b w',
     getTwilioClient E w = (Returned b, w') /\
     db w' = db w /\ sched w' = sched w /\ sent w' = sent w) \/
  (exists e, getTwilioClient E w = (Thrown e, w)).
Proof.
  unfold getTwilioClient, bind, gets, modify, ret, call.
  destruct (twilioClient (svc w)); [left; by eexists _, _|].
  destruct (negb _ || negb _); [left; by eexists _, _|].
  destruct (Twilio E _ _) as [[]|e]; [left; by eexists _, _|right; by eexists].
Qed.

Lemma resolveWorkerParticipantIdentity_cases (conv : string) (ws : option string)
    (h : Hints) (w : World) :
  exists r, resolveWorkerParticipantIdentity E conv ws h w = (Returned r, next_io w).
Proof.
  unfold resolveWorkerParticipantIdentity, bind, interact, ret.
  destruct (participants_list E (io w) conv) as [ps|]; [|by eexists].
  destruct (resolve_among E ps ws h); by eexists.
Qed.

Lemma sendConversationMessage_cases (conv body : string) (author : option string)
    (w : World) :
  (exists ok w',
     sendConversationMessage E conv body author w = (Returned ok, w') /\
     db w' = db w /\ sched w' = sched w /\
     if ok then length (delivered w') = S (length (delivered w))
     else delivered w' = delivered w) \/
  (exists e, sendConversationMessage E conv body author w = (Thrown e, w)).
Proof.
  destruct (getTwilioClient_cases w) as [(b & w1 & Hc & Hdb & Hsched & Hsent)|(e & Hc)].
  2: { right. exists e. unfold sendConversationMessage, bind. by rewrite Hc. }
  left. unfold sendConversationMessage. unfold bind at 1. rewrite Hc.
  destruct b; cbn [negb]; cbv beta iota.
  2: { exists false, w1. unfold delivered. by rewrite Hsent. }
  unfold bind, interact, modify, ret. cbv beta iota.
  eexists _, _. split; [reflexivity|]. cbn. split; [done|]. split; [done|].
  unfold delivered. cbn. rewrite Hsent, List.filter_app. cbn.
  destruct (conversation_messages_create E (io w1) conv _ body).
  - rewrite length_app. simpl. lia.
  - by rewrite app_nil_r.
Qed.

Lemma findByTaskSid_missing (sid : string) (w : World) :
  flex_tasks (db w) !! sid = None ->
  FlexTasksRepository.findByTaskSid E sid w = (Returned None, w).
Proof.
  intros H. unfold FlexTasksRepository.findByTaskSid, bind, gets. by rewrite H.
Qed.

Lemma flex_ping_blocked_silent (sid : string) (r : FlexRow.t) (w : World) :
  flex_tasks (db w) !! sid = Some r -> flex_ping_blocked r ->
  exists w', sendFlexPingIfInactive E sid w = (Returned tt, w') /\ only_clock_read w w'.
Proof.
  intros Hr Hb. unfold sendFlexPingIfInactive, bind at 1.
  destruct (findByTaskSid_marks E sid r w Hr)
    as (st & w0 & -> & Hdb & Hsched & Hsent & Hsvc & _ & _ & Hconv & _ & _ & _ & _ & _
        & Hg & Hp & _ & Ha).
  cbv beta iota. rewrite Hg, Hp, Hconv, Ha. exists w0. split; [|done].
  destruct Hb as [Hb|[Hb|[Hb|(g & a & Hb & Hb' & Hlt)]]].
  - by rewrite Hb.
  - destruct (FlexRow.greeting_sent_at r); [|done]. by rewrite bool_decide_eq_true_2.
  - destruct (FlexRow.greeting_sent_at r); [|done].
    destruct (bool_decide _); [done|]. by rewrite Hb.
  - rewrite Hb, Hb'. destruct (bool_decide _); [done|].
    destruct (negb _); [done|].
    assert (later_than (Some a) g = true) as ->; [|done].
    apply later_than_true. eauto.
Qed.

Lemma flex_close_blocked_silent (sid : string) (r : FlexRow.t) (w : World) :
  flex_tasks (db w) !! sid = Some r -> flex_close_blocked r ->
  exists w', sendFlexInactiveAndClose E sid w = (Returned tt, w') /\ only_clock_read w w'.
Proof.
  intros Hr Hb. unfold sendFlexInactiveAndClose, bind at 1.
  destruct (findByTaskSid_marks E sid r w Hr)
    as (st & w0 & -> & Hdb & Hsched & Hsent & Hsvc & _ & _ & Hconv & _ & _ & _ & _ & _
        & Hg & _ & Hi & Ha).
  cbv beta iota. rewrite Hg, Hi, Hconv, Ha. exists w0. split; [|done].
  destruct Hb as [Hb|[Hb|[Hb|(g & a & Hb & Hb' & Hlt)]]].
  - by rewrite Hb.
  - destruct (FlexRow.greeting_sent_at r); [|done]. by rewrite bool_decide_eq_true_2.
  - destruct (FlexRow.greeting_sent_at r); [|done].
    destruct (bool_decide _); [done|]. by rewrite Hb.
  - rewrite Hb, Hb'. destruct (bool_decide _); [done|].
    destruct (negb _); [done|].
    assert (later_than (Some a) g = true) as ->; [|done].
    apply later_than_true. eauto.
Qed.

(** X26. A flex timer callback that finds no row, no greeting mark, its own
    mark already set, no conversation or customer activity later than the
    greeting returns without sending or writing anything: at most clock
    readings took place. *)
Theorem flex_callbacks_silent_when_blocked (sid : string) (w : World) :
  match flex_tasks (db w) !! sid with
  | None =>
      sendFlexPingIfInactive E sid w = (Returned tt, w) /\
      sendFlexInactiveAndClose E sid w = (Returned tt, w)
  | Some r =>
      (flex_ping_blocked r ->
       exists w', sendFlexPingIfInactive E sid w = (Returned tt, w') /\
                  only_clock_read w w') /\
      (flex_close_blocked r ->
       exists w', sendFlexInactiveAndClose E sid w = (Returned tt, w') /\
                  only_clock_read w w')
  end.
Proof.
  destruct (flex_tasks (db w) !! sid) as [r|] eqn:Hr.
  - split; intros Hb; [by apply (flex_ping_blocked_silent sid r)|
                       by apply (flex_close_blocked_silent sid r)].
  - unfold sendFlexPingIfInactive, sendFlexInactiveAndClose, bind.
    by rewrite (findByTaskSid_missing sid w Hr).
Qed.

Lemma delivered_sent (w w' : World) : sent w' = sent w -> delivered w' = delivered w.
Proof. unfold delivered. by intros ->. Qed.

Lemma flex_ping_one_shot (sid : string) (w : World) :
  one_shot (fun w => flex_tasks (db w) !! sid) flex_ping_blocked
    (sendFlexPingIfInactive E sid) w.
Proof.
  unfold one_shot. cbv zeta.
  destruct (flex_tasks (db w) !! sid) as [r|] eqn:Hr.
  2: { left. unfold sendFlexPingIfInactive, bind.
       by rewrite (findByTaskSid_missing sid w Hr). }
  unfold sendFlexPingIfInactive. rewrite bind_world.
  destruct (findByTaskSid_marks E sid r w Hr)
    as (st & w0 & -> & Hdb & Hsched & Hsent & Hsvc & _ & _ & Hconv & _ & _ & _ & _ & _
        & Hg & Hp & _ & Ha).
  apply delivered_sent in Hsent as Hd0. rewrite <- Hd0. clear Hd0 Hsent.
  destruct (FlexTaskState.greeting_sent_at st) as [g|]; [|by left].
  destruct (bool_decide _); [by left|].
  destruct (negb (truthy _)); [by left|].
  destruct (later_than _ g); [by left|].
  cbv zeta. rewrite bind_world.
  destruct (getTwilioClient_cases w0) as [(b & w1 & -> & _ & _ & Hsent1)|(e & ->)];
    [|by left].
  apply delivered_sent in Hsent1 as Hd1. rewrite <- Hd1. clear Hd1 Hsent1.
  destruct b; cbn [negb]; [|by left].
  rewrite bind_world.
  destruct (resolveWorkerParticipantIdentity_cases
              (default "" (FlexTaskState.conversation_sid st))
              (FlexTaskState.worker_sid st)
              (mkHints (FlexTaskState.worker_name st) (FlexTaskState.customer_address st)
                 (FlexTaskState.customer_from st)) w1) as (ident & ->).
  change (delivered w1) with (delivered (next_io w1)).
  destruct (truthy ident); cbn [negb]; [|by left].
  rewrite bind_world.
  destruct (sendConversationMessage_cases
              (default "" (FlexTaskState.conversation_sid st))
              (stillInChatMessage (or_string (FlexTaskState.customer_name st) "cliente"))
              ident (next_io w1)) as [(ok & w3 & -> & _ & _ & Hd3)|(e & ->)];
    [|by left].
  destruct ok; cbn [negb]; [|by left].
  right. unfold world_of, bind, new_Date, bind, interact, ret,
    FlexTasksRepository.markPingSent, bind, new_Date, bind, interact, ret,
    FlexTasksRepository.execute_upsert, modify. cbn [snd fst].
  split; [exact Hd3|]. cbn. rewrite lookup_insert_eq. eexists. split; [done|].
  right; left. by eexists.
Qed.

Global Instance no_delivery_refl : Reflexive no_delivery.
Proof. by intros w. Qed.

Global Instance no_delivery_trans : Transitive no_delivery.
Proof. intros a b c [H1 H2] [H3 H4]. split; congruence. Qed.

Lemma interact_no_delivery : preserves no_delivery interact.
Proof. by intros w. Qed.

Lemma svc_no_delivery (f : Service -> Service) : preserves no_delivery (modify (set_svc f)).
Proof. by intros w. Qed.

Lemma cancel_no_delivery (k : string) : preserves no_delivery (cancel k).
Proof. intros w. by rewrite cancel_eq. Qed.

Lemma after_close_no_delivery (conv sid : string) :
  preserves no_delivery
    ((if negb (is_string (TASKS_FLEX_CLOSE_CONVERSATION E) "false")
      then closeConversation E conv else ret tt) ;;
     (if negb (is_string (TASKS_FLEX_COMPLETE_TASK E) "false")
      then completeTaskRouterTask E sid else ret tt) ;;
     cancel sid)%M.
Proof.
  pose proof interact_no_delivery. pose proof svc_no_delivery.
  pose proof cancel_no_delivery.
  unfold closeConversation, completeTaskRouterTask, getTwilioClient, resolveWorkspaceSid,
    set_workspaceSid.
  repeat (frame_step; auto).
Qed.

Lemma flex_close_one_shot (sid : string) (w : World) :
  one_shot (fun w => flex_tasks (db w) !! sid) flex_close_blocked
    (sendFlexInactiveAndClose E sid) w.
Proof.
  unfold one_shot. cbv zeta.
  destruct (flex_tasks (db w) !! sid) as [r|] eqn:Hr.
  2: { left. unfold sendFlexInactiveAndClose, bind.
       by rewrite (findByTaskSid_missing sid w Hr). }
  unfold sendFlexInactiveAndClose. rewrite bind_world.
  destruct (findByTaskSid_marks E sid r w Hr)
    as (st & w0 & -> & Hdb & Hsched & Hsent & Hsvc & _ & _ & Hconv & _ & _ & _ & _ & _
        & Hg & _ & Hi & Ha).
  apply delivered_sent in Hsent as Hd0. rewrite <- Hd0. clear Hd0 Hsent.
  destruct (FlexTaskState.greeting_sent_at st) as [g|]; [|by left].
  destruct (bool_decide _); [by left|].
  destruct (negb (truthy _)); [by left|].
  destruct (later_than _ g); [by left|].
  cbv zeta. rewrite bind_world.
  destruct (getTwilioClient_cases w0) as [(b & w1 & -> & _ & _ & Hsent1)|(e & ->)];
    [|by left].
  apply delivered_sent in Hsent1 as Hd1. rewrite <- Hd1. clear Hd1 Hsent1.
  destruct b; cbn [negb]; [|by left].
  rewrite bind_world.
  destruct (resolveWorkerParticipantIdentity_cases
              (default "" (FlexTaskState.conversation_sid st))
              (FlexTaskState.worker_sid st)
              (mkHints (FlexTaskState.worker_name st) (FlexTaskState.customer_address st)
                 (FlexTaskState.customer_from st)) w1) as (ident & ->).
  change (delivered w1) with (delivered (next_io w1)).
  destruct (truthy ident); cbn [negb]; [|by left].
  rewrite bind_world.
  destruct (sendConversationMessage_cases
              (default "" (FlexTaskState.conversation_sid st))
              (inactivityCloseMessage (or_string (FlexTaskState.customer_name st) "cliente"))
              ident (next_io w1)) as [(ok & w3 & -> & _ & _ & Hd3)|(e & ->)];
    [|by left].
  destruct ok; cbn [negb]; [|by left].
  right. rewrite bind_world, new_Date_eq, bind_world.
  assert (FlexTasksRepository.markInactiveSent E sid (Date_now E (io w3)) (next_io w3) =
          (Returned tt,
           upserted sid (FlexTasksRepository.inactive_columns (Date_now E (io w3))
                           (Date_now E (S (io w3)))) (next_io w3))) as -> by done.
  set (w4 := upserted sid _ _).
  destruct (after_close_no_delivery
              (default "" (FlexTaskState.conversation_sid st)) sid w4) as [Hd Hrows].
  rewrite Hd, Hrows. split; [exact Hd3|].
  subst w4. cbn. rewrite lookup_insert_eq. eexists. split; [done|].
  right; left. by eexists.
Qed.

(** X27. However often a timer callback of a flex task fires in a row, at
    most one of its messages is delivered: the mark written after a delivered
    message blocks the callback, also when the closing steps that follow the
    inactivity message fail. *)
Theorem flex_callbacks_deliver_once (sid : string) (n : nat) (w : World) :
  (length (delivered (fired n (sendFlexPingIfInactive E sid) w))
   <= S (length (delivered w)))%nat /\
  (length (delivered (fired n (sendFlexInactiveAndClose E sid) w))
   <= S (length (delivered w)))%nat.
Proof.
  split.
  - apply (one_shot_fired (fun w => flex_tasks (db w) !! sid) flex_ping_blocked);
      [apply flex_ping_one_shot|].
    intros w0 r Hr Hb.
    destruct (flex_ping_blocked_silent sid r w0 Hr Hb) as (w' & -> & Hdb & _ & Hsent & _).
    unfold world_of. cbn [snd]. split; [by apply delivered_sent|by rewrite Hdb].
  - apply (one_shot_fired (fun w => flex_tasks (db w) !! sid) flex_close_blocked);
      [apply flex_close_one_shot|].
    intros w0 r Hr Hb.
    destruct (flex_close_blocked_silent sid r w0 Hr Hb) as (w' & -> & Hdb & _ & Hsent & _).
    unfold world_of. cbn [snd]. split; [by apply delivered_sent|by rewrite Hdb].
Qed.

End FlexCallbacks.

(** The instance of X26: the customer wrote at 2000, after the greeting at
    1000; both callbacks of the task stay silent. *)
Lemma flex_callbacks_silent_when_blocked_witness :
  (exists w', TasksService.sendFlexPingIfInactive demo_env "WT1" bia_active_world =
                (Returned tt, w') /\ only_clock_read bia_active_world w') /\
  (exists w', TasksService.sendFlexInactiveAndClose demo_env "WT1" bia_active_world =
                (Returned tt, w') /\ only_clock_read bia_active_world w').
Proof.
  pose proof (flex_callbacks_silent_when_blocked demo_env "WT1" bia_active_world) as H.
  assert (flex_tasks (db bia_active_world) !! "WT1" = Some bia_active_row) as Hl
    by (vm_compute; reflexivity).
  rewrite Hl in H. destruct H as [H1 H2].
  split; [apply H1|apply H2]; right; right; right; exists 1000, 2000;
    (split; [reflexivity|split; [reflexivity|lia]]).
Defined.

(** * The worker tick and the listing *)

Section TickAndList.
Import TasksService.
Context (E : Env).

Lemma tick_eq (w : World) :
  TasksWorker.tick E w =
  if running w then (Returned tt, w)
  else (Returned tt,
        set_running false (world_of (autoProcessAssignedTasks E (set_running true w)))).
Proof.
  unfold TasksWorker.tick, bind at 1, gets. cbv beta iota.
  destruct (running w); [done|].
  unfold bind, modify, try_catch, ret. cbv beta iota.
  by destruct (autoProcessAssignedTasks E (set_running true w)) as [[[]|e] w'].
Qed.

(** X28. A tick never throws.  When a tick is already running it does
    nothing; otherwise it leaves the [running] flag cleared, whatever
    happened inside.  In particular, when the flex pipeline throws (the
    provider rejects a listing) in a mode other than "internal", the tick
    ends there: the internal pipeline is not run in that tick. *)
Theorem tick_swallows_failures (w : World) :
  value_of (TasksWorker.tick E w) = Returned tt /\
  (running w = true -> TasksWorker.tick E w = (Returned tt, w)) /\
  (running w = false -> running (world_of (TasksWorker.tick E w)) = false) /\
  (running w = false -> source E <> "internal" ->
   forall e w',
     autoProcessFlexAssignedTasks E (set_running true w) = (Thrown e, w') ->
     TasksWorker.tick E w = (Returned tt, set_running false w')).
Proof.
  rewrite tick_eq. split; [by destruct (running w)|].
  split; [by intros ->|]. split; [by intros ->|].
  intros -> Hsrc e w' Hflex. do 2 f_equal.
  unfold autoProcessAssignedTasks. rewrite bool_decide_eq_false_2 by done.
  cbn [negb]. unfold bind. by rewrite Hflex.
Qed.

Lemma List_filter_sublist {A : Type} (p : A -> bool) (l : list A) :
  List.filter p l `sublist_of` l.
Proof.
  induction l as [|x l IH]; simpl; [constructor|].
  destruct (p x); by constructor.
Qed.

(** X29. [list] returns rows of the table in table order, each passing the
    status and operator filters that were given (an empty operator id is no
    filter), at most 1000 of them, and changes nothing. *)
Theorem list_honours_filters (filters : ListFilters) (w : World) :
  exists l,
    listTasks filters w = (Returned l, w) /\
    l `sublist_of` tasks (db w) /\
    (length l <= 1000)%nat /\
    Forall (passes filters) l.
Proof.
  pose proof (normalizeLimit_bounds (default (of_Z 100) (f_limit filters))) as Hn.
  assert (forall (p : Task -> bool) (rows : list Task),
            (forall t, p t = true -> passes filters t) ->
            rows `sublist_of` tasks (db w) ->
            let l := List.filter p
                       (take (Z.to_nat (TasksRepository.normalizeLimit
                                          (default (of_Z 100) (f_limit filters)) 1000)) rows) in
            l `sublist_of` tasks (db w) /\ (length l <= 1000)%nat /\
            Forall (passes filters) l) as Hgen.
  { intros p rows Hp Hrows l. split; [|split].
    - etrans; [apply List_filter_sublist|]. etrans; [apply sublist_take|done].
    - etrans; [apply List.filter_length_le|]. rewrite length_take. lia.
    - apply Forall_forall. intros t Ht. apply list_elem_of_In, filter_In in Ht as [_ Ht].
      by apply Hp. }
  unfold listTasks, bind. destruct (f_status filters) as [st|] eqn:Hst.
  - eexists. split; [reflexivity|]. apply Hgen; [|apply sublist_filter].
    intros t Ht. split.
    + intros st' Hs. rewrite Hst in Hs. injection Hs as <-.
      destruct (truthy (f_operatorId filters) && _); [done|].
      by apply bool_decide_eq_true in Ht.
    + intros op Hop Hne. rewrite Hop in Ht. cbn [truthy] in Ht.
      apply nonempty_true in Hne. rewrite Hne in Ht. cbn [andb] in Ht.
      destruct (bool_decide (operator_id t = Some op)) eqn:Hb; [|done].
      by apply bool_decide_eq_true in Hb.
  - eexists. split; [reflexivity|]. apply Hgen; [|done].
    intros t Ht. split; [intros st' Hs; congruence|].
    intros op Hop Hne. rewrite Hop in Ht. cbn [truthy] in Ht.
    apply nonempty_true in Hne. rewrite Hne in Ht. cbn [andb] in Ht.
    destruct (bool_decide (operator_id t = Some op)) eqn:Hb; [|done].
    by apply bool_decide_eq_true in Hb.
Qed.

End TickAndList.

(** The instance of X28: the task listing is rejected; the tick returns and
    Ana's ungreeted task gets no message in it. *)
Lemma tick_swallows_failures_witness :
  let w := with_tasks [ana_assigned] 1 in
  TasksWorker.tick demo_env_flex_down w =
    (Returned tt,
     set_running false
       (world_of (TasksService.autoProcessFlexAssignedTasks demo_env_flex_down
                    (set_running true w)))) /\
  sent (world_of (TasksWorker.tick demo_env_flex_down w)) = [].
Proof.
  intros w. split; [|vm_compute; reflexivity].
  apply (proj2 (proj2 (proj2 (tick_swallows_failures demo_env_flex_down w)))
           eq_refl) with (e := "tasks.list").
  - vm_compute. discriminate.
  - vm_compute. reflexivity.
Defined.

(** * The flex pipeline on a task that was greeted *)

Section FlexPipeline.
Import TaskInactivityScheduler TasksService.
Context (E : Env).

Global Instance unsent_refl : Reflexive unsent.
Proof. by intros w. Qed.

Global Instance unsent_trans : Transitive unsent.
Proof. intros a b c [H1 H2] [H3 H4]. split; congruence. Qed.

Lemma interact_unsent : preserves unsent interact.
Proof. by intros w. Qed.

Lemma svc_unsent (f : Service -> Service) : preserves unsent (modify (set_svc f)).
Proof. by intros w. Qed.

Lemma cancel_unsent (k : string) : preserves unsent (cancel k).
Proof. intros w. by rewrite cancel_eq. Qed.

Lemma schedule_unsent (k : string) (g : Z) (p i : Callback) :
  preserves unsent (schedule E k g p i).
Proof. intros w. by rewrite schedule_eq. Qed.

Lemma resolveWorkerDisplayName_unsent (ws : string) (sid : option string) (fb : string) :
  preserves unsent (resolveWorkerDisplayName E ws sid fb).
Proof.
  pose proof interact_unsent. pose proof svc_unsent.
  unfold resolveWorkerDisplayName, workerNameCache_set.
  repeat (frame_step; auto).
Qed.

(** X8. The flex pipeline greets a task once: on a task whose row has a
    greeting mark it attempts no message, and the row keeps its greeting,
    ping, inactive and activity marks, whatever the provider answers. *)
Theorem flex_pipeline_never_regreets (ws : string) (task : ProviderTask)
    (r : FlexRow.t) (w : World) :
  flex_tasks (db w) !! pt_sid task = Some r ->
  is_Some (FlexRow.greeting_sent_at r) ->
  let w' := world_of (processFlexTask E ws task w) in
  sent w' = sent w /\
  exists r', flex_tasks (db w') !! pt_sid task = Some r' /\ flex_marks r' = flex_marks r.
Proof.
  intros Hr [g Hg]. cbv zeta.
  assert (forall w', unsent w w' ->
            sent w' = sent w /\
            exists r', flex_tasks (db w') !! pt_sid task = Some r' /\
                       flex_marks r' = flex_marks r) as Hexit.
  { intros w' [Hs Hrows]. split; [done|]. exists r. by rewrite Hrows. }
  unfold processFlexTask. cbv zeta.
  destruct (prop _ "conversationSid") as [c|]; [|by apply Hexit].
  destruct (as_string c) as [conv|]; [|by apply Hexit].
  destruct (negb (startsWith conv "CH")); [by apply Hexit|].
  rewrite bind_world. change (interact w) with (Returned (io w), next_io w).
  cbv beta iota.
  destruct (reservations_list E (io w) ws (pt_sid task)) as [[|reservation rest]|];
    [by apply Hexit| |by apply Hexit].
  rewrite bind_world.
  destruct (findByTaskSid_marks E (pt_sid task) r (next_io w) Hr)
    as (st & w1 & -> & Hdb1 & _ & Hsent1 & _ & _ & _ & _ & _ & _ & _ & _ & _
        & Hg1 & _ & Hi1 & Ha1).
  rewrite bind_world.
  match goal with
  | |- context [match ?m w1 with _ => _ end] =>
      assert (preserves unsent m) as Hname;
        [pose proof resolveWorkerDisplayName_unsent; repeat (frame_step; auto)|];
      destruct (Hname w1) as [Hsent2 Hrows2];
      destruct (m w1) as [[workerName|e] w2]
  end; unfold world_of in Hsent2, Hrows2; cbn [snd] in Hsent2, Hrows2.
  2: { apply Hexit. split; [by rewrite Hsent2, Hsent1|by rewrite Hrows2, Hdb1]. }
  rewrite bind_world.
  match goal with
  | |- context [FlexTasksRepository.upsertBaseState E ?i w2] =>
      destruct (upsertBaseState_world E i w2)
        as (createdAt & w3 & -> & Hrows3 & _ & _ & _ & Hsent3 & _)
  end.
  cbn [FlexTasksRepository.taskSid] in Hrows3.
  match goal with
  | |- context [world_of (?m w3)] =>
      assert (preserves unsent m) as Hlast
  end.
  { pose proof cancel_unsent. pose proof schedule_unsent. pose proof interact_unsent.
    cbn [mbind option_bind]. rewrite Hg1, Hg.
    unfold scheduleFlexInactivityTimers, has. repeat (frame_step; auto). }
  destruct (Hlast w3) as [Hsent4 Hrows4]. split.
  - by rewrite Hsent4, Hsent3, Hsent2, Hsent1.
  - rewrite Hrows4, Hrows3, lookup_insert_eq, Hrows2, Hdb1.
    change (flex_tasks (db (next_io w))) with (flex_tasks (db w)). rewrite Hr.
    eexists. split; [reflexivity|done].
Qed.

End FlexPipeline.

(** The instance of X8: Bia's task, greeted at 1000, is polled again. *)
Lemma flex_pipeline_never_regreets_witness :
  let w' := world_of (TasksService.processFlexTask demo_env_flex "WS1" bia_provider_task
                        bia_flex_world) in
  sent w' = sent bia_flex_world /\
  exists r', flex_tasks (db w') !! "WT1" = Some r' /\ flex_marks r' = flex_marks bia_flex_row.
Proof.
  apply (flex_pipeline_never_regreets demo_env_flex "WS1" bia_provider_task bia_flex_row
           bia_flex_world).
  - vm_compute. reflexivity.
  - by eexists.
Defined.

(** * Two ticks in a row *)

Global Instance db_kept_refl : Reflexive db_kept.
Proof. by intros w. Qed.

Global Instance db_kept_trans : Transitive db_kept.
Proof. intros a b c H1 H2. unfold db_kept in *. congruence. Qed.

Global Instance log_extends_refl : Reflexive log_extends.
Proof. intros w. exists []. by rewrite app_nil_r. Qed.

Global Instance log_extends_trans : Transitive log_extends.
Proof.
  intros a b c [l1 H1] [l2 H2]. exists (l1 ++ l2)%list. by rewrite H2, H1, app_assoc.
Qed.

Global Instance running_kept_refl : Reflexive running_kept.
Proof. by intros w. Qed.

Global Instance running_kept_trans : Transitive running_kept.
Proof. intros a b c H1 H2. unfold running_kept in *. congruence. Qed.

Section SecondTick.
Import TaskInactivityScheduler TasksService.
Context (E : Env).






End SecondTick.




